(** * Security Research Terminal: the panel's command loop, verified

    A shallow embedding of [panel.js] (class [SecurityResearchTerminal]):
    the key handler, the history buffer, the command dispatcher, the URL
    validation, the scraping, DOM and snippet handlers, and the bracket
    that [executeInPage] puts around the DevTools transport.

    Conventions of the embedding.
    - A JavaScript string is the list of its UTF-16 code units ([N]);
      [lit] turns an ASCII literal of the source into such a list and the
      few non-ASCII glyphs of the source are written by code unit.
    - The fields of the terminal object are the fields of the record
      [Terminal]; a method is a function in the monad [M], which threads
      the terminal and carries JavaScript exceptions.
    - What the host provides (the [URL] constructor, [fetch], the
      DevTools [eval], the wording of engine errors and the numeric
      coercion of strings) is a field of the record [Host].
    - A Number is an IEEE 754 binary64 value; [JsNumber] rounds to it
      and prints it as Number::toString does.
    - [await fetch(...)] is taken in one step; the DevTools transport is
      asynchronous in the model as in the code: [executeInPage] queues
      its callback and a later [transportCompletes] runs it. *)

From Stdlib Require Import List ZArith NArith Bool Lia String Ascii.
From Stdlib Require Import DecimalString.
Import ListNotations.

Set Warnings "-register-all".

(* ================================================================== *)
(** ** JavaScript strings *)
(* ================================================================== *)

Module Js.

Definition jsstring := list N.

(** An ASCII literal of the source, as code units. *)
Definition lit (s : string) : jsstring :=
  List.map N_of_ascii (list_ascii_of_string s).

Fixpoint eqb (a b : jsstring) : bool :=
  match a, b with
  | [], [] => true
  | x :: a', y :: b' => N.eqb x y && eqb a' b'
  | _, _ => false
  end.

(** [s.length === 0], the falsiness of a string. *)
Definition is_empty (s : jsstring) : bool :=
  match s with [] => true | _ => false end.

(** White space and line terminators, the class that [\s] and [trim]
    recognise: U+0009..U+000D, U+0020, U+00A0, U+1680, U+2000..U+200A,
    U+2028, U+2029, U+202F, U+205F, U+3000 and U+FEFF. *)
Definition is_space (c : N) : bool :=
  (((9 <=? c) && (c <=? 13)) || (c =? 32) || (c =? 160)
   || (c =? 5760) || ((8192 <=? c) && (c <=? 8202))
   || (c =? 8232) || (c =? 8233) || (c =? 8239) || (c =? 8287)
   || (c =? 12288) || (c =? 65279))%N.

(** [toLowerCase] on Basic Latin, Latin-1 and the Kelvin sign (the one
    code unit above U+00FF whose lower case is an ASCII letter).  The
    other code units are kept: their lower case in JavaScript holds a
    code unit above U+007F, so no comparison with a keyword of the
    panel, which is all the panel does with a lower-cased string, sees
    the difference. *)
Definition lower (c : N) : N :=
  if (((65 <=? c) && (c <=? 90))
      || ((192 <=? c) && (c <=? 222) && negb (c =? 215)))%N
  then (c + 32)%N
  else if (c =? 8490)%N then 107%N else c.

Definition toLowerCase (s : jsstring) : jsstring := List.map lower s.

Fixpoint trimStart (s : jsstring) : jsstring :=
  match s with
  | c :: r => if is_space c then trimStart r else s
  | [] => []
  end.

Definition trim (s : jsstring) : jsstring :=
  List.rev (trimStart (List.rev (trimStart s))).

(** [s.substring(n)] for [0 <= n]. *)
Definition substring_from (n : nat) (s : jsstring) : jsstring := skipn n s.

(** [s.substring(0, n)]. *)
Definition substring_to (n : nat) (s : jsstring) : jsstring := firstn n s.

(** [s.split(/\s+/)]: the fields between the maximal runs of white
    space; a leading or trailing run leaves an empty field, and the empty
    string has one field, itself.  [in_run] says that the code unit
    before [s] was white space. *)
Fixpoint split_fields (in_run : bool) (s : jsstring) : list jsstring :=
  match s with
  | [] => [[]]
  | c :: r =>
      if is_space c then
        if in_run then split_fields true r else [] :: split_fields true r
      else
        match split_fields false r with
        | f :: fs => (c :: f) :: fs
        | [] => [[c]]
        end
  end.

Definition split_ws (s : jsstring) : list jsstring := split_fields false s.

(** [s.split(sep)] for a one-unit separator. *)
Fixpoint split_on (sep : N) (s : jsstring) : list jsstring :=
  match s with
  | [] => [[]]
  | c :: r =>
      if N.eqb c sep then [] :: split_on sep r
      else match split_on sep r with
           | f :: fs => (c :: f) :: fs
           | [] => [[c]]
           end
  end.

Fixpoint starts_with (p s : jsstring) : bool :=
  match p, s with
  | [], _ => true
  | x :: p', y :: s' => N.eqb x y && starts_with p' s'
  | _ :: _, [] => false
  end.

(** [s.includes(p)]. *)
Fixpoint includes (p s : jsstring) : bool :=
  starts_with p s ||
  match s with
  | [] => false
  | _ :: r => includes p r
  end.

(** [parts.join(sep)]. *)
Fixpoint join (sep : jsstring) (parts : list jsstring) : jsstring :=
  match parts with
  | [] => []
  | [p] => p
  | p :: rest => p ++ sep ++ join sep rest
  end.

(** [s.replace(/'/g, "\\'")]: a backslash is put before every
    apostrophe; no other code unit is touched. *)
Definition apostrophe : N := 39%N.
Definition backslash : N := 92%N.

Fixpoint escape_quotes (s : jsstring) : jsstring :=
  match s with
  | [] => []
  | c :: r =>
      if N.eqb c apostrophe
      then backslash :: apostrophe :: escape_quotes r
      else c :: escape_quotes r
  end.

End Js.

Import Js.

(* ================================================================== *)
(** ** Numbers *)
(* ================================================================== *)

(** The Number type of ECMAScript without NaN: the finite values of
    IEEE 754 binary64 and the two infinities.  [Finite s m u] has the
    magnitude [m * 2^u]. *)
Module JsNumber.

#[local] Open Scope Z_scope.

Inductive Double :=
| Finite (negative : bool) (m : Z) (u : Z)
| Infinite (negative : bool).

(** [2^k] for any [k], as the fraction [(numerator, denominator)]. *)
Definition scale2 (n d k : Z) : Z * Z :=
  if 0 <=? k then (n * 2 ^ k, d) else (n, d * 2 ^ (- k)).

Definition scale10 (n d k : Z) : Z * Z :=
  if 0 <=? k then (n * 10 ^ k, d) else (n, d * 10 ^ (- k)).

(** The integer nearest to [n / d], ties to even ([0 <= n], [0 < d]). *)
Definition nearest_even (n d : Z) : Z :=
  let a := n / d in
  let r := n mod d in
  match 2 * r ?= d with
  | Lt => a
  | Gt => a + 1
  | Eq => if Z.even a then a else a + 1
  end.

(** The exponent [e] with [2^e <= n / d < 2^(e+1)] ([0 < n], [0 < d]). *)
Definition binary_exponent (n d : Z) : Z :=
  let e := Z.log2 n - Z.log2 d in
  let (a, b) := scale2 d n e in      (* d * 2^e <= n ? *)
  if a <=? b then e else e - 1.

(** The Number value of the rational [n / d] with the sign [negative]
    ([0 <= n], [0 < d]): round to nearest, ties to even, in binary64. *)
Definition round (negative : bool) (n d : Z) : Double :=
  if n =? 0 then Finite negative 0 0
  else
    let e := binary_exponent n d in
    let u := Z.max (e - 52) (-1074) in
    let (a, b) := scale2 n d (- u) in
    let m := nearest_even a b in
    if (971 <? u) || ((u =? 971) && (2 ^ 53 <=? m)) then Infinite negative
    else Finite negative m u.

Definition of_fraction (p : Z) (q : positive) : Double :=
  round (p <? 0) (Z.abs p) (Z.pos q).

Definition of_Z (z : Z) : Double := of_fraction z 1.

Definition is_zero (x : Double) : bool :=
  match x with
  | Finite _ m _ => m =? 0
  | Infinite _ => false
  end.

(** [x > 0]. *)
Definition positive (x : Double) : bool :=
  match x with
  | Finite s m _ => negb s && (0 <? m)
  | Infinite s => negb s
  end.

(** The same magnitude. *)
Definition same_magnitude (x : Double) (m u : Z) : bool :=
  match x with
  | Finite _ m' u' =>
      let k := Z.min u u' in
      m * 2 ^ (u - k) =? m' * 2 ^ (u' - k)
  | Infinite _ => false
  end.

(** The [n] with [10^(n-1) <= num / den < 10^n]: an estimate from the
    binary logarithm, corrected upwards. *)
Fixpoint first_above (fuel : nat) (num den n : Z) : Z :=
  match fuel with
  | O => n
  | S f =>
      let (a, b) := scale10 den num n in     (* num / den < 10^n ? *)
      if b <? a then n else first_above f num den (n + 1)
  end.

Definition decimal_exponent (num den : Z) : Z :=
  let l := Z.log2 num - Z.log2 den in
  first_above 8 num den ((l - 1) * 30103 / 100000 - 1).

(** A candidate [s * 10^(n-k)] for the digits of [num / den]: the
    digits [s], the position [n], and the distance to [num / den] as a
    fraction. *)
Record Candidate := { digits : Z; position : Z; off_n : Z; off_d : Z }.

Definition closer (a b : Candidate) : bool :=
  match off_n a * off_d b ?= off_n b * off_d a with
  | Lt => true
  | Gt => false
  | Eq => Z.even (digits a)
  end.

Definition best (cs : list Candidate) : option Candidate :=
  fold_left (fun acc c =>
               match acc with
               | None => Some c
               | Some a => if closer a c then Some a else Some c
               end) cs None.

(** The candidates with [k] digits at the position [n] that have the
    Number value [m * 2^u]. *)
Definition candidates (m u num den k n : Z) : list Candidate :=
  let (a, b) := scale10 num den (k - n) in   (* num / den / 10^(n-k) *)
  let lo := a / b in
  let r := a mod b in
  filter (fun c =>
            (10 ^ (k - 1) <=? digits c) && (digits c <? 10 ^ k)
            && (let (x, y) := scale10 (digits c) 1 (n - k) in
                same_magnitude (round false x y) m u))
    [ (let (x, y) := scale10 r b (n - k) in
       {| digits := lo; position := n; off_n := x; off_d := y |});
      (let (x, y) := scale10 (b - r) b (n - k) in
       {| digits := lo + 1; position := n; off_n := x; off_d := y |}) ].

(** The [n], [k] and [s] of Number::toString: the fewest digits [k]
    that give back the value, and among them the nearest. *)
Fixpoint shortest (fuel : nat) (m u num den n0 k : Z) : option Candidate :=
  match fuel with
  | O => None
  | S f =>
      match best (candidates m u num den k n0
                  ++ candidates m u num den k (n0 + 1)) with
      | Some c => Some c
      | None => shortest f m u num den n0 (k + 1)
      end
  end.

Definition decimal (z : Z) : jsstring :=
  lit (NilZero.string_of_int (Z.to_int z)).

Definition zeros (n : Z) : jsstring := repeat 48%N (Z.to_nat n).

(** Number::toString(x, 10) for a positive finite [x = m * 2^u]. *)
Definition magnitude_to_string (m u : Z) : jsstring :=
  let (num, den) := scale2 m 1 u in
  let n0 := decimal_exponent num den in
  match shortest 17 m u num den n0 1 with
  | None => []
  | Some c =>
      let s := decimal (digits c) in
      let k := Z.of_nat (List.length s) in
      let n := position c in
      if (-5 <=? n) && (n <=? 21) then
        if k <=? n then s ++ zeros (n - k)
        else if 0 <? n then
          firstn (Z.to_nat n) s ++ lit "." ++ skipn (Z.to_nat n) s
        else lit "0." ++ zeros (- n) ++ s
      else
        let e := n - 1 in
        let sign := if 0 <? e then lit "+" else lit "-" in
        (if k =? 1 then s else firstn 1 s ++ lit "." ++ skipn 1 s)
        ++ lit "e" ++ sign ++ decimal (Z.abs e)
  end.

(** Number::toString(x, 10). *)
Definition to_string (x : Double) : jsstring :=
  match x with
  | Infinite false => lit "Infinity"
  | Infinite true => lit "-Infinity"
  | Finite s m u =>
      if m =? 0 then lit "0"
      else (if s then lit "-" else []) ++ magnitude_to_string m u
  end.

Definition is_finite (x : Double) : bool :=
  match x with Finite _ _ _ => true | Infinite _ => false end.

End JsNumber.

(* ================================================================== *)
(** ** Values that cross the transport *)
(* ================================================================== *)

(** The DevTools transport hands the callback a JSON-like value: no
    functions, no holes, no NaN.  [VNum z] is the Number value of the
    integer [z] and [VFrac p q] the Number value of the fraction
    [p / q]: the binary64 value nearest to it (beyond the range of
    binary64 an infinity, which the transport does not deliver and the
    model treats as JavaScript does).  [VObj] lists the own
    properties in enumeration order, with distinct keys; such an object
    has the prototype of a plain object and an array that of an
    array. *)
Inductive JsValue : Type :=
| VUndefined
| VNull
| VBool (b : bool)
| VNum (z : Z)
| VFrac (p : Z) (q : positive)
| VStr (s : jsstring)
| VArr (items : list JsValue)
| VObj (props : list (jsstring * JsValue)).

Module Value.

(** [ToBoolean]. *)
Definition truthy (v : JsValue) : bool :=
  match v with
  | VUndefined | VNull => false
  | VBool b => b
  | VNum z => negb (Z.eqb z 0)
  | VFrac p q => negb (JsNumber.is_zero (JsNumber.of_fraction p q))
  | VStr s => negb (is_empty s)
  | VArr _ | VObj _ => true
  end.

Fixpoint lookup (k : jsstring) (ps : list (jsstring * JsValue)) : JsValue :=
  match ps with
  | [] => VUndefined
  | (k', v) :: r => if Js.eqb k k' then v else lookup k r
  end.

(** Whether the object has an own property [k]. *)
Definition has_key (k : jsstring) (ps : list (jsstring * JsValue)) : bool :=
  existsb (fun kv => Js.eqb k (fst kv)) ps.

(** [v.k] for a value that is neither [undefined] nor [null], and a key
    [k] that names no member of a built-in prototype (such are all the
    keys the panel reads: success, error, result, count, text, links,
    href, title, metas, name, content). *)
Definition prop (v : JsValue) (k : jsstring) : JsValue :=
  match v with
  | VObj ps => lookup k ps
  | _ => VUndefined
  end.

Definition is_nullish (v : JsValue) : bool :=
  match v with VUndefined | VNull => true | _ => false end.

Definition is_undefined (v : JsValue) : bool :=
  match v with VUndefined => true | _ => false end.

(** Number::toString of the Number value of an integer. *)
Definition num_to_string (z : Z) : jsstring :=
  JsNumber.to_string (JsNumber.of_Z z).

(** [ToString], as a template literal and the setter of [textContent]
    apply it; [None] is the TypeError of a value that has no primitive.
    An object is converted by the first callable of its [toString] and
    [valueOf]: a transported object holds no function, so an own
    property [toString] hides [Object.prototype.toString] and leaves
    [valueOf], which does not return a primitive; without such a
    property the text is [[object Object]].  An array is joined by
    [Array.prototype.join], which converts each item. *)
Fixpoint to_string (v : JsValue) : option jsstring :=
  match v with
  | VUndefined => Some (lit "undefined")
  | VNull => Some (lit "null")
  | VBool true => Some (lit "true")
  | VBool false => Some (lit "false")
  | VNum z => Some (num_to_string z)
  | VFrac p q => Some (JsNumber.to_string (JsNumber.of_fraction p q))
  | VStr s => Some s
  | VArr items =>
      (* Array.prototype.join: null and undefined items are empty *)
      option_map (join (lit ","))
        ((fix each (l : list JsValue) : option (list jsstring) :=
            match l with
            | [] => Some []
            | x :: r =>
                match (if is_nullish x then Some [] else to_string x) with
                | Some s =>
                    match each r with
                    | Some rest => Some (s :: rest)
                    | None => None
                    end
                | None => None
                end
            end) items)
  | VObj props =>
      if has_key (lit "toString") props then None
      else Some (lit "[object Object]")
  end.

End Value.

(* ================================================================== *)
(** ** [JSON.stringify(value, null, 2)] *)
(* ================================================================== *)

Module JSON.

Definition hex_digit (d : N) : N :=
  if (d <? 10)%N then (48 + d)%N else (87 + d)%N.

(** The escape [\uXXXX] of a code unit, in lower-case hexadecimal. *)
Definition unicode_escape (c : N) : jsstring :=
  [backslash; 117%N;
   hex_digit ((c / 4096) mod 16); hex_digit ((c / 256) mod 16);
   hex_digit ((c / 16) mod 16); hex_digit (c mod 16)]%N.

Definition is_lead (c : N) : bool := ((55296 <=? c) && (c <=? 56319))%N.
Definition is_trail (c : N) : bool := ((56320 <=? c) && (c <=? 57343))%N.

(** QuoteJSONString without the surrounding quotation marks. *)
Fixpoint quote_units (s : jsstring) : jsstring :=
  match s with
  | [] => []
  | c :: r =>
      if (c =? 8)%N then lit "\b" ++ quote_units r
      else if (c =? 9)%N then lit "\t" ++ quote_units r
      else if (c =? 10)%N then lit "\n" ++ quote_units r
      else if (c =? 12)%N then lit "\f" ++ quote_units r
      else if (c =? 13)%N then lit "\r" ++ quote_units r
      else if (c =? 34)%N then backslash :: 34%N :: quote_units r
      else if (c =? backslash)%N then backslash :: backslash :: quote_units r
      else if (c <? 32)%N then unicode_escape c ++ quote_units r
      else if is_lead c then
        match r with
        | d :: r' =>
            if is_trail d then c :: d :: quote_units r'
            else unicode_escape c ++ quote_units r
        | [] => unicode_escape c
        end
      else if is_trail c then unicode_escape c ++ quote_units r
      else c :: quote_units r
  end.

Definition quote (s : jsstring) : jsstring :=
  34%N :: quote_units s ++ [34%N].

Definition newline : jsstring := [10%N].
Definition gap : jsstring := lit "  ".

(** SerializeJSONProperty at the indentation [indent]; [None] is the
    [undefined] that [JSON.stringify(undefined)] returns. *)
Fixpoint serialize (indent : jsstring) (v : JsValue) : option jsstring :=
  match v with
  | VUndefined => None
  | VNull => Some (lit "null")
  | VBool true => Some (lit "true")
  | VBool false => Some (lit "false")
  | VNum z =>
      Some (if JsNumber.is_finite (JsNumber.of_Z z)
            then Value.num_to_string z else lit "null")
  | VFrac p q =>
      Some (if JsNumber.is_finite (JsNumber.of_fraction p q)
            then JsNumber.to_string (JsNumber.of_fraction p q)
            else lit "null")
  | VStr s => Some (quote s)
  | VArr items =>
      let inner := indent ++ gap in
      let parts :=
        (fix each (l : list JsValue) : list jsstring :=
           match l with
           | [] => []
           | x :: r =>
               match serialize inner x with
               | Some t => t
               | None => lit "null"
               end :: each r
           end) items in
      Some (match parts with
            | [] => lit "[]"
            | _ => lit "[" ++ newline ++ inner
                   ++ join (lit "," ++ newline ++ inner) parts
                   ++ newline ++ indent ++ lit "]"
            end)
  | VObj props =>
      let inner := indent ++ gap in
      let parts :=
        (fix each (l : list (jsstring * JsValue)) : list jsstring :=
           match l with
           | [] => []
           | (k, x) :: r =>
               match serialize inner x with
               | Some t => (quote k ++ lit ": " ++ t) :: each r
               | None => each r
               end
           end) props in
      Some (match parts with
            | [] => lit "{}"
            | _ => lit "{" ++ newline ++ inner
                   ++ join (lit "," ++ newline ++ inner) parts
                   ++ newline ++ indent ++ lit "}"
            end)
  end.

(** [JSON.stringify(v, null, 2)] for a [v] that is not [undefined]. *)
Definition stringify (v : JsValue) : jsstring :=
  match serialize [] v with
  | Some t => t
  | None => lit "undefined"
  end.

End JSON.

(* ================================================================== *)
(** ** The terminal object, its effects and the host *)
(* ================================================================== *)

(** The CSS class that [appendOutput] gives a line: 'command-line',
    'success', 'error', 'warning' or 'code'. *)
Inductive Category := CommandLine | Success | Error | Warning | Code.

Record OutputLine := Line { text : jsstring; category : Category }.

(** The [type] of the messages that the panel sends to the background
    worker. *)
Inductive Message := EXECUTION_START | EXECUTION_END.

(** The [type] argument of [setStatusIndicator]. *)
Inductive Indicator := snippet | dom | scraping.

(** The callbacks that the handlers pass to [executeInPage], one per
    arrow function of the source. *)
Inductive Callback :=
| PageTextCb | PageLinksCb | PageMetaCb
| SetTextCb | SetHtmlCb | SetAttributeCb | ReplaceTextCb
| SnippetCb.

(** What the panel does to the world outside its own fields, in the
    order in which it does it. *)
Inductive Event :=
| Sent (m : Message)                     (* chrome.runtime.sendMessage *)
| Evaluate (code : jsstring)             (* chrome.devtools.inspectedWindow.eval *)
| Fetch (url : jsstring)                 (* fetch *)
| Rendered (line : OutputLine)           (* a child appended to #output *)
| Cleared                                (* #output emptied *)
| Indicated (i : Indicator) (active : bool).

(** A call returns a value or throws an [Error] with a message. *)
Inductive Outcome (A : Type) :=
| Returned (a : A)
| Thrown (message : jsstring).
Arguments Returned {A} a.
Arguments Thrown {A} message.

(** The fields of a parsed [URL] that the panel reads. *)
Record URL := { protocol : jsstring; hostname : jsstring; pathname : jsstring }.

(** A [fetch] response: its [ok] flag and what [text()] resolves to. *)
Record Response := { ok : bool; body : Outcome jsstring }.

(** The TypeErrors that the panel's code can run into: a property read
    on [undefined] or on [null], a call of a property that is no
    function, and the conversion of an object that has no primitive. *)
Inductive TypeError :=
| PropertyOfUndefined (key : jsstring)
| PropertyOfNull (key : jsstring)
| NotAFunction (callee : jsstring)
| NotPrimitive.

(** The host.  [fetch] and the transport see the events so far, so that
    they may answer the same request differently at different times. *)
Record Host := {
  (** [new URL(s)]: the parsed URL, or the message of the [TypeError]. *)
  URL_new : jsstring -> Outcome URL;
  (** [await fetch(url)]: a response, or the message of the rejection. *)
  fetch : list Event -> jsstring -> Outcome Response;
  (** [chrome.devtools.inspectedWindow.eval(code, cb)] may throw at the
      call (the extension context is gone): the message, if it does. *)
  eval_throws : list Event -> jsstring -> option jsstring;
  (** The engine's wording of each [TypeError]. *)
  type_error : TypeError -> jsstring;
  (** Whether [ToNumber(s) > 0] (a floating-point parse). *)
  positive_numeral : jsstring -> bool
}.

Record Terminal := mkTerminal {
  commandInput : jsstring;            (* this.commandInput.value *)
  targetUrl : jsstring;               (* this.targetUrl.value *)
  targetBorder : jsstring;            (* this.targetUrl.style.borderColor *)
  commandHistory : list jsstring;     (* most recent first *)
  historyIndex : Z;
  validatedUrl : option URL;          (* None is null *)
  snippetStatus : bool;               (* class 'active' of the indicators *)
  domStatus : bool;
  scrapeStatus : bool;
  output : list OutputLine;           (* the children of #output *)
  pending : list (option Callback);   (* transport calls not yet completed *)
  events : list Event
}.

(** The state that the constructor leaves. *)
Definition initial : Terminal :=
  {| commandInput := []; targetUrl := []; targetBorder := [];
     commandHistory := []; historyIndex := -1; validatedUrl := None;
     snippetStatus := false; domStatus := false; scrapeStatus := false;
     output := []; pending := []; events := [] |}.

Definition set_commandInput (v : jsstring) (t : Terminal) : Terminal :=
  mkTerminal v (targetUrl t) (targetBorder t) (commandHistory t)
    (historyIndex t) (validatedUrl t) (snippetStatus t) (domStatus t)
    (scrapeStatus t) (output t) (pending t) (events t).

Definition set_targetUrl (v : jsstring) (t : Terminal) : Terminal :=
  mkTerminal (commandInput t) v (targetBorder t) (commandHistory t)
    (historyIndex t) (validatedUrl t) (snippetStatus t) (domStatus t)
    (scrapeStatus t) (output t) (pending t) (events t).

Definition set_targetBorder (v : jsstring) (t : Terminal) : Terminal :=
  mkTerminal (commandInput t) (targetUrl t) v (commandHistory t)
    (historyIndex t) (validatedUrl t) (snippetStatus t) (domStatus t)
    (scrapeStatus t) (output t) (pending t) (events t).

Definition set_commandHistory (v : list jsstring) (t : Terminal) : Terminal :=
  mkTerminal (commandInput t) (targetUrl t) (targetBorder t) v
    (historyIndex t) (validatedUrl t) (snippetStatus t) (domStatus t)
    (scrapeStatus t) (output t) (pending t) (events t).

Definition set_historyIndex (v : Z) (t : Terminal) : Terminal :=
  mkTerminal (commandInput t) (targetUrl t) (targetBorder t)
    (commandHistory t) v (validatedUrl t) (snippetStatus t) (domStatus t)
    (scrapeStatus t) (output t) (pending t) (events t).

Definition set_validatedUrl (v : option URL) (t : Terminal) : Terminal :=
  mkTerminal (commandInput t) (targetUrl t) (targetBorder t)
    (commandHistory t) (historyIndex t) v (snippetStatus t) (domStatus t)
    (scrapeStatus t) (output t) (pending t) (events t).

Definition set_status (i : Indicator) (v : bool) (t : Terminal) : Terminal :=
  mkTerminal (commandInput t) (targetUrl t) (targetBorder t)
    (commandHistory t) (historyIndex t) (validatedUrl t)
    (match i with snippet => v | _ => snippetStatus t end)
    (match i with dom => v | _ => domStatus t end)
    (match i with scraping => v | _ => scrapeStatus t end)
    (output t) (pending t) (events t).

Definition set_output (v : list OutputLine) (t : Terminal) : Terminal :=
  mkTerminal (commandInput t) (targetUrl t) (targetBorder t)
    (commandHistory t) (historyIndex t) (validatedUrl t) (snippetStatus t)
    (domStatus t) (scrapeStatus t) v (pending t) (events t).

Definition set_pending (v : list (option Callback)) (t : Terminal) : Terminal :=
  mkTerminal (commandInput t) (targetUrl t) (targetBorder t)
    (commandHistory t) (historyIndex t) (validatedUrl t) (snippetStatus t)
    (domStatus t) (scrapeStatus t) (output t) v (events t).

(** An event joins the record of what the panel has done. *)
Definition record (e : Event) (t : Terminal) : Terminal :=
  mkTerminal (commandInput t) (targetUrl t) (targetBorder t)
    (commandHistory t) (historyIndex t) (validatedUrl t) (snippetStatus t)
    (domStatus t) (scrapeStatus t) (output t) (pending t) (events t ++ [e]).

(** A line joins the display log. *)
Definition shows (l : OutputLine) (t : Terminal) : Terminal :=
  record (Rendered l) (set_output (output t ++ [l]) t).

(** An indicator is switched. *)
Definition switched (i : Indicator) (active : bool) (t : Terminal) : Terminal :=
  record (Indicated i active) (set_status i active t).

(* ================================================================== *)
(** ** Methods: state and exceptions *)
(* ================================================================== *)

Definition M (A : Type) : Type := Terminal -> Outcome A * Terminal.

Definition ret {A} (a : A) : M A := fun t => (Returned a, t).

Definition bind {A B} (m : M A) (k : A -> M B) : M B :=
  fun t =>
    match m t with
    | (Returned a, t') => k a t'
    | (Thrown e, t') => (Thrown e, t')
    end.

(** [throw new Error(message)]. *)
Definition throw {A} (message : jsstring) : M A := fun t => (Thrown message, t).

(** [try { body } catch (error) { handler(error.message) }]. *)
Definition try_catch {A} (body : M A) (handler : jsstring -> M A) : M A :=
  fun t =>
    match body t with
    | (Returned a, t') => (Returned a, t')
    | (Thrown e, t') => handler e t'
    end.

(** [try { body } finally { cleanup }]: the cleanup runs on both exits
    and the outcome of the body stands unless the cleanup throws. *)
Definition try_finally {A} (body : M A) (cleanup : M unit) : M A :=
  fun t =>
    match body t with
    | (r, t') =>
        match cleanup t' with
        | (Returned _, t'') => (r, t'')
        | (Thrown e, t'') => (Thrown e, t'')
        end
    end.

(** A field is read. *)
Definition read {A} (f : Terminal -> A) : M A := fun t => (Returned (f t), t).

(** Fields are assigned. *)
Definition assign (f : Terminal -> Terminal) : M unit :=
  fun t => (Returned tt, f t).

(** The outcome of an awaited host promise joins the method. *)
Definition settle {A} (o : Outcome A) : M A := fun t => (o, t).

Declare Scope method_scope.
Delimit Scope method_scope with method.
Notation "x <- c1 ;; c2" := (bind c1 (fun x => c2))
  (at level 61, c1 at next level, right associativity) : method_scope.
Notation "c1 ;; c2" := (bind c1 (fun _ => c2))
  (at level 61, right associativity) : method_scope.
Open Scope method_scope.

(** [for (const x of xs) body(x)]. *)
Fixpoint for_each {A} (xs : list A) (body : A -> M unit) : M unit :=
  match xs with
  | [] => ret tt
  | x :: r => body x ;; for_each r body
  end.

(* ================================================================== *)
(** ** The texts of the source *)
(* ================================================================== *)

Definition nl : jsstring := [10%N].
Definition dq : jsstring := [34%N].

(** The glyphs of the source outside ASCII: U+2713 (check mark),
    U+2717 (ballot x), U+2500 and U+2550 (box drawing), U+2192 (arrow). *)
Definition check_mark : jsstring := [10003%N].
Definition rule3 : jsstring := repeat 9472%N 3.
Definition arrow : jsstring := [8594%N].

(** [helpText] of [showHelp]. *)
Definition helpText : jsstring :=
  nl ++ repeat 9552%N 63 ++ nl ++ lit "AVAILABLE COMMANDS" ++ nl
  ++ repeat 9552%N 63 ++ nl ++ nl ++ lit "JAVASCRIPT SNIPPET EXECUTION:"
  ++ nl
  ++ lit "  <javascript code>          Execute JavaScript in page context"
  ++ nl
  ++ lit "  eval <code>                Explicitly evaluate JavaScript"
  ++ nl ++ lit "  Examples:" ++ nl ++ lit "    document.title" ++ nl
  ++ lit "    Array.from(document.links).map(l => l.href)" ++ nl
  ++ lit "    window.location.href" ++ nl ++ nl ++ lit "DOM MODIFICATION:"
  ++ nl
  ++ lit "  dom set <selector> <value>     Set text content of elements"
  ++ nl ++ lit "  dom html <selector> <html>     Set innerHTML of elements"
  ++ nl ++ lit "  dom attr <selector> <attr> <value>  Set attribute" ++ nl
  ++ lit "  dom replace <old> <new>        Replace text in page" ++ nl
  ++ lit "  Examples:" ++ nl ++ lit "    dom set h1 " ++ dq
  ++ lit "New Heading" ++ dq ++ nl ++ lit "    dom html #content " ++ dq
  ++ lit "<p>Updated</p>" ++ dq ++ nl
  ++ lit "    dom attr .button disabled true" ++ nl
  ++ lit "    dom replace " ++ dq ++ lit "old text" ++ dq ++ lit " " ++ dq
  ++ lit "new text" ++ dq ++ nl ++ nl
  ++ lit "SCRAPING (requires validated Target URL):" ++ nl
  ++ lit "  scrape github readme           Fetch README.md" ++ nl
  ++ lit "  scrape github tree             Show repository structure" ++ nl
  ++ lit "  scrape github file <path>      Fetch specific file" ++ nl
  ++ lit "  scrape page text               Extract visible text" ++ nl
  ++ lit "  scrape page links              Extract all links" ++ nl
  ++ lit "  scrape page meta               Extract meta tags" ++ nl ++ nl
  ++ lit "UTILITY:" ++ nl
  ++ lit "  help                          Show this help" ++ nl
  ++ lit "  clear                         Clear terminal output" ++ nl
  ++ nl ++ repeat 9552%N 63 ++ nl ++ lit "ETHICAL USAGE GUIDELINES" ++ nl
  ++ repeat 9552%N 63 ++ nl ++ nl ++ [10003%N]
  ++ lit " Only operate on tabs you explicitly opened" ++ nl ++ [10003%N]
  ++ lit " Only scrape public repositories and websites" ++ nl ++ [10003%N]
  ++ lit " Respect robots.txt and terms of service" ++ nl ++ [10003%N]
  ++ lit " Use for authorized bug bounty research only" ++ nl ++ [10003%N]
  ++ lit " No automated crawling or rate limit abuse" ++ nl ++ nl
  ++ [10007%N] ++ lit " No authentication bypass attempts" ++ nl
  ++ [10007%N] ++ lit " No private content access" ++ nl ++ [10007%N]
  ++ lit " No data exfiltration" ++ nl ++ [10007%N]
  ++ lit " No malicious code injection" ++ nl ++ nl ++ repeat 9552%N 63
  ++ nl.

(** The scripts that the handlers generate, as the template literals of
    the source spell them; a user-supplied argument goes through
    [escape_quotes] where the source calls [replace]. *)
Definition pageTextCode : jsstring :=
  nl ++ lit "      (() => {" ++ nl
  ++ lit "        const body = document.body;" ++ nl
  ++ lit "        const text = body.innerText || body.textContent;" ++ nl
  ++ lit "        return { text: text.substring(0, 5000) }; // Limit output"
  ++ nl ++ lit "      })()" ++ nl ++ lit "    ".

Definition pageLinksCode : jsstring :=
  nl ++ lit "      (() => {" ++ nl
  ++ lit "        const links = Array.from(document.querySelectorAll('a[href]'));"
  ++ nl ++ lit "        return {" ++ nl
  ++ lit "          count: links.length," ++ nl
  ++ lit "          links: links.slice(0, 100).map(a => ({" ++ nl
  ++ lit "            text: a.textContent.trim().substring(0, 50)," ++ nl
  ++ lit "            href: a.href" ++ nl ++ lit "          }))" ++ nl
  ++ lit "        };" ++ nl ++ lit "      })()" ++ nl ++ lit "    ".

Definition pageMetaCode : jsstring :=
  nl ++ lit "      (() => {" ++ nl
  ++ lit "        const metas = Array.from(document.querySelectorAll('meta'));"
  ++ nl ++ lit "        return {" ++ nl
  ++ lit "          title: document.title," ++ nl
  ++ lit "          metas: metas.map(m => ({" ++ nl
  ++ lit "            name: m.getAttribute('name') || m.getAttribute('property'),"
  ++ nl ++ lit "            content: m.getAttribute('content')" ++ nl
  ++ lit "          })).filter(m => m.name)" ++ nl ++ lit "        };"
  ++ nl ++ lit "      })()" ++ nl ++ lit "    ".

Definition setTextCode (selector : jsstring) (text : jsstring) : jsstring :=
  nl ++ lit "      (() => {" ++ nl
  ++ lit "        const elements = document.querySelectorAll('"
  ++ escape_quotes selector ++ lit "');" ++ nl
  ++ lit "        elements.forEach(el => el.textContent = '"
  ++ escape_quotes text ++ lit "');" ++ nl
  ++ lit "        return { count: elements.length };" ++ nl
  ++ lit "      })()" ++ nl ++ lit "    ".

Definition setHtmlCode (selector : jsstring) (html : jsstring) : jsstring :=
  nl ++ lit "      (() => {" ++ nl
  ++ lit "        const elements = document.querySelectorAll('"
  ++ escape_quotes selector ++ lit "');" ++ nl
  ++ lit "        elements.forEach(el => el.innerHTML = '"
  ++ escape_quotes html ++ lit "');" ++ nl
  ++ lit "        return { count: elements.length };" ++ nl
  ++ lit "      })()" ++ nl ++ lit "    ".

Definition setAttributeCode (selector : jsstring) (attr : jsstring) (value : jsstring) : jsstring :=
  nl ++ lit "      (() => {" ++ nl
  ++ lit "        const elements = document.querySelectorAll('"
  ++ escape_quotes selector ++ lit "');" ++ nl
  ++ lit "        elements.forEach(el => el.setAttribute('"
  ++ escape_quotes attr ++ lit "', '" ++ escape_quotes value ++ lit "'));"
  ++ nl ++ lit "        return { count: elements.length };" ++ nl
  ++ lit "      })()" ++ nl ++ lit "    ".

Definition replaceTextCode (oldText : jsstring) (newText : jsstring) : jsstring :=
  nl ++ lit "      (() => {" ++ nl ++ lit "        let count = 0;" ++ nl
  ++ lit "        const walker = document.createTreeWalker(" ++ nl
  ++ lit "          document.body," ++ nl
  ++ lit "          NodeFilter.SHOW_TEXT," ++ nl ++ lit "          null,"
  ++ nl ++ lit "          false" ++ nl ++ lit "        );" ++ nl
  ++ lit "        " ++ nl ++ lit "        const nodesToReplace = [];" ++ nl
  ++ lit "        while(walker.nextNode()) {" ++ nl
  ++ lit "          const node = walker.currentNode;" ++ nl
  ++ lit "          if (node.nodeValue && node.nodeValue.includes('"
  ++ escape_quotes oldText ++ lit "')) {" ++ nl
  ++ lit "            nodesToReplace.push(node);" ++ nl
  ++ lit "          }" ++ nl ++ lit "        }" ++ nl ++ lit "        "
  ++ nl ++ lit "        nodesToReplace.forEach(node => {" ++ nl
  ++ lit "          node.nodeValue = node.nodeValue.replace(" ++ nl
  ++ lit "            new RegExp('" ++ escape_quotes oldText
  ++ lit "', 'g')," ++ nl ++ lit "            '" ++ escape_quotes newText
  ++ lit "'" ++ nl ++ lit "          );" ++ nl ++ lit "          count++;"
  ++ nl ++ lit "        });" ++ nl ++ lit "        " ++ nl
  ++ lit "        return { count };" ++ nl ++ lit "      })()" ++ nl
  ++ lit "    ".

Definition wrappedCode (code : jsstring) : jsstring :=
  nl ++ lit "        (() => {" ++ nl ++ lit "          try {" ++ nl
  ++ lit "            const result = " ++ code ++ lit ";" ++ nl
  ++ lit "            return { success: true, result };" ++ nl
  ++ lit "          } catch (error) {" ++ nl
  ++ lit "            return { success: false, error: error.message };"
  ++ nl ++ lit "          }" ++ nl ++ lit "        })()" ++ nl
  ++ lit "      ".

(* ================================================================== *)
(** ** The methods of [SecurityResearchTerminal] *)
(* ================================================================== *)

(** [args[0]?.toLowerCase()] and the [case] labels it is compared with. *)
Definition first_lower (args : list jsstring) : option jsstring :=
  option_map toLowerCase (hd_error args).

Definition is_case (v : option jsstring) (label : string) : bool :=
  match v with
  | Some s => Js.eqb s (lit label)
  | None => false
  end.

(** [args.slice(1)]. *)
Definition slice1 {A} (args : list A) : list A := tl args.

(** [xs[i]] where the source has made sure that it exists. *)
Definition item (i : nat) (xs : list jsstring) : jsstring := nth i xs [].

(** [maxLength] of [displayFileContent], and the content it shows. *)
Definition maxLength : nat := N.to_nat 5000.

Definition truncation_marker : jsstring := nl ++ nl ++ lit "[... truncated ...]".

Definition displayContent (content : jsstring) : jsstring :=
  if Nat.ltb maxLength (List.length content)
  then substring_to maxLength content ++ truncation_marker
  else content.

Definition raw_url (owner repo branch filePath : jsstring) : jsstring :=
  lit "https://raw.githubusercontent.com/" ++ owner ++ lit "/" ++ repo
  ++ lit "/" ++ branch ++ lit "/" ++ filePath.

Definition commonFiles : list jsstring :=
  [lit "README.md"; lit "package.json"; lit "manifest.json";
   lit "SECURITY.md"; lit "LICENSE"].

Definition remove_nth {A} (n : nat) (l : list A) : list A :=
  firstn n l ++ skipn (S n) l.

Section Panel.

Variable host : Host.

(** [appendOutput(text, type)]. *)
Definition appendOutput (text : jsstring) (type : Category) : M unit :=
  assign (shows (Line text type)).

(** [setStatusIndicator(type, active)]. *)
Definition setStatusIndicator (type : Indicator) (active : bool) : M unit :=
  assign (switched type active).

(** [chrome.runtime.sendMessage({ type })]: fire and forget; the send
    is taken to succeed. *)
Definition sendMessage (type : Message) : M unit :=
  assign (record (Sent type)).

(** [chrome.devtools.inspectedWindow.eval(code, wrapper)]: the call is
    recorded and the callback waits for the transport to complete. *)
Definition inspectedWindow_eval (code : jsstring) (callback : option Callback)
  : M unit :=
  fun t =>
    match eval_throws host (events t) code with
    | Some e => (Thrown e, t)
    | None =>
        (Returned tt,
         set_pending (pending t ++ [callback]) (record (Evaluate code) t))
    end.

(** [await fetch(url)]. *)
Definition fetch_url (url : jsstring) : M Response :=
  fun t => (fetch host (events t) url, record (Fetch url) t).

(** [executeInPage(code, callback)], up to the point where the
    transport takes over. *)
Definition executeInPage (code : jsstring) (callback : option Callback)
  : M unit :=
  sendMessage EXECUTION_START ;;
  inspectedWindow_eval code callback.

(** [ToString(v)] inside a method. *)
Definition toString (v : JsValue) : M jsstring :=
  match Value.to_string v with
  | Some s => ret s
  | None => throw (type_error host NotPrimitive)
  end.

(** [v.k] inside a method. *)
Definition get (v : JsValue) (k : jsstring) : M JsValue :=
  match v with
  | VUndefined => throw (type_error host (PropertyOfUndefined k))
  | VNull => throw (type_error host (PropertyOfNull k))
  | _ => ret (Value.prop v k)
  end.

(** [x > 0] for a transported [x]: ToPrimitive with the hint number,
    ToNumber, then the comparison.  An object comes to its primitive
    through [toString] ([valueOf] returns the object itself), which
    gives a text that is no numeral. *)
Definition gt_zero (v : JsValue) : M bool :=
  match v with
  | VUndefined | VNull => ret false
  | VBool b => ret b
  | VNum z => ret (Z.ltb 0 z)
  | VFrac p q => ret (JsNumber.positive (JsNumber.of_fraction p q))
  | VStr s => ret (positive_numeral host s)
  | VArr _ => s <- toString v ;; ret (positive_numeral host s)
  | VObj _ => toString v ;; ret false
  end.

(** The callback of [scrapePageText]. *)
Definition pageTextCallback (result : JsValue) : M unit :=
  if Value.truthy result && Value.truthy (Value.prop result (lit "text")) then
    appendOutput (nl ++ rule3 ++ lit " Page Text " ++ rule3) Success ;;
    text <- toString (Value.prop result (lit "text")) ;;
    appendOutput text Success ;;
    appendOutput (rule3 ++ lit " End " ++ rule3 ++ nl) Success
  else ret tt.

(** [items.forEach(body)] on a transported value; [callee] is the text
    of the expression [items.forEach], which the engine names when it
    is no function. *)
Definition forEach (callee : string) (items : JsValue)
    (body : JsValue -> M unit) : M unit :=
  match items with
  | VArr l => for_each l body
  | VUndefined => throw (type_error host (PropertyOfUndefined (lit "forEach")))
  | VNull => throw (type_error host (PropertyOfNull (lit "forEach")))
  | _ => throw (type_error host (NotAFunction (lit callee)))
  end.

(** The callback of [scrapePageLinks]. *)
Definition pageLinksCallback (result : JsValue) : M unit :=
  if Value.truthy result && Value.truthy (Value.prop result (lit "links")) then
    count <- toString (Value.prop result (lit "count")) ;;
    appendOutput
      (nl ++ lit "Found " ++ count ++ lit " links (showing first 100):")
      Success ;;
    forEach "result.links.forEach" (Value.prop result (lit "links"))
      (fun link =>
      text <- get link (lit "text") ;;
      text <- toString text ;;
      href <- get link (lit "href") ;;
      href <- toString href ;;
      appendOutput
        (lit "  " ++ text ++ lit " " ++ arrow ++ lit " " ++ href) Success)
  else ret tt.

(** The callback of [scrapePageMeta]. *)
Definition pageMetaCallback (result : JsValue) : M unit :=
  if Value.truthy result then
    title <- toString (Value.prop result (lit "title")) ;;
    appendOutput (nl ++ lit "Title: " ++ title) Success ;;
    appendOutput (nl ++ lit "Meta Tags:") Success ;;
    forEach "result.metas.forEach" (Value.prop result (lit "metas"))
      (fun meta =>
      name <- get meta (lit "name") ;;
      name <- toString name ;;
      content <- get meta (lit "content") ;;
      content <- toString content ;;
      appendOutput (lit "  " ++ name ++ lit ": " ++ content) Success)
  else ret tt.

(** [result && result.count > 0], the test of the four DOM callbacks. *)
Definition matched (result : JsValue) : M bool :=
  if Value.truthy result then gt_zero (Value.prop result (lit "count"))
  else ret false.

Definition count_of (result : JsValue) : M jsstring :=
  toString (Value.prop result (lit "count")).

(** The callback of [domSetText]. *)
Definition setTextCallback (result : JsValue) : M unit :=
  found <- matched result ;;
  if found then
    count <- count_of result ;;
    appendOutput
      (check_mark ++ lit " Updated " ++ count ++ lit " element(s)") Success
  else appendOutput (lit "WARNING: No elements matched selector") Warning.

(** The callback of [domSetHtml]. *)
Definition setHtmlCallback (result : JsValue) : M unit :=
  found <- matched result ;;
  if found then
    count <- count_of result ;;
    appendOutput
      (check_mark ++ lit " Updated HTML of " ++ count ++ lit " element(s)")
      Success
  else appendOutput (lit "WARNING: No elements matched selector") Warning.

(** The callback of [domSetAttribute]. *)
Definition setAttributeCallback (result : JsValue) : M unit :=
  found <- matched result ;;
  if found then
    count <- count_of result ;;
    appendOutput
      (check_mark ++ lit " Updated attribute of " ++ count
       ++ lit " element(s)") Success
  else appendOutput (lit "WARNING: No elements matched selector") Warning.

(** The callback of [domReplaceText]. *)
Definition replaceTextCallback (result : JsValue) : M unit :=
  found <- matched result ;;
  if found then
    count <- count_of result ;;
    appendOutput
      (check_mark ++ lit " Replaced text in " ++ count ++ lit " location(s)")
      Success
  else appendOutput (lit "WARNING: Text not found in page") Warning.

(** The callback of [handleSnippetExecution]. *)
Definition snippetCallback (result : JsValue) (isException : bool) : M unit :=
  if isException then
    value <- toString result ;;
    appendOutput (lit "EXCEPTION: " ++ value) Error
  else if Value.truthy result
          && negb (Value.truthy (Value.prop result (lit "success"))) then
    message <- toString (Value.prop result (lit "error")) ;;
    appendOutput (lit "ERROR: " ++ message) Error
  else if Value.truthy result
          && negb (Value.is_undefined (Value.prop result (lit "result"))) then
    appendOutput (JSON.stringify (Value.prop result (lit "result"))) Success
  else appendOutput (lit "undefined") Success.

Definition invoke (callback : Callback) (result : JsValue) (isException : bool)
  : M unit :=
  match callback with
  | PageTextCb => pageTextCallback result
  | PageLinksCb => pageLinksCallback result
  | PageMetaCb => pageMetaCallback result
  | SetTextCb => setTextCallback result
  | SetHtmlCb => setHtmlCallback result
  | SetAttributeCb => setAttributeCallback result
  | ReplaceTextCb => replaceTextCallback result
  | SnippetCb => snippetCallback result isException
  end.

(** The wrapper that [executeInPage] hands to the transport: the end
    message, then the caller's callback if there is one. *)
Definition evalCompleted (callback : option Callback) (result : JsValue)
    (isException : bool) : M unit :=
  sendMessage EXECUTION_END ;;
  match callback with
  | Some c => invoke c result isException
  | None => ret tt
  end.

(** The transport completes its [n]-th outstanding call with
    [(result, isException)]. *)
Definition transportCompletes (n : nat) (result : JsValue) (isException : bool)
  : M unit :=
  fun t =>
    match nth_error (pending t) n with
    | Some callback =>
        evalCompleted callback result isException
          (set_pending (remove_nth n (pending t)) t)
    | None => (Returned tt, t)
    end.

(** [navigateHistory(direction)].  A read of [commandHistory] outside
    its bounds yields [undefined], which the input field shows as the
    text "undefined". *)
Definition history_entry (history : list jsstring) (i : Z) : jsstring :=
  if (i <? 0)%Z then lit "undefined"
  else nth (Z.to_nat i) history (lit "undefined").

Definition navigateHistory (direction : jsstring) : M unit :=
  fun t =>
    if Nat.eqb (List.length (commandHistory t)) 0 then (Returned tt, t)
    else if Js.eqb direction (lit "up") then
      if (historyIndex t <? Z.of_nat (List.length (commandHistory t)) - 1)%Z then
        let i := (historyIndex t + 1)%Z in
        (Returned tt,
         set_commandInput (history_entry (commandHistory t) i)
           (set_historyIndex i t))
      else (Returned tt, t)
    else
      if (historyIndex t >? 0)%Z then
        let i := (historyIndex t - 1)%Z in
        (Returned tt,
         set_commandInput (history_entry (commandHistory t) i)
           (set_historyIndex i t))
      else if (historyIndex t =? 0)%Z then
        (Returned tt, set_commandInput [] (set_historyIndex (-1) t))
      else (Returned tt, t).

(** [showHelp()]. *)
Definition showHelp : M unit := appendOutput helpText Success.

(** [clearTerminal()]. *)
Definition clearTerminal : M unit :=
  assign (fun t => record Cleared (set_output [] t)) ;;
  appendOutput (lit "Terminal cleared.") Success.

(** [validateTargetUrl()]. *)
Definition validateTargetUrl : M unit :=
  field <- read targetUrl ;;
  let url := trim field in
  if is_empty url then
    appendOutput (lit "ERROR: Please enter a URL") Error
  else
    try_catch
      (parsedUrl <- settle (URL_new host url) ;;
       (if Js.eqb (protocol parsedUrl) (lit "http:")
           || Js.eqb (protocol parsedUrl) (lit "https:")
        then ret tt
        else throw (lit "Only HTTP and HTTPS protocols are supported")) ;;
       assign (set_validatedUrl (Some parsedUrl)) ;;
       assign (set_targetBorder (lit "var(--text-primary)")) ;;
       appendOutput (check_mark ++ lit " Target URL validated: " ++ url) Success)
      (fun message =>
         assign (set_validatedUrl None) ;;
         assign (set_targetBorder (lit "var(--text-error)")) ;;
         appendOutput (lit "ERROR: Invalid URL - " ++ message) Error).

(** [displayFileContent(fileName, content)]. *)
Definition displayFileContent (fileName content : jsstring) : M unit :=
  appendOutput (nl ++ rule3 ++ lit " " ++ fileName ++ lit " " ++ rule3) Success ;;
  appendOutput (displayContent content) Code ;;
  appendOutput (rule3 ++ lit " End of " ++ fileName ++ lit " " ++ rule3 ++ nl)
    Success.

(** [fetchGitHubFile(owner, repo, filePath)]. *)
Definition fetchGitHubFile (owner repo filePath : jsstring) : M unit :=
  let rawUrl := raw_url owner repo (lit "main") filePath in
  try_catch
    (response <- fetch_url rawUrl ;;
     if negb (ok response) then
       let masterUrl := raw_url owner repo (lit "master") filePath in
       masterResponse <- fetch_url masterUrl ;;
       if negb (ok masterResponse) then
         throw (lit "File not found: " ++ filePath)
       else
         content <- settle (body masterResponse) ;;
         displayFileContent filePath content
     else
       content <- settle (body response) ;;
       displayFileContent filePath content)
    (fun message => appendOutput (lit "ERROR: " ++ message) Error).

(** [fetchGitHubTree(owner, repo)]. *)
Definition fetchGitHubTree (owner repo : jsstring) : M unit :=
  appendOutput (lit "INFO: Tree view requires GitHub API access") Warning ;;
  appendOutput (lit "Attempting to fetch common files...") Success ;;
  for_each commonFiles (fun file =>
    let rawUrl := raw_url owner repo (lit "main") file in
    try_catch
      (response <- fetch_url rawUrl ;;
       if ok response
       then appendOutput (lit "  " ++ check_mark ++ lit " " ++ file) Success
       else ret tt)
      (fun _ => ret tt)).

(** [scrapeGitHub(args)]. *)
Definition scrapeGitHub (args : list jsstring) : M unit :=
  let action := first_lower args in
  target <- read validatedUrl ;;
  match target with
  | None => throw (type_error host (PropertyOfNull (lit "pathname")))
  | Some url =>
      let pathParts :=
        filter (fun p => negb (is_empty p)) (split_on 47%N (pathname url)) in
      if negb (includes (lit "github.com") (hostname url))
         || Nat.ltb (List.length pathParts) 2 then
        appendOutput (lit "ERROR: Invalid GitHub repository URL") Error
      else
        let owner := item 0 pathParts in
        let repo := item 1 pathParts in
        appendOutput (lit "Scraping GitHub: " ++ owner ++ lit "/" ++ repo)
          Success ;;
        if is_case action "readme" then
          fetchGitHubFile owner repo (lit "README.md")
        else if is_case action "tree" then
          fetchGitHubTree owner repo
        else if is_case action "file" then
          let filePath := join (lit " ") (slice1 args) in
          if is_empty filePath then
            appendOutput (lit "ERROR: Please specify a file path") Error
          else fetchGitHubFile owner repo filePath
        else
          appendOutput
            (lit "ERROR: Unknown GitHub action. Use: readme, tree, or file <path>")
            Error
  end.

(** [scrapePageText()], [scrapePageLinks()], [scrapePageMeta()]. *)
Definition scrapePageText : M unit := executeInPage pageTextCode (Some PageTextCb).
Definition scrapePageLinks : M unit := executeInPage pageLinksCode (Some PageLinksCb).
Definition scrapePageMeta : M unit := executeInPage pageMetaCode (Some PageMetaCb).

(** [scrapePage(args)]. *)
Definition scrapePage (args : list jsstring) : M unit :=
  let action := first_lower args in
  if is_case action "text" then scrapePageText
  else if is_case action "links" then scrapePageLinks
  else if is_case action "meta" then scrapePageMeta
  else appendOutput (lit "ERROR: Unknown page action. Use: text, links, or meta")
         Error.

(** [handleScrapeCommand(args)]. *)
Definition handleScrapeCommand (args : list jsstring) : M unit :=
  target <- read validatedUrl ;;
  match target with
  | None => appendOutput (lit "ERROR: Please validate a Target URL first") Error
  | Some _ =>
      setStatusIndicator scraping true ;;
      try_finally
        (let type := first_lower args in
         if is_case type "github" then scrapeGitHub (slice1 args)
         else if is_case type "page" then scrapePage (slice1 args)
         else appendOutput (lit "ERROR: Unknown scrape type. Use: github or page")
                Error)
        (setStatusIndicator scraping false)
  end.

(** [domSetText(args)]. *)
Definition domSetText (args : list jsstring) : M unit :=
  if Nat.ltb (List.length args) 2 then
    appendOutput (lit "ERROR: Usage: dom set <selector> <text>") Error
  else
    let selector := item 0 args in
    let text := join (lit " ") (slice1 args) in
    executeInPage (setTextCode selector text) (Some SetTextCb).

(** [domSetHtml(args)]. *)
Definition domSetHtml (args : list jsstring) : M unit :=
  if Nat.ltb (List.length args) 2 then
    appendOutput (lit "ERROR: Usage: dom html <selector> <html>") Error
  else
    let selector := item 0 args in
    let html := join (lit " ") (slice1 args) in
    executeInPage (setHtmlCode selector html) (Some SetHtmlCb).

(** [domSetAttribute(args)]. *)
Definition domSetAttribute (args : list jsstring) : M unit :=
  if Nat.ltb (List.length args) 3 then
    appendOutput (lit "ERROR: Usage: dom attr <selector> <attribute> <value>")
      Error
  else
    let selector := item 0 args in
    let attr := item 1 args in
    let value := join (lit " ") (skipn 2 args) in
    executeInPage (setAttributeCode selector attr value) (Some SetAttributeCb).

(** [domReplaceText(args)]. *)
Definition domReplaceText (args : list jsstring) : M unit :=
  if Nat.ltb (List.length args) 2 then
    appendOutput (lit "ERROR: Usage: dom replace <old text> <new text>") Error
  else
    let oldText := item 0 args in
    let newText := join (lit " ") (slice1 args) in
    executeInPage (replaceTextCode oldText newText) (Some ReplaceTextCb).

(** [handleDomCommand(args)]. *)
Definition handleDomCommand (args : list jsstring) : M unit :=
  setStatusIndicator dom true ;;
  try_finally
    (let action := first_lower args in
     if is_case action "set" then domSetText (slice1 args)
     else if is_case action "html" then domSetHtml (slice1 args)
     else if is_case action "attr" then domSetAttribute (slice1 args)
     else if is_case action "replace" then domReplaceText (slice1 args)
     else appendOutput
            (lit "ERROR: Unknown DOM action. Use: set, html, attr, or replace")
            Error)
    (setStatusIndicator dom false).

(** [handleSnippetExecution(code)]. *)
Definition handleSnippetExecution (code : jsstring) : M unit :=
  if is_empty code then appendOutput (lit "ERROR: No code provided") Error
  else
    setStatusIndicator snippet true ;;
    try_finally
      (executeInPage (wrappedCode code) (Some SnippetCb))
      (setStatusIndicator snippet false).

(** The [switch] of [parseCommand], the body of its [try]. *)
Definition dispatch (command : jsstring) : M unit :=
  let parts := split_ws command in
  let mainCommand := toLowerCase (item 0 parts) in
  if Js.eqb mainCommand (lit "help") then showHelp
  else if Js.eqb mainCommand (lit "clear") then clearTerminal
  else if Js.eqb mainCommand (lit "scrape") then handleScrapeCommand (slice1 parts)
  else if Js.eqb mainCommand (lit "dom") then handleDomCommand (slice1 parts)
  else if Js.eqb mainCommand (lit "eval") || Js.eqb mainCommand (lit "exec")
          || Js.eqb mainCommand (lit "run") then
    handleSnippetExecution
      (trim (substring_from (List.length mainCommand) command))
  else handleSnippetExecution command.

(** [parseCommand(command)]. *)
Definition parseCommand (command : jsstring) : M unit :=
  try_catch (dispatch command)
    (fun message => appendOutput (lit "ERROR: " ++ message) Error).

(** [executeCommand()].  The scrolling of the display at its end is
    layout and has no counterpart here. *)
Definition executeCommand : M unit :=
  value <- read commandInput ;;
  let command := trim value in
  if is_empty command then ret tt
  else
    assign (fun t => set_commandHistory (command :: commandHistory t) t) ;;
    assign (set_historyIndex (-1)) ;;
    appendOutput (lit "researcher@browser:~$ " ++ command) CommandLine ;;
    assign (set_commandInput []) ;;
    parseCommand command.

(** [handleKeyDown(e)], by [e.key]. *)
Definition handleKeyDown (key : jsstring) : M unit :=
  if Js.eqb key (lit "Enter") then executeCommand
  else if Js.eqb key (lit "ArrowUp") then navigateHistory (lit "up")
  else if Js.eqb key (lit "ArrowDown") then navigateHistory (lit "down")
  else ret tt.

End Panel.

(* ================================================================== *)
(** ** The panel as a transition system *)
(* ================================================================== *)

(** What reaches the panel: the listeners that [init] installs, the
    user's edits of the two input fields, and the transport's
    completions. *)
Inductive Input :=
| CommandKey (key : jsstring)
| CommandEdit (value : jsstring)
| UrlKey (key : jsstring)
| UrlEdit (value : jsstring)
| ValidateClick
| TransportDone (n : nat) (result : JsValue) (isException : bool).

Definition handle (host : Host) (i : Input) : M unit :=
  match i with
  | CommandKey key => handleKeyDown host key
  | CommandEdit value => assign (set_commandInput value)
  | UrlKey key =>
      if Js.eqb key (lit "Enter") then validateTargetUrl host else ret tt
  | UrlEdit value => assign (set_targetUrl value)
  | ValidateClick => validateTargetUrl host
  | TransportDone n result isException =>
      transportCompletes host n result isException
  end.

(** An exception that leaves a listener is reported to the console and
    the panel goes on from the state it was thrown in. *)
Definition react (host : Host) (t : Terminal) (i : Input) : Terminal :=
  snd (handle host i t).

Definition run (host : Host) (inputs : list Input) (t : Terminal) : Terminal :=
  fold_left (react host) inputs t.

(* ================================================================== *)
(** ** Single-quoted string literals of the generated scripts *)
(* ================================================================== *)

(** The StringLiteral production of ECMAScript for a literal opened by
    an apostrophe, as the engine that evaluates the generated script
    reads it (sloppy mode).  [scan st s] reads [s], the text after the
    opening apostrophe, and returns the text after the closing one;
    [None] is the SyntaxError of an unterminated literal or a malformed
    escape. *)
Module StringLiteral.

Inductive State :=
| InBody                      (* between the quotes *)
| Escaped                     (* a backslash was read *)
| HexDigits (n : nat)         (* [n + 1] hexadecimal digits are due *)
| UnicodeStart                (* backslash u was read *)
| CodePoint (v : option N)    (* inside backslash u { ... } *)
| Continued.                  (* backslash CR was read: an LF belongs to it *)

Definition is_hex (c : N) : bool :=
  (((48 <=? c) && (c <=? 57)) || ((65 <=? c) && (c <=? 70))
   || ((97 <=? c) && (c <=? 102)))%N.

Definition hex_value (c : N) : N :=
  (if c <=? 57 then c - 48 else if c <=? 70 then c - 55 else c - 87)%N.

Definition is_LF_or_CR (c : N) : bool := ((c =? 10) || (c =? 13))%N.

Fixpoint scan (st : State) (s : jsstring) : option jsstring :=
  match s with
  | [] => None
  | c :: r =>
      match st with
      | InBody =>
          if N.eqb c apostrophe then Some r
          else if N.eqb c backslash then scan Escaped r
          else if is_LF_or_CR c then None
          else scan InBody r
      | Escaped =>
          if (c =? 120)%N then scan (HexDigits 1) r
          else if (c =? 117)%N then scan UnicodeStart r
          else if (c =? 13)%N then scan Continued r
          else scan InBody r
      | HexDigits n =>
          if is_hex c then
            match n with
            | O => scan InBody r
            | S k => scan (HexDigits k) r
            end
          else None
      | UnicodeStart =>
          if (c =? 123)%N then scan (CodePoint None) r
          else if is_hex c then scan (HexDigits 2) r
          else None
      | CodePoint v =>
          if (c =? 125)%N then
            match v with
            | Some n => if (n <=? 1114111)%N then scan InBody r else None
            | None => None
            end
          else if is_hex c then
            scan (CodePoint
                    (Some (match v with
                           | Some n => n * 16 + hex_value c
                           | None => hex_value c
                           end)%N)) r
          else None
      | Continued =>
          if (c =? 10)%N then scan InBody r
          else if N.eqb c apostrophe then Some r
          else if N.eqb c backslash then scan Escaped r
          else if is_LF_or_CR c then None
          else scan InBody r
      end
  end.

(** The literal whose body [s] is followed by the closing apostrophe
    and then [rest] closes where the template means it to. *)
Definition closes_as_intended (s rest : jsstring) : Prop :=
  scan InBody (s ++ apostrophe :: rest) = Some rest.

End StringLiteral.

(* ================================================================== *)
(** ** The dispatcher's contract, in the words of the specification *)
(* ================================================================== *)

(** The command families of the specification, raw script being one of
    them. *)
Inductive Family :=
| HelpFamily
| ClearFamily
| ScrapeFamily (args : list jsstring)
| DomFamily (args : list jsstring)
| SnippetFamily (source : jsstring).

(** The first token of a line: the code units before its first white
    space. *)
Fixpoint first_token (line : jsstring) : jsstring :=
  match line with
  | [] => []
  | c :: r => if is_space c then [] else c :: first_token r
  end.

(** The line without its first token. *)
Fixpoint after_first_token (line : jsstring) : jsstring :=
  match line with
  | [] => []
  | c :: r => if is_space c then line else after_first_token r
  end.

(** The white-space separated tokens that follow the first token. *)
Definition remaining_tokens (line : jsstring) : list jsstring :=
  tl (split_ws line).

Definition keyword (line : jsstring) : jsstring := toLowerCase (first_token line).

Definition classify (line : jsstring) : Family :=
  let k := keyword line in
  if Js.eqb k (lit "help") then HelpFamily
  else if Js.eqb k (lit "clear") then ClearFamily
  else if Js.eqb k (lit "scrape") then ScrapeFamily (remaining_tokens line)
  else if Js.eqb k (lit "dom") then DomFamily (remaining_tokens line)
  else if Js.eqb k (lit "eval") || Js.eqb k (lit "exec") || Js.eqb k (lit "run")
  then SnippetFamily (trim (after_first_token line))
  else SnippetFamily line.

(** The one handler of each family. *)
Definition handler_of (host : Host) (f : Family) : M unit :=
  match f with
  | HelpFamily => showHelp
  | ClearFamily => clearTerminal
  | ScrapeFamily args => handleScrapeCommand host args
  | DomFamily args => handleDomCommand host args
  | SnippetFamily source => handleSnippetExecution host source
  end.

(* ================================================================== *)
(** ** What is observed of a run *)
(* ================================================================== *)

(** A sequence of history navigations, as the arrow keys produce it. *)
Definition navigations (directions : list jsstring) (t : Terminal) : Terminal :=
  fold_left (fun t d => snd (navigateHistory d t)) directions t.

(** The cursor of a terminal is within the bounds of its history. *)
Definition cursor_in_bounds (t : Terminal) : Prop :=
  (-1 <= historyIndex t <= Z.of_nat (List.length (commandHistory t)) - 1)%Z.

(** The network calls and the transport invocations among the events. *)
Definition network_calls (es : list Event) : list Event :=
  filter (fun e => match e with Fetch _ => true | _ => false end) es.

Definition transport_calls (es : list Event) : list Event :=
  filter (fun e => match e with Evaluate _ => true | _ => false end) es.

(** The value that the wrapper of [handleSnippetExecution] produces:
    [{ success: true, result }], where the transport drops a [result]
    that is [undefined], or [{ success: false, error }]. *)
Definition evaluated_to (v : JsValue) : JsValue :=
  VObj ((lit "success", VBool true)
        :: match v with
           | VUndefined => []
           | _ => [(lit "result", v)]
           end).

(** The terminal once the transport has completed its [n]-th waiting
    call: the call waits no longer and the end message is sent; the
    callback of the call has not run yet. *)
Definition completed (n : nat) (t : Terminal) : Terminal :=
  record (Sent EXECUTION_END) (set_pending (remove_nth n (pending t)) t).

Definition evaluation_failed (message : jsstring) : JsValue :=
  VObj [(lit "success", VBool false); (lit "error", VStr message)].

(** The three lines of [displayFileContent], on the display. *)
Definition file_lines (fileName content : jsstring) : list OutputLine :=
  [Line (nl ++ rule3 ++ lit " " ++ fileName ++ lit " " ++ rule3) Success;
   Line (displayContent content) Code;
   Line (rule3 ++ lit " End of " ++ fileName ++ lit " " ++ rule3 ++ nl) Success].

Definition displayed (fileName content : jsstring) (t : Terminal) : Terminal :=
  fold_left (fun t l => shows l t) (file_lines fileName content) t.

(** A [dom] command whose action lacks an argument: the indicator goes
    on, the usage line is shown, the indicator goes off. *)
Definition refused_dom (usage : string) (t : Terminal) : Terminal :=
  switched dom false (shows (Line (lit usage) Error) (switched dom true t)).

(** An argument is free of a code unit. *)
Definition free_of (c : N) (s : jsstring) : Prop := ~ In c s.

(* ================================================================== *)
(** ** Predicates on methods *)
(* ================================================================== *)

(** The method leaves the display log as it found it. *)
Definition keeps_output {A} (m : M A) : Prop :=
  forall t, output (snd (m t)) = output t.

(** The method returns from every state. *)
Definition never_throws {A} (m : M A) : Prop :=
  forall t, exists a, fst (m t) = Returned a.

(** Whenever the method throws, it has shown nothing. *)
Definition throws_quietly {A} (m : M A) : Prop :=
  forall t e, fst (m t) = Thrown e -> output (snd (m t)) = output t.

(** An event that is neither a message nor a transport call. *)
Definition is_local (e : Event) : bool :=
  match e with
  | Sent _ | Evaluate _ => false
  | _ => true
  end.

(** [bracketed es k]: in the events [es] every transport call follows
    its start message at once, every end message closes a transport
    call that was open, and [k] calls are still open. *)
Inductive bracketed : list Event -> nat -> Prop :=
| bracketed_nil : bracketed [] 0
| bracketed_call es k code :
    bracketed es k ->
    bracketed (es ++ [Sent EXECUTION_START; Evaluate code]) (S k)
| bracketed_refused es k :
    bracketed es k -> bracketed (es ++ [Sent EXECUTION_START]) k
| bracketed_end es k :
    bracketed es (S k) -> bracketed (es ++ [Sent EXECUTION_END]) k
| bracketed_local es k e :
    bracketed es k -> is_local e = true -> bracketed (es ++ [e]) k.

(** The open transport calls are the callbacks that wait. *)
Definition well_bracketed (t : Terminal) : Prop :=
  bracketed (events t) (List.length (pending t)).

(** The method keeps a property of the terminal, however it ends. *)
Definition preserves (P : Terminal -> Prop) {A} (m : M A) : Prop :=
  forall t, P t -> P (snd (m t)).

(** All that the method does outside the fields is to show lines. *)
Definition only_renders {A} (m : M A) : Prop :=
  forall t, exists lines,
    events (snd (m t)) = events t ++ map Rendered lines
    /\ pending (snd (m t)) = pending t.

(* ================================================================== *)
(** ** Hosts of the examples *)
(* ================================================================== *)

Definition acme_widget : URL :=
  {| protocol := lit "https:"; hostname := lit "github.com";
     pathname := lit "/acme/widget" |}.

Definition ftp_example : URL :=
  {| protocol := lit "ftp:"; hostname := lit "example.org";
     pathname := lit "/" |}.

(** A host that parses two addresses, serves the README.md of
    acme/widget on the branch master only, and whose transport accepts
    every call. *)
Definition demo_host : Host :=
  {| URL_new := fun s =>
       if Js.eqb s (lit "https://github.com/acme/widget") then Returned acme_widget
       else if Js.eqb s (lit "ftp://example.org/") then Returned ftp_example
       else Thrown (lit "Invalid URL");
     fetch := fun _ url =>
       if Js.eqb url
            (raw_url (lit "acme") (lit "widget") (lit "master") (lit "README.md"))
       then Returned {| ok := true; body := Returned (lit "# widget") |}
       else Returned {| ok := false; body := Returned (lit "404: Not Found") |};
     eval_throws := fun _ _ => None;
     type_error := fun e =>
       match e with
       | PropertyOfUndefined key =>
           lit "Cannot read properties of undefined (reading '"
           ++ key ++ lit "')"
       | PropertyOfNull key =>
           lit "Cannot read properties of null (reading '" ++ key ++ lit "')"
       | NotAFunction callee => callee ++ lit " is not a function"
       | NotPrimitive => lit "Cannot convert object to primitive value"
       end;
     positive_numeral := fun _ => false |}.

(** The same host once the inspected window is gone: the transport
    throws at the call. *)
Definition detached_host : Host :=
  {| URL_new := URL_new demo_host;
     fetch := fetch demo_host;
     eval_throws := fun _ _ => Some (lit "Extension context invalidated.");
     type_error := type_error demo_host;
     positive_numeral := positive_numeral demo_host |}.

(* ================================================================== *)
(** ** Relations between the terminal before and after a method *)
(* ================================================================== *)

(** Whatever state the method starts in, the state it ends in, on
    return or on throw, is related to it. *)
Definition related (R : Terminal -> Terminal -> Prop) {A} (m : M A) : Prop :=
  forall t, R t (snd (m t)).

(** The fields that belong to the command line and to the target. *)
Definition same_session (t t' : Terminal) : Prop :=
  commandInput t' = commandInput t
  /\ commandHistory t' = commandHistory t
  /\ historyIndex t' = historyIndex t
  /\ targetUrl t' = targetUrl t
  /\ targetBorder t' = targetBorder t
  /\ validatedUrl t' = validatedUrl t.

(** The three indicators. *)
Definition same_indicators (t t' : Terminal) : Prop :=
  snippetStatus t' = snippetStatus t
  /\ domStatus t' = domStatus t
  /\ scrapeStatus t' = scrapeStatus t.

(** The display has only grown. *)
Definition output_grows (t t' : Terminal) : Prop :=
  exists lines, output t' = output t ++ lines.

(** The events that were added all satisfy [Q]. *)
Definition emits (Q : Event -> Prop) (t t' : Terminal) : Prop :=
  exists new, events t' = events t ++ new /\ Forall Q new.

(** The queue of callbacks is as it was. *)
Definition same_pending (t t' : Terminal) : Prop := pending t' = pending t.

Definition is_fetch (e : Event) : Prop :=
  match e with Fetch _ => True | _ => False end.

Definition is_transport (e : Event) : Prop :=
  match e with Sent _ | Evaluate _ => True | _ => False end.

(** The prompt that [executeCommand] puts before the echo. *)
Definition echo_of (command : jsstring) : OutputLine :=
  Line (lit "researcher@browser:~$ " ++ command) CommandLine.

(** Whether an indicator is shown active. *)
Definition indicator (i : Indicator) (t : Terminal) : bool :=
  match i with
  | snippet => snippetStatus t
  | dom => domStatus t
  | scraping => scrapeStatus t
  end.

(** The line that [clearTerminal] leaves. *)
Definition cleared_line : OutputLine := Line (lit "Terminal cleared.") Success.

(** [url.pathname.split('/').filter(p => p)] of [scrapeGitHub]. *)
Definition path_segments (target : URL) : list jsstring :=
  filter (fun p => negb (is_empty p)) (split_on 47%N (pathname target)).

(** Owner and repository of a target, as [scrapeGitHub] takes them. *)
Definition owner_of (target : URL) : jsstring := item 0 (path_segments target).
Definition repo_of (target : URL) : jsstring := item 1 (path_segments target).

(** The test that [scrapeGitHub] puts on the target: the host name
    contains the text github.com, at any place, and the path has two
    segments or more.  It is a test on the text of the host name and
    not on the host: a host name such as github.com.evil.example passes
    it. *)
Definition names_repository (target : URL) : Prop :=
  includes (lit "github.com") (hostname target) = true
  /\ (2 <= List.length (path_segments target))%nat.

(** The branch and the path that [scrapeGitHub] asks for, by the action
    of the command: README.md for [readme], one of the common files on
    main for [tree], and for [file] the rest of the line, its tokens
    joined by one space each and otherwise as typed. *)
Definition requested (args : list jsstring) (branch path : jsstring) : Prop :=
  (first_lower args = Some (lit "readme")
   /\ path = lit "README.md"
   /\ (branch = lit "main" \/ branch = lit "master"))
  \/ (first_lower args = Some (lit "tree")
      /\ In path commonFiles
      /\ branch = lit "main")
  \/ (first_lower args = Some (lit "file")
      /\ path = join (lit " ") (slice1 args)
      /\ path <> []
      /\ (branch = lit "main" \/ branch = lit "master")).

(** [u] is the text of a request that [scrapeGitHub] builds from the
    target for a command with the arguments [args]. *)
Definition built_from (target : URL) (args : list jsstring) (u : jsstring)
  : Prop :=
  names_repository target
  /\ exists branch path,
       requested args branch path
       /\ u = raw_url (owner_of target) (repo_of target) branch path.

(** What [fetchGitHubFile] may add to the events: requests for the one
    path on main or master, and nothing for the transport. *)
Definition file_event (owner repo path : jsstring) (e : Event) : Prop :=
  match e with
  | Fetch u =>
      exists branch,
        (branch = lit "main" \/ branch = lit "master")
        /\ u = raw_url owner repo branch path
  | Sent _ | Evaluate _ => False
  | _ => True
  end.

(** What the loop of [fetchGitHubTree] over [files] may add. *)
Definition tree_event (owner repo : jsstring) (files : list jsstring)
    (e : Event) : Prop :=
  match e with
  | Fetch u =>
      exists file, In file files /\ u = raw_url owner repo (lit "main") file
  | Sent _ | Evaluate _ => False
  | _ => True
  end.

(** What [scrapeGitHub] may add while the target is [target]. *)
Definition scrape_event (target : URL) (args : list jsstring) (e : Event)
  : Prop :=
  match e with
  | Fetch u => built_from target args u
  | Sent _ | Evaluate _ => False
  | _ => True
  end.

(** What a command may add to the events while the stored target is
    [V]: a request only as [scrapeGitHub] builds it from [V] for the
    arguments [args]. *)
Definition target_event (V : option URL) (args : list jsstring) (e : Event)
  : Prop :=
  match e with
  | Fetch u => exists target, V = Some target /\ built_from target args u
  | _ => True
  end.

(** While the stored target is [V] it stays [V], and the events added
    are those that [V] allows. *)
Definition within_target (V : option URL) (args : list jsstring)
    (t t' : Terminal) : Prop :=
  validatedUrl t = V ->
  validatedUrl t' = V /\ emits (target_event V args) t t'.

(** No network call has been added. *)
Definition no_network (t t' : Terminal) : Prop :=
  network_calls (events t') = network_calls (events t).

(** The messages and the transport calls among the events. *)
Definition page_calls (es : list Event) : list Event :=
  filter (fun e => match e with Sent _ | Evaluate _ => true | _ => false end) es.

(** Nothing has been sent or evaluated, and no callback queued. *)
Definition no_transport (t t' : Terminal) : Prop :=
  page_calls (events t') = page_calls (events t) /\ pending t' = pending t.

(** The script that each callback is written for. *)
Inductive script_of : Callback -> jsstring -> Prop :=
| script_page_text : script_of PageTextCb pageTextCode
| script_page_links : script_of PageLinksCb pageLinksCode
| script_page_meta : script_of PageMetaCb pageMetaCode
| script_set_text selector text :
    script_of SetTextCb (setTextCode selector text)
| script_set_html selector html :
    script_of SetHtmlCb (setHtmlCode selector html)
| script_set_attribute selector attr value :
    script_of SetAttributeCb (setAttributeCode selector attr value)
| script_replace_text oldText newText :
    script_of ReplaceTextCb (replaceTextCode oldText newText)
| script_snippet code : script_of SnippetCb (wrappedCode code).

(** What one command does to the inspected page: nothing; or the start
    message, one script and the callback written for it; or the start
    message alone, when the transport throws at the call. *)
Definition at_most_one_call (t t' : Terminal) : Prop :=
  no_transport t t'
  \/ (exists code callback,
        script_of callback code
        /\ page_calls (events t')
           = page_calls (events t) ++ [Sent EXECUTION_START; Evaluate code]
        /\ pending t' = pending t ++ [Some callback])
  \/ (page_calls (events t') = page_calls (events t) ++ [Sent EXECUTION_START]
      /\ pending t' = pending t).

Definition once {A} (m : M A) : Prop :=
  forall t, at_most_one_call t (snd (m t)).

(** The first tokens that [parseCommand] takes for itself. *)
Definition keywords : list jsstring :=
  [lit "help"; lit "clear"; lit "scrape"; lit "dom";
   lit "eval"; lit "exec"; lit "run"].

(** A run of white space. *)
Definition blank (w : jsstring) : Prop := Forall (fun c => is_space c = true) w.

(** A text without white space. *)
Definition solid (s : jsstring) : Prop := Forall (fun c => is_space c = false) s.

(** The lines of the scraping handlers. *)
Definition scraping_line (owner repo : jsstring) : OutputLine :=
  Line (lit "Scraping GitHub: " ++ owner ++ lit "/" ++ repo) Success.

Definition refusal_line : OutputLine :=
  Line (lit "ERROR: Please validate a Target URL first") Error.

Definition validated_line (url : jsstring) : OutputLine :=
  Line (check_mark ++ lit " Target URL validated: " ++ url) Success.

Definition invalid_repository_line : OutputLine :=
  Line (lit "ERROR: Invalid GitHub repository URL") Error.

Definition missing_path_line : OutputLine :=
  Line (lit "ERROR: Please specify a file path") Error.

Definition unknown_action_line : OutputLine :=
  Line (lit "ERROR: Unknown GitHub action. Use: readme, tree, or file <path>")
    Error.

(** The scraping indicator goes on, the lines are shown, the indicator
    goes off. *)
Definition scraping_shows (lines : list OutputLine) (t : Terminal) : Terminal :=
  switched scraping false
    (fold_left (fun t l => shows l t) lines (switched scraping true t)).

(** [fetchGitHubTree]: the request for a file and the line that lists
    it. *)
Definition probe (owner repo file : jsstring) : Event :=
  Fetch (raw_url owner repo (lit "main") file).

Definition listed_line (file : jsstring) : OutputLine :=
  Line (lit "  " ++ check_mark ++ lit " " ++ file) Success.

(** The body of the loop of [fetchGitHubTree]. *)
Definition probe_file (host : Host) (owner repo file : jsstring) : M unit :=
  let rawUrl := raw_url owner repo (lit "main") file in
  try_catch
    (response <- fetch_url host rawUrl ;;
     if ok response
     then appendOutput (lit "  " ++ check_mark ++ lit " " ++ file) Success
     else ret tt)
    (fun _ => ret tt).

Definition tree_heading : list OutputLine :=
  [Line (lit "INFO: Tree view requires GitHub API access") Warning;
   Line (lit "Attempting to fetch common files...") Success].

(** [subsequence l m]: [l] is [m] with some elements left out. *)
Inductive subsequence {A} : list A -> list A -> Prop :=
| subsequence_nil : subsequence [] []
| subsequence_skip x l m : subsequence l m -> subsequence l (x :: m)
| subsequence_take x l m : subsequence l m -> subsequence (x :: l) (x :: m).

(** The lines shown one after the other. *)
Definition renders (lines : list OutputLine) (t : Terminal) : Terminal :=
  fold_left (fun t l => shows l t) lines t.

(** The text of a value that converts to a string. *)
Definition text_of (v : JsValue) : jsstring :=
  match Value.to_string v with
  | Some s => s
  | None => []
  end.

Definition converts (v : JsValue) : bool :=
  match Value.to_string v with
  | Some _ => true
  | None => false
  end.

(** The lines of the link and meta listings. *)
Definition links_heading (result : JsValue) : OutputLine :=
  Line (nl ++ lit "Found " ++ text_of (Value.prop result (lit "count"))
        ++ lit " links (showing first 100):") Success.

Definition link_line (link : JsValue) : OutputLine :=
  Line (lit "  " ++ text_of (Value.prop link (lit "text"))
        ++ lit " " ++ arrow ++ lit " "
        ++ text_of (Value.prop link (lit "href"))) Success.

Definition meta_heading (result : JsValue) : list OutputLine :=
  [Line (nl ++ lit "Title: " ++ text_of (Value.prop result (lit "title")))
     Success;
   Line (nl ++ lit "Meta Tags:") Success].

Definition meta_line (meta : JsValue) : OutputLine :=
  Line (lit "  " ++ text_of (Value.prop meta (lit "name"))
        ++ lit ": " ++ text_of (Value.prop meta (lit "content")))
    Success.

(** What keeps an item of a listing from being shown: the TypeError of
    reading its fields [a] and [b] and converting them, if there is
    one. *)
Definition item_error (a b : jsstring) (x : JsValue) : option TypeError :=
  match x with
  | VUndefined => Some (PropertyOfUndefined a)
  | VNull => Some (PropertyOfNull a)
  | _ =>
      if converts (Value.prop x a) && converts (Value.prop x b) then None
      else Some NotPrimitive
  end.

(** The items of a listing before the first that is not shown, and the
    error of that one. *)
Fixpoint readable (a b : jsstring) (items : list JsValue) : list JsValue :=
  match items with
  | [] => []
  | x :: r =>
      match item_error a b x with
      | None => x :: readable a b r
      | Some _ => []
      end
  end.

Fixpoint first_error (a b : jsstring) (items : list JsValue)
  : option TypeError :=
  match items with
  | [] => None
  | x :: r =>
      match item_error a b x with
      | None => first_error a b r
      | Some e => Some e
      end
  end.

(** The TypeError of [result.metas.forEach(...)] on what is no array. *)
Definition forEach_error (items : JsValue) : TypeError :=
  match items with
  | VUndefined => PropertyOfUndefined (lit "forEach")
  | VNull => PropertyOfNull (lit "forEach")
  | _ => NotAFunction (lit "result.metas.forEach")
  end.

(** How a callback ends: it returns, or throws the TypeError. *)
Definition ends_with (host : Host) (e : option TypeError) : Outcome unit :=
  match e with
  | None => Returned tt
  | Some e => Thrown (type_error host e)
  end.

(** What the panel shows when the page reports an exception to the
    callback of a command. *)
Definition exception_report (callback : Callback) : list OutputLine :=
  match callback with
  | PageTextCb | PageLinksCb | PageMetaCb => []
  | SetTextCb | SetHtmlCb | SetAttributeCb =>
      [Line (lit "WARNING: No elements matched selector") Warning]
  | ReplaceTextCb => [Line (lit "WARNING: Text not found in page") Warning]
  | SnippetCb => [Line (lit "EXCEPTION: undefined") Error]
  end.

(** The validated target and the border that shows the outcome of the
    last validation. *)
Definition same_target (t t' : Terminal) : Prop :=
  validatedUrl t' = validatedUrl t /\ targetBorder t' = targetBorder t.

(** The inputs that run [validateTargetUrl]: the click on the button
    and Enter in the URL field. *)
Definition validates (i : Input) : bool :=
  match i with
  | ValidateClick => true
  | UrlKey key => Js.eqb key (lit "Enter")
  | _ => false
  end.

(** A text that is not empty and neither starts nor ends with white
    space. *)
Definition trimmed (c : jsstring) : Prop :=
  match c with
  | [] => False
  | x :: _ => is_space x = false
  end
  /\ match List.rev c with
     | [] => False
     | x :: _ => is_space x = false
     end.

Definition same_history (t t' : Terminal) : Prop :=
  commandHistory t' = commandHistory t.

(** Enter in the command line. *)
Definition submits (i : Input) : bool :=
  match i with
  | CommandKey key => Js.eqb key (lit "Enter")
  | _ => false
  end.

(* ================================================================== *)
(** ** Properties of the string primitives *)
(* ================================================================== *)

Lemma eqb_eq (a b : jsstring) : Js.eqb a b = true <-> a = b.
Proof.
  revert b; induction a as [|x a IH]; intros [|y b]; simpl; split;
    try congruence; try reflexivity.
  - intros H. apply andb_true_iff in H as [Hx Hr].
    apply N.eqb_eq in Hx. apply IH in Hr. congruence.
  - intros H. injection H as -> ->. rewrite N.eqb_refl. simpl.
    now apply IH.
Qed.

Lemma eqb_refl (a : jsstring) : Js.eqb a a = true.
Proof. now apply eqb_eq. Qed.

Lemma split_fields_nonempty (b : bool) (s : jsstring) : split_fields b s <> [].
Proof.
  revert b; induction s as [|c r IH]; intros b; simpl; [discriminate|].
  destruct (is_space c).
  - destruct b; [apply IH | discriminate].
  - destruct (split_fields false r); discriminate.
Qed.

(** The first field of the split is the first token of the line. *)
Lemma first_field (s : jsstring) : item 0 (split_ws s) = first_token s.
Proof.
  unfold split_ws, item.
  induction s as [|c r IH]; simpl; [reflexivity|].
  destruct (is_space c); [reflexivity|].
  pose proof (split_fields_nonempty false r) as NE.
  destruct (split_fields false r) as [|f fs]; [congruence|].
  simpl in *. now rewrite IH.
Qed.

(** Dropping as many code units as the first token has leaves the line
    without its first token. *)
Lemma skip_first_token (s : jsstring) :
  skipn (List.length (first_token s)) s = after_first_token s.
Proof.
  induction s as [|c r IH]; simpl; [reflexivity|].
  destruct (is_space c); simpl; [reflexivity | exact IH].
Qed.

Lemma toLowerCase_length (s : jsstring) :
  List.length (toLowerCase s) = List.length s.
Proof. apply length_map. Qed.

Example split_keeps_outer_fields :
  split_ws (lit " dom  set h1 ") = [[]; lit "dom"; lit "set"; lit "h1"; []].
Proof. reflexivity. Qed.

Example trim_both_ends : trim (lit "  eval 1 ") = lit "eval 1".
Proof. reflexivity. Qed.

Example escape_apostrophes :
  escape_quotes (lit "it's") = lit "it" ++ [backslash] ++ lit "'s".
Proof. reflexivity. Qed.

Example stringify_nested :
  JSON.stringify (VObj [(lit "a", VNum 1); (lit "b", VArr [VBool true; VNull])])
  = lit "{" ++ nl ++ lit "  " ++ JSON.quote (lit "a") ++ lit ": 1," ++ nl
    ++ lit "  " ++ JSON.quote (lit "b") ++ lit ": [" ++ nl
    ++ lit "    true," ++ nl ++ lit "    null" ++ nl ++ lit "  ]" ++ nl
    ++ lit "}".
Proof. vm_compute. reflexivity. Qed.

Example stringify_empty : JSON.stringify (VArr []) = lit "[]".
Proof. reflexivity. Qed.

Example to_string_array :
  Value.to_string (VArr [VNum 1; VNull; VStr (lit "x")]) = Some (lit "1,,x").
Proof. vm_compute. reflexivity. Qed.

(** Numbers print as Number::toString prints them: integers below
    [10^21] in plain digits, the shortest digits that give the value
    back, an exponent from [10^21] on and below [10^-6]. *)
Example to_string_numbers :
  Value.to_string (VNum (-42)) = Some (lit "-42")
  /\ Value.to_string (VNum 9007199254740993) = Some (lit "9007199254740992")
  /\ Value.to_string (VNum (10 ^ 21)) = Some (lit "1e+21")
  /\ Value.to_string (VNum (2 ^ 67)) = Some (lit "147573952589676410000")
  /\ Value.to_string (VFrac 3 2) = Some (lit "1.5")
  /\ Value.to_string (VFrac 1 10) = Some (lit "0.1")
  /\ Value.to_string (VFrac 1 3) = Some (lit "0.3333333333333333")
  /\ Value.to_string (VFrac 1 10000000) = Some (lit "1e-7")
  /\ Value.to_string (VFrac (-5) 1000) = Some (lit "-0.005").
Proof. vm_compute. repeat split. Qed.

(** An object with an own property [toString] has no primitive, and
    neither has an array that holds one. *)
Example to_string_throws :
  Value.to_string (VObj [(lit "toString", VNum 1)]) = None
  /\ Value.to_string (VArr [VNum 1; VObj [(lit "toString", VNull)]]) = None
  /\ Value.to_string (VObj [(lit "valueOf", VNum 1)])
     = Some (lit "[object Object]").
Proof. vm_compute. repeat split. Qed.

Example helpText_length : List.length helpText = N.to_nat 1839.
Proof. reflexivity. Qed.

(* ================================================================== *)
(** ** The dispatcher *)
(* ================================================================== *)

(** C2.  The dispatcher refines the classifier of the specification: the
    line is split on white space, the lower-cased first token selects
    one family, and the one handler of that family runs: [help] shows
    the help, [clear] clears the terminal, [scrape] and [dom] pass the
    remaining tokens to their handlers, [eval], [exec] and [run] execute
    the rest of the line (trimmed), and any other first token makes the
    whole line the script. *)
Theorem dispatch_selects_one_handler (host : Host) (command : jsstring) :
  dispatch host command = handler_of host (classify command).
Proof.
  unfold dispatch, classify, keyword, remaining_tokens, slice1.
  rewrite first_field.
  unfold substring_from.
  rewrite toLowerCase_length, skip_first_token.
  set (k := toLowerCase (first_token command)).
  destruct (Js.eqb k (lit "help")); [reflexivity|].
  destruct (Js.eqb k (lit "clear")); [reflexivity|].
  destruct (Js.eqb k (lit "scrape")); [reflexivity|].
  destruct (Js.eqb k (lit "dom")); [reflexivity|].
  destruct (Js.eqb k (lit "eval") || Js.eqb k (lit "exec")
            || Js.eqb k (lit "run")); reflexivity.
Qed.

Example classify_help : classify (lit "Help") = HelpFamily.
Proof. reflexivity. Qed.

Example classify_dom :
  classify (lit "dom  set h1 Hello")
  = DomFamily [lit "set"; lit "h1"; lit "Hello"].
Proof. reflexivity. Qed.

Example classify_eval :
  classify (lit "EVAL   1 + 1") = SnippetFamily (lit "1 + 1").
Proof. reflexivity. Qed.

Example classify_raw :
  classify (lit "document.title") = SnippetFamily (lit "document.title").
Proof. reflexivity. Qed.

(* ================================================================== *)
(** ** History navigation *)
(* ================================================================== *)

Lemma navigateHistory_returns (d : jsstring) (t : Terminal) :
  fst (navigateHistory d t) = Returned tt.
Proof.
  unfold navigateHistory.
  repeat match goal with
         | |- context [if ?b then _ else _] => destruct b
         end; reflexivity.
Qed.

Lemma navigateHistory_keeps_history (d : jsstring) (t : Terminal) :
  commandHistory (snd (navigateHistory d t)) = commandHistory t.
Proof.
  unfold navigateHistory.
  repeat match goal with
         | |- context [if ?b then _ else _] => destruct b
         end; reflexivity.
Qed.

Lemma navigateHistory_in_bounds (d : jsstring) (t : Terminal) :
  cursor_in_bounds t -> cursor_in_bounds (snd (navigateHistory d t)).
Proof.
  unfold cursor_in_bounds, navigateHistory. intros B.
  destruct (Nat.eqb _ 0); [exact B|].
  destruct (Js.eqb d (lit "up")).
  - destruct (Z.ltb_spec (historyIndex t)
                (Z.of_nat (List.length (commandHistory t)) - 1)); simpl; lia.
  - destruct (Z.gtb_spec (historyIndex t) 0); simpl; [lia|].
    destruct (Z.eqb_spec (historyIndex t) 0); simpl; lia.
Qed.

Lemma navigations_in_bounds (ds : list jsstring) (t : Terminal) :
  cursor_in_bounds t ->
  cursor_in_bounds (navigations ds t)
  /\ commandHistory (navigations ds t) = commandHistory t.
Proof.
  revert t; induction ds as [|d ds IH]; intros t B; simpl; [easy|].
  destruct (IH (snd (navigateHistory d t))) as [B' H'].
  - now apply navigateHistory_in_bounds.
  - split; [exact B'|]. now rewrite H', navigateHistory_keeps_history.
Qed.

(** At the cursor -1 a "down" changes nothing. *)
Lemma down_at_rest (t : Terminal) :
  historyIndex t = (-1)%Z -> snd (navigateHistory (lit "down") t) = t.
Proof.
  intros E. unfold navigateHistory. rewrite E.
  destruct (Nat.eqb _ 0); reflexivity.
Qed.

Lemma downs_at_rest (k : nat) (t : Terminal) :
  historyIndex t = (-1)%Z -> navigations (repeat (lit "down") k) t = t.
Proof.
  intros E. induction k as [|k IH]; [reflexivity|].
  cbn [repeat navigations fold_left].
  rewrite down_at_rest by exact E. exact IH.
Qed.

(** C8.  From a cursor within [-1, n-1], where [n] is the length of the
    history, any sequence of navigations leaves the history as it is and
    the cursor within [-1, n-1].  In the state so reached: an "up" at
    the oldest entry changes nothing; a "down" at the newest entry sets
    the cursor to -1 and empties the edit buffer; and after it any
    number of further "down" presses leaves the cursor at -1 and the
    edit buffer empty. *)
Theorem history_cursor_stays_in_bounds
    (t : Terminal) (directions : list jsstring) :
  cursor_in_bounds t ->
  let t' := navigations directions t in
  let n := Z.of_nat (List.length (commandHistory t)) in
  commandHistory t' = commandHistory t
  /\ (-1 <= historyIndex t' <= n - 1)%Z
  /\ (historyIndex t' = (n - 1)%Z -> snd (navigateHistory (lit "up") t') = t')
  /\ (historyIndex t' = 0%Z ->
      forall k,
        let t'' := navigations (repeat (lit "down") (S k)) t' in
        historyIndex t'' = (-1)%Z /\ commandInput t'' = []
        /\ commandHistory t'' = commandHistory t).
Proof.
  intros B t' n.
  destruct (navigations_in_bounds directions t B) as [B' H'].
  fold t' in B', H'. unfold cursor_in_bounds in B'. rewrite H' in B'.
  fold n in B'.
  split; [exact H'|]. split; [exact B'|]. split.
  - intros E. unfold navigateHistory. rewrite H', E. fold n.
    destruct (Nat.eqb _ 0); [reflexivity|].
    cbn [Js.eqb lit]. simpl Js.eqb.
    rewrite Z.ltb_irrefl. reflexivity.
  - intros E k t''. subst t''.
    cbn [repeat navigations fold_left].
    assert (S1 : snd (navigateHistory (lit "down") t')
                 = set_commandInput [] (set_historyIndex (-1) t')).
    { unfold navigateHistory. rewrite H', E.
      destruct (Nat.eqb_spec (List.length (commandHistory t)) 0) as [Z0|_].
      - subst n. rewrite Z0 in B'. simpl in B'. lia.
      - reflexivity. }
    rewrite S1.
    change (fold_left (fun t d => snd (navigateHistory d t))
              (repeat (lit "down") k)
              (set_commandInput [] (set_historyIndex (-1) t')))
      with (navigations (repeat (lit "down") k)
              (set_commandInput [] (set_historyIndex (-1) t'))).
    rewrite downs_at_rest by reflexivity.
    simpl. auto.
Qed.

Lemma history_cursor_stays_in_bounds_witness :
  let t := set_commandHistory [lit "help"; lit "clear"] initial in
  cursor_in_bounds t
  /\ (-1 <= historyIndex
              (navigations [lit "up"; lit "up"; lit "up"; lit "down"] t) <= 1)%Z.
Proof.
  intros t.
  assert (B : cursor_in_bounds t) by (unfold cursor_in_bounds; simpl; lia).
  split; [exact B|].
  exact (proj1 (proj2 (history_cursor_stays_in_bounds
                         t [lit "up"; lit "up"; lit "up"; lit "down"] B))).
Defined.

(* ================================================================== *)
(** ** Running a method *)
(* ================================================================== *)

(** The methods are unfolded down to their effect on the terminal. *)
Ltac step_method :=
  cbv beta delta
    [bind ret assign read settle throw try_catch try_finally appendOutput
     setStatusIndicator sendMessage] iota.

Lemma appendOutput_runs (text : jsstring) (type : Category) (t : Terminal) :
  appendOutput text type t = (Returned tt, shows (Line text type) t).
Proof. reflexivity. Qed.

Lemma is_empty_true (s : jsstring) : is_empty s = true <-> s = [].
Proof. destruct s; simpl; split; congruence. Qed.

Lemma is_empty_false (s : jsstring) : is_empty s = false <-> s <> [].
Proof. destruct s; simpl; split; congruence. Qed.

Lemma eqb_neq (a b : jsstring) : Js.eqb a b = false <-> a <> b.
Proof.
  split.
  - intros E H. apply eqb_eq in H. congruence.
  - intros H. destruct (Js.eqb a b) eqn:E; [|reflexivity].
    apply eqb_eq in E. contradiction.
Qed.

(* ================================================================== *)
(** ** URL validation *)
(* ================================================================== *)

(** C10.  Validation tells an empty field from an invalid one.  When
    the trimmed field is empty, one error line is shown and nothing else
    changes, so a target validated before survives.  When the field is
    not empty and the URL constructor throws, or the protocol of the
    parsed URL is neither http: nor https:, the stored target becomes
    null, whatever it was, and one error line is shown. *)
Theorem validation_empty_keeps_invalid_clears (host : Host) (t : Terminal) :
  let url := trim (targetUrl t) in
  let t' := snd (validateTargetUrl host t) in
  (url = [] ->
     t' = shows (Line (lit "ERROR: Please enter a URL") Error) t
     /\ validatedUrl t' = validatedUrl t)
  /\ (url <> [] ->
      forall message, URL_new host url = Thrown message ->
        validatedUrl t' = None
        /\ output t' = output t
             ++ [Line (lit "ERROR: Invalid URL - " ++ message) Error])
  /\ (url <> [] ->
      forall parsed, URL_new host url = Returned parsed ->
        protocol parsed <> lit "http:" -> protocol parsed <> lit "https:" ->
        validatedUrl t' = None
        /\ output t' = output t
             ++ [Line (lit "ERROR: Invalid URL - "
                       ++ lit "Only HTTP and HTTPS protocols are supported")
                   Error]).
Proof.
  intros url t'. subst t'. unfold validateTargetUrl. step_method.
  fold url. split; [|split].
  - intros E. apply is_empty_true in E. rewrite E. now split.
  - intros NE message T. apply is_empty_false in NE.
    rewrite NE, T. now split.
  - intros NE parsed P H1 H2. apply is_empty_false in NE.
    apply eqb_neq in H1, H2. rewrite NE, P, H1, H2. now split.
Qed.

Lemma validation_empty_keeps_invalid_clears_witness :
  let kept := set_validatedUrl (Some acme_widget) (set_targetUrl (lit "   ") initial) in
  let ftp := set_validatedUrl (Some acme_widget)
               (set_targetUrl (lit " ftp://example.org/ ") initial) in
  let bad := set_validatedUrl (Some acme_widget)
               (set_targetUrl (lit "not a url") initial) in
  (trim (targetUrl kept) = []
   /\ validatedUrl (snd (validateTargetUrl demo_host kept)) = Some acme_widget)
  /\ (trim (targetUrl bad) <> []
      /\ URL_new demo_host (trim (targetUrl bad)) = Thrown (lit "Invalid URL")
      /\ validatedUrl (snd (validateTargetUrl demo_host bad)) = None)
  /\ (trim (targetUrl ftp) <> []
      /\ URL_new demo_host (trim (targetUrl ftp)) = Returned ftp_example
      /\ protocol ftp_example <> lit "http:"
      /\ protocol ftp_example <> lit "https:"
      /\ validatedUrl (snd (validateTargetUrl demo_host ftp)) = None).
Proof.
  intros kept ftp bad.
  assert (E1 : trim (targetUrl kept) = []) by reflexivity.
  assert (N2 : trim (targetUrl bad) <> []) by (vm_compute; discriminate).
  assert (T2 : URL_new demo_host (trim (targetUrl bad)) = Thrown (lit "Invalid URL"))
    by reflexivity.
  assert (N3 : trim (targetUrl ftp) <> []) by (vm_compute; discriminate).
  assert (P3 : URL_new demo_host (trim (targetUrl ftp)) = Returned ftp_example)
    by reflexivity.
  assert (H1 : protocol ftp_example <> lit "http:") by (vm_compute; discriminate).
  assert (H2 : protocol ftp_example <> lit "https:") by (vm_compute; discriminate).
  split; [|split].
  - split; [exact E1|].
    destruct (validation_empty_keeps_invalid_clears demo_host kept) as [A _].
    destruct (A E1) as [_ K]. rewrite K. reflexivity.
  - split; [exact N2|]. split; [exact T2|].
    destruct (validation_empty_keeps_invalid_clears demo_host bad) as [_ [A _]].
    exact (proj1 (A N2 _ T2)).
  - split; [exact N3|]. split; [exact P3|]. split; [exact H1|]. split; [exact H2|].
    destruct (validation_empty_keeps_invalid_clears demo_host ftp) as [_ [_ A]].
    exact (proj1 (A N3 _ P3 H1 H2)).
Defined.

(* ================================================================== *)
(** ** Missing arguments *)
(* ================================================================== *)

Lemma shows_events (l : OutputLine) (t : Terminal) :
  events (shows l t) = events t ++ [Rendered l]
  /\ pending (shows l t) = pending t
  /\ output (shows l t) = output t ++ [l].
Proof. repeat split. Qed.

Lemma network_calls_app (a b : list Event) :
  network_calls (a ++ b) = network_calls a ++ network_calls b.
Proof. apply filter_app. Qed.

Lemma transport_calls_app (a b : list Event) :
  transport_calls (a ++ b) = transport_calls a ++ transport_calls b.
Proof. apply filter_app. Qed.

Lemma shows_makes_no_call (l : OutputLine) (t : Terminal) :
  network_calls (events (shows l t)) = network_calls (events t)
  /\ transport_calls (events (shows l t)) = transport_calls (events t)
  /\ pending (shows l t) = pending t.
Proof.
  simpl. rewrite network_calls_app, transport_calls_app. simpl.
  now rewrite !app_nil_r.
Qed.

Lemma short_args (args : list jsstring) (n : nat) :
  (List.length args < n)%nat -> Nat.ltb (List.length args) n = true.
Proof. intros H. now apply Nat.ltb_lt. Qed.

(** C7.  An operation that lacks a required argument shows its error
    line at once and returns: an empty snippet source; fewer than two
    arguments of [dom set], [dom html] and [dom replace]; fewer than
    three of [dom attr].  Showing a line is neither a network call nor a
    transport invocation, and queues no callback; nor is the switching
    of the indicator that [handleDomCommand] puts around the action. *)
Theorem missing_arguments_abort_before_any_call (host : Host) (t : Terminal) :
  handleSnippetExecution host [] t
  = (Returned tt, shows (Line (lit "ERROR: No code provided") Error) t)
  /\ (forall args, (List.length args < 2)%nat ->
      domSetText host args t
      = (Returned tt,
         shows (Line (lit "ERROR: Usage: dom set <selector> <text>") Error) t)
      /\ domSetHtml host args t
         = (Returned tt,
            shows (Line (lit "ERROR: Usage: dom html <selector> <html>") Error) t)
      /\ domReplaceText host args t
         = (Returned tt,
            shows (Line (lit "ERROR: Usage: dom replace <old text> <new text>")
                     Error) t)
      /\ handleDomCommand host (lit "set" :: args) t
         = (Returned tt, refused_dom "ERROR: Usage: dom set <selector> <text>" t)
      /\ handleDomCommand host (lit "html" :: args) t
         = (Returned tt, refused_dom "ERROR: Usage: dom html <selector> <html>" t)
      /\ handleDomCommand host (lit "replace" :: args) t
         = (Returned tt,
            refused_dom "ERROR: Usage: dom replace <old text> <new text>" t))
  /\ (forall args, (List.length args < 3)%nat ->
      domSetAttribute host args t
      = (Returned tt,
         shows (Line (lit "ERROR: Usage: dom attr <selector> <attribute> <value>")
                  Error) t)
      /\ handleDomCommand host (lit "attr" :: args) t
         = (Returned tt,
            refused_dom "ERROR: Usage: dom attr <selector> <attribute> <value>" t))
  /\ (forall l,
      network_calls (events (shows l t)) = network_calls (events t)
      /\ transport_calls (events (shows l t)) = transport_calls (events t)
      /\ pending (shows l t) = pending t)
  /\ (forall usage,
      network_calls (events (refused_dom usage t)) = network_calls (events t)
      /\ transport_calls (events (refused_dom usage t))
         = transport_calls (events t)
      /\ pending (refused_dom usage t) = pending t).
Proof.
  split; [reflexivity|]. split; [|split; [|split]].
  - intros args H. apply short_args in H.
    unfold handleDomCommand, domSetText, domSetHtml, domReplaceText.
    cbn [slice1 tl]. rewrite H.
    repeat (split; [reflexivity|]). reflexivity.
  - intros args H. apply short_args in H.
    unfold handleDomCommand, domSetAttribute.
    cbn [slice1 tl]. rewrite H. split; reflexivity.
  - intros l. apply shows_makes_no_call.
  - intros usage. unfold refused_dom, switched, shows.
    cbn [events pending record set_output set_status].
    rewrite !network_calls_app, !transport_calls_app.
    cbn [network_calls transport_calls filter].
    rewrite !app_nil_r. repeat split.
Qed.

Lemma missing_arguments_abort_before_any_call_witness :
  (List.length [lit "h1"] < 2)%nat
  /\ (List.length [lit "a"; lit "href"] < 3)%nat
  /\ domSetText demo_host [lit "h1"] initial
     = (Returned tt,
        shows (Line (lit "ERROR: Usage: dom set <selector> <text>") Error)
          initial)
  /\ domSetAttribute demo_host [lit "a"; lit "href"] initial
     = (Returned tt,
        shows (Line (lit "ERROR: Usage: dom attr <selector> <attribute> <value>")
                 Error) initial).
Proof.
  assert (A : (List.length [lit "h1"] < 2)%nat) by (simpl; lia).
  assert (B : (List.length [lit "a"; lit "href"] < 3)%nat) by (simpl; lia).
  destruct (missing_arguments_abort_before_any_call demo_host initial)
    as [_ [S2 [S3 _]]].
  split; [exact A|]. split; [exact B|]. split.
  - exact (proj1 (S2 _ A)).
  - exact (proj1 (S3 _ B)).
Defined.

(* ================================================================== *)
(** ** The rendering of a snippet's completion *)
(* ================================================================== *)

Lemma snippet_completes (host : Host) (n : nat) (result : JsValue)
    (isException : bool) (t : Terminal) :
  nth_error (pending t) n = Some (Some SnippetCb) ->
  transportCompletes host n result isException t
  = snippetCallback host result isException (completed n t).
Proof.
  intros P. unfold transportCompletes. rewrite P. reflexivity.
Qed.

Lemma toString_runs (host : Host) (v : JsValue) (t : Terminal) :
  toString host v t
  = match Value.to_string v with
    | Some s => (Returned s, t)
    | None => (Thrown (type_error host NotPrimitive), t)
    end.
Proof. unfold toString. now destruct (Value.to_string v). Qed.

(** C4.  When the transport completes a snippet call, the call waits
    no longer and the end message is sent; then the callback shows one
    line and returns, unless the value that the line interpolates has
    no primitive.  The line is: "EXCEPTION: " and the value, in the
    class error, when the transport reports an uncaught exception;
    "ERROR: " and the message, in the class error as well, when the
    wrapper caught an error of the evaluation; the JSON dump of the
    value with an indentation of two, in the class success, when the
    evaluation produced a defined value; and the text "undefined" when
    it produced none, or when the transport handed over no value at
    all.  Where the value of the exception or the message of the error
    has no primitive, the callback throws the engine's TypeError and no
    line is shown. *)
Theorem snippet_completion_shows_one_line_or_throws
    (host : Host) (n : nat) (result : JsValue) (t : Terminal) :
  nth_error (pending t) n = Some (Some SnippetCb) ->
  let failed :=
    Value.truthy result
    && negb (Value.truthy (Value.prop result (lit "success"))) in
  let defined :=
    Value.truthy result
    && negb (Value.is_undefined (Value.prop result (lit "result"))) in
  let thrown := (Thrown (type_error host NotPrimitive), completed n t) in
  let shown line := (Returned tt, shows line (completed n t)) in
  (forall isException,
     (exists line, transportCompletes host n result isException t = shown line)
     \/ transportCompletes host n result isException t = thrown)
  /\ transportCompletes host n result true t
     = match Value.to_string result with
       | Some value => shown (Line (lit "EXCEPTION: " ++ value) Error)
       | None => thrown
       end
  /\ (failed = true ->
      transportCompletes host n result false t
      = match Value.to_string (Value.prop result (lit "error")) with
        | Some message => shown (Line (lit "ERROR: " ++ message) Error)
        | None => thrown
        end)
  /\ (failed = false -> defined = true ->
      transportCompletes host n result false t
      = shown (Line (JSON.stringify (Value.prop result (lit "result")))
                 Success))
  /\ (failed = false -> defined = false ->
      transportCompletes host n result false t
      = shown (Line (lit "undefined") Success)).
Proof.
  intros P failed defined thrown shown.
  assert (E : transportCompletes host n result true t
              = match Value.to_string result with
                | Some value => shown (Line (lit "EXCEPTION: " ++ value) Error)
                | None => thrown
                end).
  { rewrite (snippet_completes host n result true t P).
    unfold snippetCallback, bind. rewrite toString_runs.
    now destruct (Value.to_string result). }
  assert (F : failed = true ->
              transportCompletes host n result false t
              = match Value.to_string (Value.prop result (lit "error")) with
                | Some message => shown (Line (lit "ERROR: " ++ message) Error)
                | None => thrown
                end).
  { intros H. rewrite (snippet_completes host n result false t P).
    unfold snippetCallback. fold failed. rewrite H.
    unfold bind. rewrite toString_runs.
    now destruct (Value.to_string (Value.prop result (lit "error"))). }
  assert (D : failed = false -> defined = true ->
              transportCompletes host n result false t
              = shown (Line (JSON.stringify (Value.prop result (lit "result")))
                         Success)).
  { intros H1 H2. rewrite (snippet_completes host n result false t P).
    unfold snippetCallback. fold failed defined. now rewrite H1, H2. }
  assert (U : failed = false -> defined = false ->
              transportCompletes host n result false t
              = shown (Line (lit "undefined") Success)).
  { intros H1 H2. rewrite (snippet_completes host n result false t P).
    unfold snippetCallback. fold failed defined. now rewrite H1, H2. }
  split; [|split; [exact E|split; [exact F|split; [exact D|exact U]]]].
  intros [|].
  - rewrite E. destruct (Value.to_string result); [left; eexists|right];
      reflexivity.
  - destruct failed eqn:H1.
    + rewrite (F eq_refl).
      destruct (Value.to_string (Value.prop result (lit "error")));
        [left; eexists|right]; reflexivity.
    + destruct defined eqn:H2;
        [rewrite (D eq_refl eq_refl) | rewrite (U eq_refl eq_refl)];
        left; eexists; reflexivity.
Qed.

(** A snippet that the transport has accepted, and three of its
    completions: a value, an error with its message, an exception. *)
Lemma snippet_completion_shows_one_line_or_throws_witness :
  let t := snd (parseCommand demo_host (lit "eval 6 * 7") initial) in
  let shown line := (Returned tt, shows line (completed 0 t)) in
  transportCompletes demo_host 0 (evaluated_to (VNum 42)) false t
  = shown (Line (lit "42") Success)
  /\ transportCompletes demo_host 0
       (evaluation_failed (lit "x is not defined")) false t
     = shown (Line (lit "ERROR: x is not defined") Error)
  /\ transportCompletes demo_host 0 VUndefined true t
     = shown (Line (lit "EXCEPTION: undefined") Error).
Proof.
  intros t shown.
  assert (P : nth_error (pending t) 0 = Some (Some SnippetCb))
    by (vm_compute; reflexivity).
  destruct (snippet_completion_shows_one_line_or_throws demo_host 0
              (evaluated_to (VNum 42)) t P) as [_ [_ [_ [D _]]]].
  destruct (snippet_completion_shows_one_line_or_throws demo_host 0
              (evaluation_failed (lit "x is not defined")) t P)
    as [_ [_ [F _]]].
  destruct (snippet_completion_shows_one_line_or_throws demo_host 0
              VUndefined t P) as [_ [E _]].
  split; [|split].
  - rewrite (D eq_refl eq_refl). vm_compute. reflexivity.
  - rewrite (F eq_refl). reflexivity.
  - rewrite E. reflexivity.
Defined.

(** The claim as it is written fails twice.  A snippet that throws a
    value whose [message] is an object with an own property [toString]
    makes the wrapper return this object as the error; the callback
    cannot convert it and throws, and the completion shows no line at
    all.  And the line of an exception is no line of a class of its
    own: it has the class error, the class of the error line. *)
Lemma snippet_completion_may_show_no_line :
  let t :=
    snd (parseCommand demo_host
           (lit "(() => { throw { message: { toString: 1 } } })()") initial) in
  let result :=
    VObj [(lit "success", VBool false);
          (lit "error", VObj [(lit "toString", VNum 1)])] in
  nth_error (pending t) 0 = Some (Some SnippetCb)
  /\ transportCompletes demo_host 0 result false t
     = (Thrown (lit "Cannot convert object to primitive value"), completed 0 t)
  /\ output (completed 0 t) = output t
  /\ (forall line,
       transportCompletes demo_host 0 result false t
       <> (Returned tt, shows line (completed 0 t)))
  /\ map category
       (skipn (List.length (output t))
          (output (snd (transportCompletes demo_host 0 VUndefined true t))))
     = [Error]
  /\ map category
       (skipn (List.length (output t))
          (output (snd (transportCompletes demo_host 0
                          (evaluation_failed (lit "x is not defined"))
                          false t))))
     = [Error].
Proof.
  intros t result.
  assert (E : transportCompletes demo_host 0 result false t
              = (Thrown (lit "Cannot convert object to primitive value"),
                 completed 0 t)) by (vm_compute; reflexivity).
  split; [vm_compute; reflexivity|]. split; [exact E|].
  split; [reflexivity|]. split; [|split; vm_compute; reflexivity].
  intros line H. rewrite E in H. discriminate.
Qed.

(* ================================================================== *)
(** ** Scraping without a validated target *)
(* ================================================================== *)

Lemma scrape_without_target (host : Host) (args : list jsstring) (t : Terminal) :
  validatedUrl t = None ->
  handleScrapeCommand host args t
  = (Returned tt,
     shows (Line (lit "ERROR: Please validate a Target URL first") Error) t).
Proof.
  intros H. unfold handleScrapeCommand. step_method. now rewrite H.
Qed.

Lemma dispatch_scrape (host : Host) (command : jsstring) :
  keyword command = lit "scrape" ->
  dispatch host command = handleScrapeCommand host (slice1 (split_ws command)).
Proof.
  intros K. unfold dispatch. rewrite first_field.
  unfold keyword in K. rewrite K. reflexivity.
Qed.

(** C5.  While no target is validated, a command whose keyword is
    [scrape] shows exactly one error line.  Nothing else happens in the
    dispatcher: no network call, no transport invocation, no message,
    no indicator, no field assigned.  Around it [executeCommand] puts
    the line into the history, resets the cursor, echoes the command
    and empties the edit buffer, and touches nothing else. *)
Theorem scrape_needs_validated_target
    (host : Host) (command : jsstring) (t : Terminal) :
  validatedUrl t = None ->
  keyword command = lit "scrape" ->
  let refusal := Line (lit "ERROR: Please validate a Target URL first") Error in
  let echo := Line (lit "researcher@browser:~$ " ++ command) CommandLine in
  parseCommand host command t = (Returned tt, shows refusal t)
  /\ network_calls (events (shows refusal t)) = network_calls (events t)
  /\ transport_calls (events (shows refusal t)) = transport_calls (events t)
  /\ (trim (commandInput t) = command ->
      executeCommand host t
      = (Returned tt,
         {| commandInput := [];
            targetUrl := targetUrl t;
            targetBorder := targetBorder t;
            commandHistory := command :: commandHistory t;
            historyIndex := -1;
            validatedUrl := None;
            snippetStatus := snippetStatus t;
            domStatus := domStatus t;
            scrapeStatus := scrapeStatus t;
            output := output t ++ [echo; refusal];
            pending := pending t;
            events := events t ++ [Rendered echo; Rendered refusal] |})).
Proof.
  intros V K refusal echo.
  assert (P : forall u, validatedUrl u = None ->
              parseCommand host command u = (Returned tt, shows refusal u)).
  { intros u Vu. unfold parseCommand, try_catch.
    rewrite (dispatch_scrape host command K).
    now rewrite (scrape_without_target host _ u Vu). }
  split; [now apply P|].
  split; [apply shows_makes_no_call|].
  split; [apply shows_makes_no_call|].
  intros C.
  assert (NE : is_empty command = false).
  { destruct command; [discriminate K | reflexivity]. }
  destruct t as [input url border history cursor target s1 s2 s3 out queue es].
  simpl in V, C. subst target.
  unfold executeCommand. step_method. cbn [commandInput]. rewrite C, NE.
  cbv beta iota. rewrite P by reflexivity.
  cbv beta iota delta
    [shows record set_output set_commandInput set_historyIndex
     set_commandHistory commandInput targetUrl targetBorder commandHistory
     historyIndex validatedUrl snippetStatus domStatus scrapeStatus output
     pending events].
  rewrite <- !app_assoc. reflexivity.
Qed.

Lemma scrape_needs_validated_target_witness :
  let t := set_commandInput (lit "  Scrape github readme ") initial in
  validatedUrl t = None
  /\ keyword (lit "Scrape github readme") = lit "scrape"
  /\ trim (commandInput t) = lit "Scrape github readme"
  /\ output (snd (executeCommand demo_host t))
     = [Line (lit "researcher@browser:~$ Scrape github readme") CommandLine;
        Line (lit "ERROR: Please validate a Target URL first") Error].
Proof.
  intros t.
  assert (V : validatedUrl t = None) by reflexivity.
  assert (K : keyword (lit "Scrape github readme") = lit "scrape") by reflexivity.
  assert (C : trim (commandInput t) = lit "Scrape github readme") by reflexivity.
  split; [exact V|]. split; [exact K|]. split; [exact C|].
  destruct (scrape_needs_validated_target demo_host _ t V K) as [_ [_ [_ E]]].
  rewrite (E C). reflexivity.
Defined.

(* ================================================================== *)
(** ** Fetching a file of a repository *)
(* ================================================================== *)



Lemma displayFileContent_runs (fileName content : jsstring) (t : Terminal) :
  displayFileContent fileName content t
  = (Returned tt, displayed fileName content t).
Proof. reflexivity. Qed.

Lemma displayed_fields (fileName content : jsstring) (t : Terminal) :
  output (displayed fileName content t) = output t ++ file_lines fileName content
  /\ events (displayed fileName content t)
     = events t ++ map Rendered (file_lines fileName content).
Proof.
  unfold displayed, file_lines. simpl. rewrite <- !app_assoc. now split.
Qed.

(** [fetchGitHubFile], case by case on what the host answers. *)
Lemma fetchGitHubFile_runs
    (host : Host) (owner repo filePath : jsstring) (t : Terminal) :
  let main := raw_url owner repo (lit "main") filePath in
  let master := raw_url owner repo (lit "master") filePath in
  let after_main := record (Fetch main) t in
  let after_master := record (Fetch master) after_main in
  let failed e u := (Returned tt, shows (Line (lit "ERROR: " ++ e) Error) u) in
  let shown (content : Outcome jsstring) u :=
    match content with
    | Returned c => (Returned tt, displayed filePath c u)
    | Thrown e => failed e u
    end in
  fetchGitHubFile host owner repo filePath t
  = match fetch host (events t) main with
    | Thrown e => failed e after_main
    | Returned r =>
        if ok r then shown (body r) after_main
        else
          match fetch host (events after_main) master with
          | Thrown e => failed e after_master
          | Returned r2 =>
              if ok r2 then shown (body r2) after_master
              else failed (lit "File not found: " ++ filePath) after_master
          end
    end.
Proof.
  intros main master after_main after_master failed shown.
  unfold fetchGitHubFile, fetch_url. step_method.
  fold main master after_main.
  destruct (fetch host (events t) main) as [r|e]; [|reflexivity].
  destruct (ok r); cbn [negb].
  - destruct (body r); reflexivity.
  - fold after_master.
    destruct (fetch host (events after_main) master) as [r2|e]; [|reflexivity].
    destruct (ok r2); cbn [negb]; [|reflexivity].
    destruct (body r2); reflexivity.
Qed.

Lemma events_shows (l : OutputLine) (t : Terminal) :
  events (shows l t) = events t ++ [Rendered l].
Proof. reflexivity. Qed.

Lemma events_record (e : Event) (t : Terminal) :
  events (record e t) = events t ++ [e].
Proof. reflexivity. Qed.

Lemma events_displayed (fileName content : jsstring) (t : Terminal) :
  events (displayed fileName content t)
  = events t ++ map Rendered (file_lines fileName content).
Proof. apply displayed_fields. Qed.




(* ================================================================== *)
(** ** Which methods throw, and what they have shown when they do *)
(* ================================================================== *)

Create HintDb method discriminated.

Lemma never_throws_quietly {A} (m : M A) : never_throws m -> throws_quietly m.
Proof.
  intros N t e H. destruct (N t) as [a E]. congruence.
Qed.

Lemma never_throws_ret {A} (a : A) : never_throws (ret a).
Proof. intros t. now exists a. Qed.

Lemma never_throws_assign (f : Terminal -> Terminal) : never_throws (assign f).
Proof. intros t. now exists tt. Qed.

Lemma never_throws_read {A} (f : Terminal -> A) : never_throws (read f).
Proof. intros t. now exists (f t). Qed.

Lemma never_throws_appendOutput (text : jsstring) (type : Category) :
  never_throws (appendOutput text type).
Proof. apply never_throws_assign. Qed.

Lemma never_throws_bind {A B} (m : M A) (k : A -> M B) :
  never_throws m -> (forall a, never_throws (k a)) -> never_throws (bind m k).
Proof.
  intros Hm Hk t. unfold bind.
  destruct (Hm t) as [a E]. destruct (m t) as [r t1]. simpl in E. subst r.
  apply Hk.
Qed.

Lemma never_throws_try_catch {A} (body : M A) (handler : jsstring -> M A) :
  (forall e, never_throws (handler e)) -> never_throws (try_catch body handler).
Proof.
  intros Hh t. unfold try_catch.
  destruct (body t) as [[a|e] t1]; [now exists a | apply Hh].
Qed.

Lemma never_throws_for_each {A} (xs : list A) (body : A -> M unit) :
  (forall x, never_throws (body x)) -> never_throws (for_each xs body).
Proof.
  intros Hb. induction xs as [|x r IH]; simpl.
  - apply never_throws_ret.
  - apply never_throws_bind; [apply Hb | intros _; exact IH].
Qed.

Lemma never_throws_if {A} (b : bool) (m1 m2 : M A) :
  never_throws m1 -> never_throws m2 -> never_throws (if b then m1 else m2).
Proof. now destruct b. Qed.

#[local] Hint Resolve never_throws_ret never_throws_assign never_throws_read
  never_throws_appendOutput never_throws_bind never_throws_try_catch
  never_throws_for_each never_throws_if : method.

Lemma keeps_output_setStatusIndicator (i : Indicator) (b : bool) :
  keeps_output (setStatusIndicator i b).
Proof. intros t. reflexivity. Qed.

Lemma never_throws_setStatusIndicator (i : Indicator) (b : bool) :
  never_throws (setStatusIndicator i b).
Proof. apply never_throws_assign. Qed.

#[local] Hint Resolve never_throws_setStatusIndicator : method.

Lemma keeps_output_executeInPage (host : Host) (code : jsstring)
    (callback : option Callback) :
  keeps_output (executeInPage host code callback).
Proof.
  intros t. unfold executeInPage, inspectedWindow_eval. step_method.
  simpl. destruct (eval_throws host _ code); reflexivity.
Qed.

Lemma throws_quietly_keeps {A} (m : M A) : keeps_output m -> throws_quietly m.
Proof. intros K t e _. apply K. Qed.

Lemma throws_quietly_bind {A B} (m : M A) (k : A -> M B) :
  keeps_output m -> (forall a, throws_quietly (k a)) ->
  throws_quietly (bind m k).
Proof.
  intros Km Hk t e. unfold bind. specialize (Km t).
  destruct (m t) as [[a|e1] t1]; simpl in *.
  - intros H. rewrite (Hk a t1 e H). exact Km.
  - intros _. exact Km.
Qed.

Lemma throws_quietly_finally {A} (body : M A) (cleanup : M unit) :
  throws_quietly body -> keeps_output cleanup -> never_throws cleanup ->
  throws_quietly (try_finally body cleanup).
Proof.
  intros Hb Kc Nc t e. unfold try_finally.
  specialize (Hb t). destruct (body t) as [r t1]. simpl in Hb.
  specialize (Kc t1). destruct (Nc t1) as [u Eu].
  destruct (cleanup t1) as [[u'|e'] t2]; simpl in *; [|discriminate].
  intros H. subst r. rewrite Kc. now apply (Hb e).
Qed.

Lemma throws_quietly_if {A} (b : bool) (m1 m2 : M A) :
  throws_quietly m1 -> throws_quietly m2 ->
  throws_quietly (if b then m1 else m2).
Proof. now destruct b. Qed.

Lemma throws_quietly_appendOutput (text : jsstring) (type : Category) :
  throws_quietly (appendOutput text type).
Proof. apply never_throws_quietly, never_throws_appendOutput. Qed.

Lemma throws_quietly_executeInPage (host : Host) (code : jsstring)
    (callback : option Callback) :
  throws_quietly (executeInPage host code callback).
Proof. apply throws_quietly_keeps, keeps_output_executeInPage. Qed.

#[local] Hint Resolve throws_quietly_if throws_quietly_appendOutput
  throws_quietly_executeInPage keeps_output_setStatusIndicator : method.

Lemma never_throws_fetchGitHubFile (host : Host) (owner repo filePath : jsstring) :
  never_throws (fetchGitHubFile host owner repo filePath).
Proof. unfold fetchGitHubFile. auto with method. Qed.

Lemma never_throws_fetchGitHubTree (host : Host) (owner repo : jsstring) :
  never_throws (fetchGitHubTree host owner repo).
Proof. unfold fetchGitHubTree. auto 10 with method. Qed.

Lemma bind_read {A B} (f : Terminal -> A) (k : A -> M B) (t : Terminal) :
  bind (read f) k t = k (f t) t.
Proof. reflexivity. Qed.

Lemma throws_quietly_scrapeGitHub (host : Host) (args : list jsstring) :
  throws_quietly (scrapeGitHub host args).
Proof.
  intros t e. unfold scrapeGitHub. rewrite bind_read.
  destruct (validatedUrl t) as [url|]; [|reflexivity].
  revert t e. apply never_throws_quietly.
  pose proof (never_throws_fetchGitHubFile host) as F.
  pose proof (never_throws_fetchGitHubTree host) as T.
  auto 12 with method.
Qed.

Lemma throws_quietly_scrapePage (host : Host) (args : list jsstring) :
  throws_quietly (scrapePage host args).
Proof.
  unfold scrapePage, scrapePageText, scrapePageLinks, scrapePageMeta.
  auto 10 with method.
Qed.

Lemma throws_quietly_handleScrapeCommand (host : Host) (args : list jsstring) :
  throws_quietly (handleScrapeCommand host args).
Proof.
  intros t e. unfold handleScrapeCommand. rewrite bind_read.
  destruct (validatedUrl t) as [url|]; [|discriminate].
  revert t e. apply throws_quietly_bind; [auto with method|]. intros _.
  apply throws_quietly_finally; auto with method.
  pose proof (throws_quietly_scrapeGitHub host) as G.
  pose proof (throws_quietly_scrapePage host) as P.
  auto with method.
Qed.

Lemma throws_quietly_handleDomCommand (host : Host) (args : list jsstring) :
  throws_quietly (handleDomCommand host args).
Proof.
  unfold handleDomCommand.
  apply throws_quietly_bind; [auto with method|]. intros _.
  apply throws_quietly_finally; auto with method.
  unfold domSetText, domSetHtml, domSetAttribute, domReplaceText.
  auto 12 with method.
Qed.

Lemma throws_quietly_handleSnippetExecution (host : Host) (code : jsstring) :
  throws_quietly (handleSnippetExecution host code).
Proof.
  unfold handleSnippetExecution.
  apply throws_quietly_if; [auto with method|].
  apply throws_quietly_bind; [auto with method|]. intros _.
  apply throws_quietly_finally; auto with method.
Qed.

Lemma throws_quietly_dispatch (host : Host) (command : jsstring) :
  throws_quietly (dispatch host command).
Proof.
  unfold dispatch.
  pose proof (throws_quietly_handleScrapeCommand host) as S.
  pose proof (throws_quietly_handleDomCommand host) as D.
  pose proof (throws_quietly_handleSnippetExecution host) as X.
  assert (H : throws_quietly showHelp)
    by (apply never_throws_quietly; unfold showHelp; auto with method).
  assert (C : throws_quietly clearTerminal)
    by (apply never_throws_quietly; unfold clearTerminal; auto with method).
  auto 10 with method.
Qed.

(** C6.  When the handler that the dispatcher invokes throws,
    [parseCommand] catches the error and returns: the error goes no
    further.  It shows the one line "ERROR: <message>" in the class
    error, which is the only line of the command, since a handler that
    throws has shown nothing.  After the throw nothing else happens: no
    event but the rendering of that line, no callback queued, so the
    command is not run again. *)
Theorem handler_errors_are_caught
    (host : Host) (command message : jsstring) (t t' : Terminal) :
  dispatch host command t = (Thrown message, t') ->
  let line := Line (lit "ERROR: " ++ message) Error in
  parseCommand host command t = (Returned tt, shows line t')
  /\ output (shows line t') = output t ++ [line]
  /\ events (shows line t') = events t' ++ [Rendered line]
  /\ pending (shows line t') = pending t'.
Proof.
  intros D line.
  split; [|split; [|split]]; try reflexivity.
  - unfold parseCommand, try_catch. rewrite D. reflexivity.
  - pose proof (throws_quietly_dispatch host command t message) as Q.
    rewrite D in Q. simpl in Q. simpl. now rewrite Q.
Qed.

Lemma handler_errors_are_caught_witness :
  let t' := snd (dispatch detached_host (lit "document.title") initial) in
  dispatch detached_host (lit "document.title") initial
  = (Thrown (lit "Extension context invalidated."), t')
  /\ parseCommand detached_host (lit "document.title") initial
     = (Returned tt,
        shows (Line (lit "ERROR: Extension context invalidated.") Error) t')
  /\ output (snd (parseCommand detached_host (lit "document.title") initial))
     = [Line (lit "ERROR: Extension context invalidated.") Error].
Proof.
  intros t'.
  assert (D : dispatch detached_host (lit "document.title") initial
              = (Thrown (lit "Extension context invalidated."), t'))
    by reflexivity.
  destruct (handler_errors_are_caught detached_host (lit "document.title")
              (lit "Extension context invalidated.") initial t' D) as [P [O _]].
  split; [exact D|]. split; [exact P|].
  rewrite P. exact O.
Defined.

(* ================================================================== *)
(** ** The bracket around the transport *)
(* ================================================================== *)

Lemma only_renders_ret {A} (a : A) : only_renders (ret a).
Proof. intros t. exists []. simpl. now rewrite app_nil_r. Qed.

Lemma only_renders_throw {A} (e : jsstring) : only_renders (@throw A e).
Proof. intros t. exists []. simpl. now rewrite app_nil_r. Qed.

Lemma only_renders_appendOutput (text : jsstring) (type : Category) :
  only_renders (appendOutput text type).
Proof. intros t. exists [Line text type]. now split. Qed.

Lemma only_renders_bind {A B} (m : M A) (k : A -> M B) :
  only_renders m -> (forall a, only_renders (k a)) -> only_renders (bind m k).
Proof.
  intros Hm Hk t. unfold bind.
  destruct (Hm t) as [l1 [E1 P1]].
  destruct (m t) as [[a|e] t1]; simpl in *.
  - destruct (Hk a t1) as [l2 [E2 P2]].
    exists (l1 ++ l2).
    rewrite E2, E1, P2, P1, map_app, app_assoc. now split.
  - exists l1. now split.
Qed.

Lemma only_renders_if {A} (b : bool) (m1 m2 : M A) :
  only_renders m1 -> only_renders m2 -> only_renders (if b then m1 else m2).
Proof. now destruct b. Qed.

Lemma only_renders_for_each {A} (xs : list A) (body : A -> M unit) :
  (forall x, only_renders (body x)) -> only_renders (for_each xs body).
Proof.
  intros Hb. induction xs as [|x r IH]; simpl.
  - apply only_renders_ret.
  - apply only_renders_bind; [apply Hb | intros _; exact IH].
Qed.

#[local] Hint Resolve only_renders_ret only_renders_throw
  only_renders_appendOutput only_renders_bind only_renders_if
  only_renders_for_each : method.

Lemma only_renders_toString (host : Host) (v : JsValue) :
  only_renders (toString host v).
Proof. unfold toString. destruct (Value.to_string v); auto with method. Qed.

Lemma only_renders_get (host : Host) (v : JsValue) (k : jsstring) :
  only_renders (get host v k).
Proof. unfold get. destruct v; auto with method. Qed.

#[local] Hint Resolve only_renders_toString only_renders_get : method.

Lemma only_renders_matched (host : Host) (result : JsValue) :
  only_renders (matched host result).
Proof.
  unfold matched, gt_zero.
  destruct (Value.truthy result); [|auto with method].
  destruct (Value.prop result (lit "count")); auto with method.
Qed.

Lemma only_renders_count_of (host : Host) (result : JsValue) :
  only_renders (count_of host result).
Proof. unfold count_of. auto with method. Qed.

#[local] Hint Resolve only_renders_matched only_renders_count_of : method.

Lemma only_renders_forEach (host : Host) (callee : string) (items : JsValue)
    (body : JsValue -> M unit) :
  (forall x, only_renders (body x)) ->
  only_renders (forEach host callee items body).
Proof.
  intros Hb. unfold forEach. destruct items; auto with method.
Qed.

#[local] Hint Resolve only_renders_forEach : method.

Lemma only_renders_invoke (host : Host) (callback : Callback)
    (result : JsValue) (isException : bool) :
  only_renders (invoke host callback result isException).
Proof.
  destruct callback; simpl;
    unfold pageTextCallback, pageLinksCallback, pageMetaCallback,
      setTextCallback, setHtmlCallback, setAttributeCallback,
      replaceTextCallback, snippetCallback;
    auto 12 with method.
Qed.

Lemma bracketed_rendered (es : list Event) (k : nat) (lines : list OutputLine) :
  bracketed es k -> bracketed (es ++ map Rendered lines) k.
Proof.
  revert es. induction lines as [|l ls IH]; intros es B; simpl.
  - now rewrite app_nil_r.
  - change (Rendered l :: map Rendered ls)
      with ([Rendered l] ++ map Rendered ls).
    rewrite app_assoc. apply IH. now apply bracketed_local.
Qed.

(** *** Properties that every method keeps *)

Section Preservation.

Variable P : Terminal -> Prop.

Lemma preserves_ret {A} (a : A) : preserves P (ret a).
Proof. intros t H. exact H. Qed.

Lemma preserves_throw {A} (e : jsstring) : preserves P (@throw A e).
Proof. intros t H. exact H. Qed.

Lemma preserves_read {A} (f : Terminal -> A) : preserves P (read f).
Proof. intros t H. exact H. Qed.

Lemma preserves_settle {A} (o : Outcome A) : preserves P (settle o).
Proof. intros t H. exact H. Qed.

Lemma preserves_assign (f : Terminal -> Terminal) :
  (forall t, P t -> P (f t)) -> preserves P (assign f).
Proof. intros F t H. now apply F. Qed.

Lemma preserves_bind {A B} (m : M A) (k : A -> M B) :
  preserves P m -> (forall a, preserves P (k a)) -> preserves P (bind m k).
Proof.
  intros Hm Hk t W. unfold bind. specialize (Hm t W).
  destruct (m t) as [[a|e] t1]; simpl in *; [now apply Hk | exact Hm].
Qed.

Lemma preserves_try_catch {A} (body : M A) (handler : jsstring -> M A) :
  preserves P body -> (forall e, preserves P (handler e)) ->
  preserves P (try_catch body handler).
Proof.
  intros Hb Hh t W. unfold try_catch. specialize (Hb t W).
  destruct (body t) as [[a|e] t1]; simpl in *; [exact Hb | now apply Hh].
Qed.

Lemma preserves_try_finally {A} (body : M A) (cleanup : M unit) :
  preserves P body -> preserves P cleanup ->
  preserves P (try_finally body cleanup).
Proof.
  intros Hb Hc t W. unfold try_finally. specialize (Hb t W).
  destruct (body t) as [r t1]. simpl in Hb. specialize (Hc t1 Hb).
  destruct (cleanup t1) as [[u|e] t2]; exact Hc.
Qed.

Lemma preserves_if {A} (b : bool) (m1 m2 : M A) :
  preserves P m1 -> preserves P m2 -> preserves P (if b then m1 else m2).
Proof. now destruct b. Qed.

Lemma preserves_for_each {A} (xs : list A) (body : A -> M unit) :
  (forall x, preserves P (body x)) -> preserves P (for_each xs body).
Proof.
  intros Hb. induction xs as [|x r IH]; simpl.
  - apply preserves_ret.
  - apply preserves_bind; [apply Hb | intros _; exact IH].
Qed.

(** The property is kept by the methods of the panel as soon as it is
    kept by what they are made of: the assignments of the fields, the
    lines shown, the indicators, and the calls of the host. *)
Hypothesis keeps_fields :
  forall t, P t ->
    (forall v, P (set_commandInput v t))
    /\ (forall v, P (set_targetUrl v t))
    /\ (forall v, P (set_targetBorder v t))
    /\ (forall v, P (set_validatedUrl v t))
    /\ (forall l, P (shows l t))
    /\ (forall i b, P (switched i b t))
    /\ (forall url, P (record (Fetch url) t))
    /\ P (record Cleared (set_output [] t)).
Hypothesis keeps_submission :
  forall t c, P t -> P (set_historyIndex (-1) (set_commandHistory (c :: commandHistory t) t)).
Hypothesis keeps_navigation :
  forall d, preserves P (navigateHistory d).
Hypothesis keeps_call :
  forall host code callback, preserves P (executeInPage host code callback).
Hypothesis keeps_completion :
  forall host n result isException,
    preserves P (transportCompletes host n result isException).

Lemma preserves_appendOutput (text : jsstring) (type : Category) :
  preserves P (appendOutput text type).
Proof. apply preserves_assign. intros t H. now apply keeps_fields. Qed.

Lemma preserves_setStatusIndicator (i : Indicator) (b : bool) :
  preserves P (setStatusIndicator i b).
Proof. apply preserves_assign. intros t H. now apply keeps_fields. Qed.

Lemma preserves_fetch_url (host : Host) (url : jsstring) :
  preserves P (fetch_url host url).
Proof. intros t H. simpl. now apply keeps_fields. Qed.

(** The cases of a method are taken one by one. *)
Ltac preserve_cases :=
  repeat first
    [ apply preserves_ret | apply preserves_throw | apply preserves_read
    | apply preserves_settle | apply preserves_appendOutput
    | apply preserves_setStatusIndicator | apply preserves_fetch_url
    | apply keeps_call | apply keeps_completion | apply keeps_navigation
    | assumption
    | apply preserves_bind; [|intros ?]
    | apply preserves_try_catch; [|intros ?]
    | apply preserves_try_finally
    | apply preserves_for_each; intros ?
    | apply preserves_assign; intros ? ?; apply keeps_fields; assumption
    | match goal with
      | |- preserves _ (if ?b then _ else _) => destruct b
      | |- preserves _ (match ?x with _ => _ end) => destruct x
      end ].

Lemma preserves_validateTargetUrl (host : Host) :
  preserves P (validateTargetUrl host).
Proof. unfold validateTargetUrl. preserve_cases. Qed.

Lemma preserves_dispatch (host : Host) (command : jsstring) :
  preserves P (dispatch host command).
Proof.
  unfold dispatch, showHelp, clearTerminal, handleScrapeCommand,
    handleDomCommand, handleSnippetExecution, scrapeGitHub, scrapePage,
    scrapePageText, scrapePageLinks, scrapePageMeta, fetchGitHubFile,
    fetchGitHubTree, displayFileContent, domSetText, domSetHtml,
    domSetAttribute, domReplaceText.
  preserve_cases.
Qed.

Lemma preserves_executeCommand (host : Host) : preserves P (executeCommand host).
Proof.
  pose proof (preserves_dispatch host) as D.
  unfold executeCommand, parseCommand.
  apply preserves_bind; [apply preserves_read|]. intros value.
  destruct (is_empty (trim value)); [apply preserves_ret|].
  intros t H. unfold bind at 1 2, assign at 1 2.
  apply keeps_submission with (c := trim value) in H. revert H.
  match goal with
  | |- P ?u -> P (snd (?m ?u)) => generalize u; change (preserves P m)
  end.
  preserve_cases. apply D.
Qed.

Lemma preserves_handle (host : Host) (i : Input) : preserves P (handle host i).
Proof.
  pose proof (preserves_executeCommand host) as X.
  pose proof (preserves_validateTargetUrl host) as V.
  destruct i; simpl; unfold handleKeyDown; preserve_cases.
Qed.

Lemma preserves_run (host : Host) (inputs : list Input) (t : Terminal) :
  P t -> P (run host inputs t).
Proof.
  revert t. induction inputs as [|i inputs IH]; intros t W; simpl; [exact W|].
  apply IH. unfold react. now apply preserves_handle.
Qed.

End Preservation.

(** *** The events stay bracketed *)

Lemma only_renders_bracketed {A} (m : M A) :
  only_renders m -> preserves well_bracketed m.
Proof.
  intros R t B. destruct (R t) as [lines [E P]].
  unfold well_bracketed in *. rewrite E, P. now apply bracketed_rendered.
Qed.

(** What [executeInPage] does: the start message, and then either the
    transport call, which queues the callback, or the exception of the
    transport. *)
Lemma executeInPage_runs (host : Host) (code : jsstring)
    (callback : option Callback) (t : Terminal) :
  executeInPage host code callback t
  = match eval_throws host (events t ++ [Sent EXECUTION_START]) code with
    | Some e => (Thrown e, record (Sent EXECUTION_START) t)
    | None =>
        (Returned tt,
         set_pending (pending t ++ [callback])
           (record (Evaluate code) (record (Sent EXECUTION_START) t)))
    end.
Proof. reflexivity. Qed.

Lemma bracketed_executeInPage (host : Host) (code : jsstring)
    (callback : option Callback) :
  preserves well_bracketed (executeInPage host code callback).
Proof.
  intros t W. rewrite executeInPage_runs. unfold well_bracketed in *.
  destruct (eval_throws host _ code); simpl.
  - now apply bracketed_refused.
  - rewrite length_app, Nat.add_1_r, <- app_assoc. simpl.
    now apply bracketed_call.
Qed.

Lemma remove_nth_length {A} (n : nat) (l : list A) (x : A) :
  nth_error l n = Some x -> List.length l = S (List.length (remove_nth n l)).
Proof.
  revert l; induction n as [|n IH]; intros [|y l] H; simpl in *;
    try discriminate.
  - unfold remove_nth. simpl. reflexivity.
  - unfold remove_nth in *. simpl. f_equal. now apply IH.
Qed.

(** What the completion of a transport call does: the end message, and
    then nothing but the lines of the callback. *)
Lemma evalCompleted_events (host : Host) (callback : option Callback)
    (result : JsValue) (isException : bool) (t : Terminal) :
  exists lines,
    events (snd (evalCompleted host callback result isException t))
    = events t ++ Sent EXECUTION_END :: map Rendered lines
    /\ pending (snd (evalCompleted host callback result isException t))
       = pending t.
Proof.
  unfold evalCompleted, bind, sendMessage, assign.
  assert (R : only_renders
                match callback with
                | Some c => invoke host c result isException
                | None => ret tt
                end).
  { destruct callback; [apply only_renders_invoke | apply only_renders_ret]. }
  destruct (R (record (Sent EXECUTION_END) t)) as [lines [E P]].
  exists lines. rewrite E, P. simpl. rewrite <- app_assoc. now split.
Qed.

Lemma bracketed_transportCompletes (host : Host) (n : nat) (result : JsValue)
    (isException : bool) :
  preserves well_bracketed (transportCompletes host n result isException).
Proof.
  intros t W. unfold transportCompletes.
  destruct (nth_error (pending t) n) as [callback|] eqn:N; [|exact W].
  destruct (evalCompleted_events host callback result isException
              (set_pending (remove_nth n (pending t)) t)) as [lines [E P]].
  unfold well_bracketed in *. rewrite E, P. simpl.
  change (Sent EXECUTION_END :: map Rendered lines)
    with ([Sent EXECUTION_END] ++ map Rendered lines).
  rewrite app_assoc. apply bracketed_rendered, bracketed_end.
  now rewrite <- (remove_nth_length n (pending t) callback N).
Qed.

Lemma bracketed_navigateHistory (d : jsstring) :
  preserves well_bracketed (navigateHistory d).
Proof.
  intros t W. unfold navigateHistory.
  repeat match goal with
         | |- context [if ?b then _ else _] => destruct b
         end; exact W.
Qed.

Lemma run_well_bracketed (host : Host) (inputs : list Input) (t : Terminal) :
  well_bracketed t -> well_bracketed (run host inputs t).
Proof.
  apply preserves_run.
  - intros u W. unfold well_bracketed in *.
    repeat split; intros; try exact W; simpl;
      now apply bracketed_local.
  - intros u c W. exact W.
  - apply bracketed_navigateHistory.
  - apply bracketed_executeInPage.
  - apply bracketed_transportCompletes.
Qed.

(** *** The cursor stays within the history *)

Lemma cursor_executeInPage (host : Host) (code : jsstring)
    (callback : option Callback) :
  preserves cursor_in_bounds (executeInPage host code callback).
Proof.
  intros t W. rewrite executeInPage_runs.
  destruct (eval_throws host _ code); exact W.
Qed.

Lemma run_cursor_in_bounds (host : Host) (inputs : list Input) (t : Terminal) :
  cursor_in_bounds t -> cursor_in_bounds (run host inputs t).
Proof.
  apply preserves_run.
  - intros u W. unfold cursor_in_bounds in *.
    repeat split; intros; simpl; lia.
  - intros u c W. unfold cursor_in_bounds in *.
    cbn [historyIndex commandHistory set_historyIndex set_commandHistory
         List.length].
    lia.
  - intros d u. apply navigateHistory_in_bounds.
  - apply cursor_executeInPage.
  - intros h n result isException u W. unfold transportCompletes.
    destruct (nth_error (pending u) n) as [callback|]; [|exact W].
    assert (S0 : cursor_in_bounds (set_pending (remove_nth n (pending u)) u))
      by exact W.
    revert S0. generalize (set_pending (remove_nth n (pending u)) u).
    change (preserves cursor_in_bounds
              (evalCompleted h callback result isException)).
    unfold evalCompleted, sendMessage.
    apply preserves_bind; [apply preserves_assign; intros ? H; exact H|].
    intros _. destruct callback as [c|]; [|apply preserves_ret].
    destruct c; simpl;
      unfold pageTextCallback, pageLinksCallback, pageMetaCallback,
        setTextCallback, setHtmlCallback, setAttributeCallback,
        replaceTextCallback, snippetCallback, forEach, matched,
        count_of, gt_zero, toString, get;
      repeat first
        [ apply preserves_ret | apply preserves_throw
        | apply preserves_bind; [|intros ?]
        | apply preserves_for_each; intros ?
        | apply preserves_assign; intros ? H; exact H
        | match goal with
          | |- preserves _ (if ?b then _ else _) => destruct b
          | |- preserves _ (match ?x with _ => _ end) => destruct x
          | |- preserves _ (appendOutput _ _) => unfold appendOutput
          end ].
Qed.

(** In every run of the panel the cursor is within the history. *)
Corollary reachable_cursor_in_bounds (host : Host) (inputs : list Input) :
  cursor_in_bounds (run host inputs initial).
Proof.
  apply run_cursor_in_bounds. unfold cursor_in_bounds. simpl. lia.
Qed.

(** C9.  Every transport invocation is bracketed.  [executeInPage]
    sends the start message first and calls the transport next, and
    there is no other call of the transport.  When the transport
    completes a call, whatever it reports (a value, an error caught by
    the wrapper, an uncaught exception), the end message is sent first
    and only then the callback renders its lines.  So in every run of
    the panel the events are bracketed: each transport call follows its
    start message at once and each end message closes a call that was
    open, the open calls being the callbacks that wait. *)
Theorem transport_calls_are_bracketed (host : Host) :
  (forall code callback t,
     executeInPage host code callback t
     = match eval_throws host (events t ++ [Sent EXECUTION_START]) code with
       | Some e => (Thrown e, record (Sent EXECUTION_START) t)
       | None =>
           (Returned tt,
            set_pending (pending t ++ [callback])
              (record (Evaluate code) (record (Sent EXECUTION_START) t)))
       end)
  /\ (forall n result isException t,
      (n < List.length (pending t))%nat ->
      let t' := snd (transportCompletes host n result isException t) in
      exists lines,
        events t' = events t ++ Sent EXECUTION_END :: map Rendered lines
        /\ S (List.length (pending t')) = List.length (pending t))
  /\ (forall inputs, well_bracketed (run host inputs initial)).
Proof.
  split; [|split].
  - intros. apply executeInPage_runs.
  - intros n result isException t L t'. subst t'. unfold transportCompletes.
    destruct (nth_error (pending t) n) as [callback|] eqn:N.
    + destruct (evalCompleted_events host callback result isException
                  (set_pending (remove_nth n (pending t)) t)) as [lines [E P]].
      exists lines. rewrite E, P. simpl. split; [reflexivity|].
      symmetry. exact (remove_nth_length n (pending t) callback N).
    + apply nth_error_None in N. lia.
  - intros inputs. apply run_well_bracketed. constructor.
Qed.

Lemma transport_calls_are_bracketed_witness :
  let t := snd (executeInPage demo_host (wrappedCode (lit "1 + 1"))
                  (Some SnippetCb) initial) in
  (0 < List.length (pending t))%nat
  /\ events t = [Sent EXECUTION_START; Evaluate (wrappedCode (lit "1 + 1"))]
  /\ exists lines,
       events (snd (transportCompletes demo_host 0 (evaluated_to (VNum 2)) false t))
       = events t ++ Sent EXECUTION_END :: map Rendered lines.
Proof.
  intros t.
  assert (L : (0 < List.length (pending t))%nat) by (simpl; lia).
  split; [exact L|]. split; [reflexivity|].
  destruct (transport_calls_are_bracketed demo_host) as [_ [C _]].
  destruct (C 0%nat (evaluated_to (VNum 2)) false t L) as [lines [E _]].
  exists lines. exact E.
Defined.

Example completion_renders_after_end :
  let t := snd (executeInPage demo_host (wrappedCode (lit "1 + 1"))
                  (Some SnippetCb) initial) in
  events (snd (transportCompletes demo_host 0 (evaluated_to (VNum 2)) false t))
  = [Sent EXECUTION_START; Evaluate (wrappedCode (lit "1 + 1"));
     Sent EXECUTION_END; Rendered (Line (lit "2") Success)].
Proof. reflexivity. Qed.

(* ================================================================== *)
(** ** The quoting of the arguments of the DOM commands *)
(* ================================================================== *)

(** Where the argument holds no backslash and no line break, the
    escaped argument is the body of a literal that closes at the
    apostrophe of the template. *)
Lemma escape_quotes_closes (s rest : jsstring) :
  free_of backslash s -> free_of 10%N s -> free_of 13%N s ->
  StringLiteral.closes_as_intended (escape_quotes s) rest.
Proof.
  unfold StringLiteral.closes_as_intended, free_of.
  induction s as [|c r IH]; intros B L C.
  - reflexivity.
  - assert (Bc : c <> backslash) by (intros E; apply B; now left).
    assert (Lc : c <> 10%N) by (intros E; apply L; now left).
    assert (Cc : c <> 13%N) by (intros E; apply C; now left).
    assert (IH' : StringLiteral.scan StringLiteral.InBody
                    (escape_quotes r ++ apostrophe :: rest) = Some rest).
    { apply IH; intros H; [apply B | apply L | apply C]; now right. }
    simpl. destruct (N.eqb_spec c apostrophe) as [->|Ac].
    + simpl. exact IH'.
    + simpl.
      apply N.eqb_neq in Ac, Bc, Lc, Cc.
      unfold StringLiteral.is_LF_or_CR. rewrite Ac, Bc, Lc, Cc. exact IH'.
Qed.

(** The escaping alone does not make every literal close where the
    template means it to: a backslash of the argument takes the
    apostrophe that follows it. *)
Lemma escape_quotes_keeps_backslash :
  ~ (forall s rest, StringLiteral.closes_as_intended (escape_quotes s) rest).
Proof.
  intros H. specialize (H [backslash] []). discriminate H.
Qed.

(** C1, at the command [dom set h1 a] followed by a backslash.  The
    script that reaches the transport embeds the text between two
    apostrophes, and the backslash of the text escapes the apostrophe
    that was to close the literal: the literal runs into the line break
    of the template and the script is no well-formed program.  A text
    made of a backslash and an apostrophe closes its literal one
    apostrophe early. *)
Theorem quote_escaping_misses_backslash :
  let command := lit "dom set h1 a" ++ [backslash] in
  let text := lit "a" ++ [backslash] in
  let before :=
    nl ++ lit "      (() => {" ++ nl
    ++ lit "        const elements = document.querySelectorAll('h1');" ++ nl
    ++ lit "        elements.forEach(el => el.textContent = " in
  let after :=
    lit ");" ++ nl ++ lit "        return { count: elements.length };" ++ nl
    ++ lit "      })()" ++ nl ++ lit "    " in
  transport_calls (events (snd (parseCommand demo_host command initial)))
  = [Evaluate (setTextCode (lit "h1") text)]
  /\ setTextCode (lit "h1") text
     = before ++ apostrophe :: escape_quotes text ++ apostrophe :: after
  /\ StringLiteral.scan StringLiteral.InBody
       (escape_quotes text ++ apostrophe :: after) = None
  /\ ~ StringLiteral.closes_as_intended (escape_quotes text) after
  /\ StringLiteral.scan StringLiteral.InBody
       (escape_quotes [backslash; apostrophe] ++ apostrophe :: after)
     = Some (apostrophe :: after).
Proof.
  intros command text before after.
  split; [reflexivity|]. split; [reflexivity|]. split; [reflexivity|].
  split; [|reflexivity].
  unfold StringLiteral.closes_as_intended. discriminate.
Qed.

Example escaped_apostrophe_stays_inside :
  StringLiteral.scan StringLiteral.InBody
    (escape_quotes (lit "it's") ++ apostrophe :: lit ");")
  = Some (lit ");").
Proof. reflexivity. Qed.

(* ================================================================== *)
(** ** Two sessions *)
(* ================================================================== *)

(** The repository of the target has its README.md on master only. *)
Example readme_falls_back_to_master :
  output
    (run demo_host
       [UrlEdit (lit "https://github.com/acme/widget"); ValidateClick;
        CommandEdit (lit "scrape github readme"); CommandKey (lit "Enter")]
       initial)
  = [Line (check_mark ++ lit " Target URL validated: "
           ++ lit "https://github.com/acme/widget") Success;
     Line (lit "researcher@browser:~$ scrape github readme") CommandLine;
     Line (lit "Scraping GitHub: acme/widget") Success;
     Line (nl ++ rule3 ++ lit " README.md " ++ rule3) Success;
     Line (lit "# widget") Code;
     Line (rule3 ++ lit " End of README.md " ++ rule3 ++ nl) Success].
Proof. reflexivity. Qed.

(** A text is set on two headings; the transport completes later. *)
Example headings_updated :
  let t := run demo_host
             [CommandEdit (lit "dom set h1 Hello"); CommandKey (lit "Enter");
              TransportDone 0 (VObj [(lit "count", VNum 2)]) false]
             initial in
  output t
  = [Line (lit "researcher@browser:~$ dom set h1 Hello") CommandLine;
     Line (check_mark ++ lit " Updated 2 element(s)") Success]
  /\ events t
     = [Rendered (Line (lit "researcher@browser:~$ dom set h1 Hello") CommandLine);
        Indicated dom true;
        Sent EXECUTION_START;
        Evaluate (setTextCode (lit "h1") (lit "Hello"));
        Indicated dom false;
        Sent EXECUTION_END;
        Rendered (Line (check_mark ++ lit " Updated 2 element(s)") Success)]
  /\ pending t = [].
Proof. repeat split. Qed.

Example eval_without_source :
  parseCommand demo_host (lit "eval") initial
  = (Returned tt, shows (Line (lit "ERROR: No code provided") Error) initial).
Proof. reflexivity. Qed.

(* ================================================================== *)
(** ** What a method leaves as it is *)
(* ================================================================== *)

Section Relations.

Variable R : Terminal -> Terminal -> Prop.
Hypothesis R_refl : forall t, R t t.
Hypothesis R_trans : forall a b c, R a b -> R b c -> R a c.

Lemma related_ret {A} (a : A) : related R (ret a).
Proof. intros t. apply R_refl. Qed.

Lemma related_throw {A} (e : jsstring) : related R (@throw A e).
Proof. intros t. apply R_refl. Qed.

Lemma related_read {A} (f : Terminal -> A) : related R (read f).
Proof. intros t. apply R_refl. Qed.

Lemma related_settle {A} (o : Outcome A) : related R (settle o).
Proof. intros t. apply R_refl. Qed.

Lemma related_assign (f : Terminal -> Terminal) :
  (forall t, R t (f t)) -> related R (assign f).
Proof. intros F t. apply F. Qed.

Lemma related_bind {A B} (m : M A) (k : A -> M B) :
  related R m -> (forall a, related R (k a)) -> related R (bind m k).
Proof.
  intros Hm Hk t. unfold bind. specialize (Hm t).
  destruct (m t) as [[a|e] t1]; simpl in *; [|exact Hm].
  eapply R_trans; [exact Hm | apply Hk].
Qed.

Lemma related_try_catch {A} (body : M A) (handler : jsstring -> M A) :
  related R body -> (forall e, related R (handler e)) ->
  related R (try_catch body handler).
Proof.
  intros Hb Hh t. unfold try_catch. specialize (Hb t).
  destruct (body t) as [[a|e] t1]; simpl in *; [exact Hb|].
  eapply R_trans; [exact Hb | apply Hh].
Qed.

Lemma related_try_finally {A} (body : M A) (cleanup : M unit) :
  related R body -> related R cleanup -> related R (try_finally body cleanup).
Proof.
  intros Hb Hc t. unfold try_finally. specialize (Hb t).
  destruct (body t) as [r t1]. simpl in Hb. specialize (Hc t1).
  destruct (cleanup t1) as [[u|e] t2]; simpl in *;
    eapply R_trans; eassumption.
Qed.

Lemma related_if {A} (b : bool) (m1 m2 : M A) :
  related R m1 -> related R m2 -> related R (if b then m1 else m2).
Proof. now destruct b. Qed.

Lemma related_for_each {A} (xs : list A) (body : A -> M unit) :
  (forall x, related R (body x)) -> related R (for_each xs body).
Proof.
  intros Hb. induction xs as [|x r IH]; simpl.
  - apply related_ret.
  - apply related_bind; [apply Hb | intros _; exact IH].
Qed.

Lemma related_fetch_url (host : Host) (url : jsstring) :
  (forall t, R t (record (Fetch url) t)) -> related R (fetch_url host url).
Proof. intros F t. apply F. Qed.

Lemma related_eval (host : Host) (code : jsstring) (callback : option Callback) :
  (forall t, R t (set_pending (pending t ++ [callback])
                    (record (Evaluate code) t))) ->
  related R (inspectedWindow_eval host code callback).
Proof.
  intros F t. unfold inspectedWindow_eval.
  destruct (eval_throws host (events t) code); simpl; [apply R_refl | apply F].
Qed.

End Relations.

(** The cases of a method are taken one by one; [base] settles what
    an assignment or a call of the host does to the relation. *)
Ltac related_cases refl trans base :=
  unfold executeInPage, appendOutput, setStatusIndicator, sendMessage;
  repeat match goal with
    | |- related _ (ret _) => apply (related_ret _ refl)
    | |- related _ (throw _) => apply (related_throw _ refl)
    | |- related _ (read _) => apply (related_read _ refl)
    | |- related _ (settle _) => apply (related_settle _ refl)
    | |- related _ _ => assumption
    | H : forall _, related _ _ |- related _ _ => apply H
    | |- related _ (bind _ _) => apply (related_bind _ trans); [|intros ?]
    | |- related _ (try_catch _ _) =>
        apply (related_try_catch _ trans); [|intros ?]
    | |- related _ (try_finally _ _) => apply (related_try_finally _ trans)
    | |- related _ (for_each _ _) =>
        apply (related_for_each _ refl trans); intros ?
    | |- related _ (assign _) => apply related_assign; intros ?; base
    | |- related _ (fetch_url _ _) => apply related_fetch_url; intros ?; base
    | |- related _ (inspectedWindow_eval _ _ _) =>
        apply (related_eval _ refl); intros ?; base
    | |- related _ (if ?b then _ else _) => destruct b
    | |- related _ (match ?x with _ => _ end) => destruct x
    end.

Ltac unfold_handlers :=
  unfold dispatch, showHelp, clearTerminal, handleScrapeCommand,
    handleDomCommand, handleSnippetExecution, scrapeGitHub, scrapePage,
    scrapePageText, scrapePageLinks, scrapePageMeta, fetchGitHubFile,
    fetchGitHubTree, displayFileContent, domSetText, domSetHtml,
    domSetAttribute, domReplaceText.

Ltac unfold_callbacks :=
  unfold evalCompleted, invoke, pageTextCallback, pageLinksCallback,
    pageMetaCallback, setTextCallback, setHtmlCallback, setAttributeCallback,
    replaceTextCallback, snippetCallback, forEach, matched,
        count_of, gt_zero, toString, get.

(** *** The session fields *)

Lemma same_session_refl (t : Terminal) : same_session t t.
Proof. repeat split. Qed.

Lemma same_session_trans (a b c : Terminal) :
  same_session a b -> same_session b c -> same_session a c.
Proof.
  unfold same_session. intros (A1 & A2 & A3 & A4 & A5 & A6)
    (B1 & B2 & B3 & B4 & B5 & B6).
  repeat split; congruence.
Qed.

Lemma same_session_dispatch (host : Host) (command : jsstring) :
  related same_session (dispatch host command).
Proof.
  unfold_handlers.
  related_cases same_session_refl same_session_trans
    ltac:(repeat split).
Qed.

Lemma same_session_parseCommand (host : Host) (command : jsstring) :
  related same_session (parseCommand host command).
Proof.
  pose proof (same_session_dispatch host command) as D.
  unfold parseCommand.
  related_cases same_session_refl same_session_trans ltac:(repeat split).
Qed.

(** *** The events that a method adds *)

Lemma emits_refl (Q : Event -> Prop) (t : Terminal) : emits Q t t.
Proof. exists []. split; [now rewrite app_nil_r | constructor]. Qed.

Lemma emits_trans (Q : Event -> Prop) (a b c : Terminal) :
  emits Q a b -> emits Q b c -> emits Q a c.
Proof.
  intros [n1 [E1 F1]] [n2 [E2 F2]]. exists (n1 ++ n2). split.
  - now rewrite E2, E1, app_assoc.
  - now apply Forall_app.
Qed.

(** An assignment adds no event or one; [q] shows that the one is
    allowed. *)
Ltac emits_base q :=
  first
    [ exists []; split; [cbn; now rewrite app_nil_r | constructor]
    | eexists [_]; split; [reflexivity | constructor; [q | constructor]] ].

Lemma emits_any_parseCommand (host : Host) (command : jsstring) :
  related (emits (fun _ => True)) (parseCommand host command).
Proof.
  unfold parseCommand. unfold_handlers.
  related_cases (emits_refl (fun _ => True)) (emits_trans (fun _ => True))
    ltac:(emits_base ltac:(exact I)).
Qed.

(* ================================================================== *)
(** ** Submitting a command *)
(* ================================================================== *)

Lemma executeCommand_blank (host : Host) (t : Terminal) :
  trim (commandInput t) = [] -> executeCommand host t = (Returned tt, t).
Proof.
  intros E. unfold executeCommand. step_method. now rewrite E.
Qed.

Lemma executeCommand_submits (host : Host) (t : Terminal) :
  trim (commandInput t) <> [] ->
  let c := trim (commandInput t) in
  executeCommand host t
  = parseCommand host c
      (set_commandInput []
         (shows (echo_of c)
            (set_historyIndex (-1)
               (set_commandHistory (c :: commandHistory t) t)))).
Proof.
  intros NE c. apply is_empty_false in NE.
  unfold executeCommand. step_method. fold c. fold c in NE.
  now rewrite NE.
Qed.

Lemma never_throws_parseCommand (host : Host) (command : jsstring) :
  never_throws (parseCommand host command).
Proof. unfold parseCommand. auto with method. Qed.

(** X1.  A blank edit buffer submits nothing: [executeCommand] leaves
    the whole terminal as it is.  Any other buffer is submitted
    trimmed: whatever the command is and however its handler ends, the
    trimmed line is the newest entry of the history above the old
    entries, the cursor is at rest, the edit buffer is empty, the target
    fields are untouched, the echo of the line is the first event of the
    command, and [executeCommand] returns. *)
Theorem submission_is_recorded (host : Host) (t : Terminal) :
  let c := trim (commandInput t) in
  let t' := snd (executeCommand host t) in
  fst (executeCommand host t) = Returned tt
  /\ (c = [] -> t' = t)
  /\ (c <> [] ->
      commandHistory t' = c :: commandHistory t
      /\ historyIndex t' = (-1)%Z
      /\ commandInput t' = []
      /\ validatedUrl t' = validatedUrl t
      /\ targetUrl t' = targetUrl t
      /\ exists later, events t' = events t ++ Rendered (echo_of c) :: later).
Proof.
  intros c t'. subst t'. split; [|split].
  - destruct c eqn:E.
    + now rewrite (executeCommand_blank host t E).
    + rewrite executeCommand_submits by (fold c; congruence).
      cbv zeta. destruct (never_throws_parseCommand host (trim (commandInput t))
                            (set_commandInput []
                               (shows (echo_of (trim (commandInput t)))
                                  (set_historyIndex (-1)
                                     (set_commandHistory
                                        (trim (commandInput t) :: commandHistory t)
                                        t))))) as [[] H].
      exact H.
  - intros E. now rewrite (executeCommand_blank host t E).
  - intros NE. rewrite (executeCommand_submits host t NE). cbv zeta. fold c.
    set (t0 := set_commandInput [] _).
    destruct (same_session_parseCommand host c t0)
      as (S1 & S2 & S3 & S4 & S5 & S6).
    destruct (emits_any_parseCommand host c t0) as [later [E _]].
    rewrite S1, S2, S3, S4, S6, E.
    repeat (split; [reflexivity|]).
    exists later. subst t0. cbn. now rewrite <- app_assoc.
Qed.

Lemma submission_is_recorded_witness :
  let t := set_commandInput (lit "  dom set h1 Hello ") initial in
  trim (commandInput t) <> []
  /\ commandHistory (snd (executeCommand demo_host t)) = [lit "dom set h1 Hello"]
  /\ commandInput (snd (executeCommand demo_host t)) = [].
Proof.
  intros t.
  assert (NE : trim (commandInput t) <> []) by (vm_compute; discriminate).
  split; [exact NE|].
  destruct (submission_is_recorded demo_host t) as [_ [_ S]].
  destruct (S NE) as (H & _ & I & _).
  split; [exact H | exact I].
Defined.

(* ================================================================== *)
(** ** Recalling the history *)
(* ================================================================== *)

Lemma history_entry_in_range (history : list jsstring) (i : Z) :
  (0 <= i < Z.of_nat (List.length history))%Z ->
  nth_error history (Z.to_nat i) = Some (history_entry history i).
Proof.
  intros B. unfold history_entry.
  destruct (Z.ltb_spec i 0); [lia|].
  apply nth_error_nth'. lia.
Qed.

Lemma navigate_up_moves (t : Terminal) :
  (historyIndex t < Z.of_nat (List.length (commandHistory t)) - 1)%Z ->
  (-1 <= historyIndex t)%Z ->
  snd (navigateHistory (lit "up") t)
  = set_commandInput (history_entry (commandHistory t) (historyIndex t + 1))
      (set_historyIndex (historyIndex t + 1) t).
Proof.
  intros L B. unfold navigateHistory.
  destruct (Nat.eqb_spec (List.length (commandHistory t)) 0) as [Z0|_].
  - rewrite Z0 in L. simpl in L. lia.
  - change (Js.eqb (lit "up") (lit "up")) with true. cbv iota.
    destruct (Z.ltb_spec (historyIndex t)
                (Z.of_nat (List.length (commandHistory t)) - 1));
      [reflexivity | lia].
Qed.

Lemma navigate_up_stays (t : Terminal) :
  (Z.of_nat (List.length (commandHistory t)) - 1 <= historyIndex t)%Z ->
  snd (navigateHistory (lit "up") t) = t.
Proof.
  intros L. unfold navigateHistory.
  destruct (Nat.eqb (List.length (commandHistory t)) 0); [reflexivity|].
  change (Js.eqb (lit "up") (lit "up")) with true. cbv iota.
  destruct (Z.ltb_spec (historyIndex t)
              (Z.of_nat (List.length (commandHistory t)) - 1));
    [lia | reflexivity].
Qed.

Lemma navigate_down_moves (t : Terminal) :
  (0 < historyIndex t)%Z ->
  (historyIndex t <= Z.of_nat (List.length (commandHistory t)) - 1)%Z ->
  snd (navigateHistory (lit "down") t)
  = set_commandInput (history_entry (commandHistory t) (historyIndex t - 1))
      (set_historyIndex (historyIndex t - 1) t).
Proof.
  intros L B. unfold navigateHistory.
  destruct (Nat.eqb_spec (List.length (commandHistory t)) 0) as [Z0|_].
  - rewrite Z0 in B. simpl in B. lia.
  - change (Js.eqb (lit "down") (lit "up")) with false. cbv iota.
    destruct (Z.gtb_spec (historyIndex t) 0); [reflexivity | lia].
Qed.

Lemma navigate_down_leaves (t : Terminal) :
  historyIndex t = 0%Z ->
  (0 < List.length (commandHistory t))%nat ->
  snd (navigateHistory (lit "down") t)
  = set_commandInput [] (set_historyIndex (-1) t).
Proof.
  intros E L. unfold navigateHistory. rewrite E.
  destruct (Nat.eqb_spec (List.length (commandHistory t)) 0) as [Z0|_];
    [lia | reflexivity].
Qed.

Lemma ups_index (k : nat) (t : Terminal) :
  cursor_in_bounds t ->
  let t' := navigations (repeat (lit "up") k) t in
  commandHistory t' = commandHistory t
  /\ historyIndex t'
     = Z.min (historyIndex t + Z.of_nat k)
         (Z.of_nat (List.length (commandHistory t)) - 1).
Proof.
  revert t. induction k as [|k IH]; intros t B; cbv zeta.
  - cbn [repeat navigations fold_left]. unfold cursor_in_bounds in B.
    split; [reflexivity | lia].
  - cbn [repeat navigations fold_left].
    change (fold_left (fun t d => snd (navigateHistory d t))
              (repeat (lit "up") k) (snd (navigateHistory (lit "up") t)))
      with (navigations (repeat (lit "up") k)
              (snd (navigateHistory (lit "up") t))).
    pose proof B as B0. unfold cursor_in_bounds in B0.
    destruct (IH _ (navigateHistory_in_bounds (lit "up") t B)) as [H I].
    rewrite H, I, navigateHistory_keeps_history. split; [reflexivity|].
    destruct (Z.lt_ge_cases (historyIndex t)
                (Z.of_nat (List.length (commandHistory t)) - 1)) as [L|G].
    + rewrite (navigate_up_moves t L) by lia. cbn [historyIndex set_commandInput set_historyIndex]. lia.
    + rewrite (navigate_up_stays t G). lia.
Qed.

Lemma downs_reach (k : nat) (t : Terminal) :
  cursor_in_bounds t ->
  let t' := navigations (repeat (lit "down") k) t in
  commandHistory t' = commandHistory t
  /\ historyIndex t' = Z.max (historyIndex t - Z.of_nat k) (-1)
  /\ ((historyIndex t' < historyIndex t)%Z -> historyIndex t' = (-1)%Z ->
      commandInput t' = [])
  /\ ((historyIndex t' < historyIndex t)%Z -> (0 <= historyIndex t')%Z ->
      nth_error (commandHistory t) (Z.to_nat (historyIndex t'))
      = Some (commandInput t'))
  /\ (historyIndex t' = historyIndex t -> commandInput t' = commandInput t).
Proof.
  revert t. induction k as [|k IH]; intros t B; cbv zeta.
  - cbn [repeat navigations fold_left]. unfold cursor_in_bounds in B.
    repeat split; try lia.
  - cbn [repeat navigations fold_left].
    change (fold_left (fun t d => snd (navigateHistory d t))
              (repeat (lit "down") k) (snd (navigateHistory (lit "down") t)))
      with (navigations (repeat (lit "down") k)
              (snd (navigateHistory (lit "down") t))).
    pose proof B as B0. unfold cursor_in_bounds in B0.
    pose proof (navigateHistory_in_bounds (lit "down") t B) as B1.
    destruct (Z.lt_trichotomy (historyIndex t) 0) as [N|[Z0|P]].
    + rewrite (down_at_rest t) in * by lia.
      destruct (IH t B) as (H & I & C & U & S).
      split; [exact H|]. split; [lia|].
      split; [exact C|]. split; [exact U | exact S].
    + assert (L : (0 < List.length (commandHistory t))%nat) by lia.
      rewrite (navigate_down_leaves t Z0 L) in *.
      set (t1 := set_commandInput _ _) in *.
      rewrite (downs_at_rest k t1) by reflexivity.
      change (commandHistory t1) with (commandHistory t).
      change (historyIndex t1) with (-1)%Z.
      change (commandInput t1) with (@nil N).
      split; [reflexivity|]. split; [lia|].
      split; [reflexivity|]. split; [lia | lia].
    + rewrite (navigate_down_moves t P) in * by lia.
      set (t1 := set_commandInput _ _) in *.
      destruct (IH t1 B1) as (H & I & C & U & S).
      change (commandHistory t1) with (commandHistory t) in *.
      change (historyIndex t1) with (historyIndex t - 1)%Z in *.
      change (commandInput t1)
        with (history_entry (commandHistory t) (historyIndex t - 1)) in S.
      split; [exact H|]. split; [lia|]. split; [|split].
      * intros _ E. apply C; lia.
      * intros _ NN.
        destruct (Z.eq_dec
                    (historyIndex (navigations (repeat (lit "down") k) t1))
                    (historyIndex t - 1)) as [E|NE].
        -- rewrite (S E), E. apply history_entry_in_range. lia.
        -- apply U; lia.
      * intros E. lia.
Qed.

(** X2.  A submitted command can be recalled: after [executeCommand]
    has submitted a line, one ArrowUp puts the trimmed line back into
    the edit buffer with the cursor on entry 0, and the ArrowDown that
    follows empties the buffer and puts the cursor at rest. *)
Theorem submitted_command_is_recalled (host : Host) (t : Terminal) :
  trim (commandInput t) <> [] ->
  let submitted := snd (executeCommand host t) in
  let recalled := snd (handleKeyDown host (lit "ArrowUp") submitted) in
  let left := snd (handleKeyDown host (lit "ArrowDown") recalled) in
  commandInput recalled = trim (commandInput t)
  /\ historyIndex recalled = 0%Z
  /\ commandInput left = []
  /\ historyIndex left = (-1)%Z
  /\ commandHistory left = trim (commandInput t) :: commandHistory t.
Proof.
  intros NE submitted recalled left.
  assert (S : commandHistory submitted = trim (commandInput t) :: commandHistory t
              /\ historyIndex submitted = (-1)%Z).
  { subst submitted. rewrite (executeCommand_submits host t NE). cbv zeta.
    set (t0 := set_commandInput [] _).
    destruct (same_session_parseCommand host (trim (commandInput t)) t0)
      as (_ & S2 & S3 & _).
    rewrite S2, S3. now split. }
  destruct S as [SH SI].
  assert (R : recalled
              = set_commandInput (trim (commandInput t))
                  (set_historyIndex 0 submitted)).
  { subst recalled.
    change (handleKeyDown host (lit "ArrowUp") submitted)
      with (navigateHistory (lit "up") submitted).
    rewrite navigate_up_moves; rewrite ?SH, ?SI; cbn [List.length]; try lia.
    reflexivity. }
  assert (L : left = set_commandInput [] (set_historyIndex (-1) recalled)).
  { subst left.
    change (handleKeyDown host (lit "ArrowDown") recalled)
      with (navigateHistory (lit "down") recalled).
    apply navigate_down_leaves; rewrite R; cbn; [reflexivity|].
    rewrite SH. cbn. lia. }
  rewrite L, R. cbn. rewrite SH. repeat split.
Qed.

Lemma submitted_command_is_recalled_witness :
  let t := set_commandInput (lit " document.title ") initial in
  trim (commandInput t) <> []
  /\ commandInput
       (snd (handleKeyDown demo_host (lit "ArrowUp")
               (snd (executeCommand demo_host t))))
     = lit "document.title".
Proof.
  intros t.
  assert (NE : trim (commandInput t) <> []) by (vm_compute; discriminate).
  split; [exact NE|].
  exact (proj1 (submitted_command_is_recalled demo_host t NE)).
Defined.

(** X3.  From a cursor within the history, [k] presses of ArrowUp move
    the cursor to [min (cursor + k) (n - 1)], where [n] is the length of
    the history, and never change the history.  If the cursor has moved,
    the edit buffer holds the entry under the cursor, a genuine entry of
    the history; if it has not, the edit buffer is as it was. *)
Theorem arrow_up_shows_the_entry_under_the_cursor (k : nat) (t : Terminal) :
  cursor_in_bounds t ->
  let t' := navigations (repeat (lit "up") k) t in
  let n := Z.of_nat (List.length (commandHistory t)) in
  commandHistory t' = commandHistory t
  /\ historyIndex t' = Z.min (historyIndex t + Z.of_nat k) (n - 1)
  /\ ((historyIndex t < historyIndex t')%Z ->
      nth_error (commandHistory t) (Z.to_nat (historyIndex t'))
      = Some (commandInput t'))
  /\ (historyIndex t' = historyIndex t -> commandInput t' = commandInput t).
Proof.
  revert t. induction k as [|k IH]; intros t B; cbv zeta.
  - cbn [repeat navigations fold_left]. unfold cursor_in_bounds in B.
    repeat split; try lia.
  - cbn [repeat navigations fold_left].
    change (fold_left (fun t d => snd (navigateHistory d t))
              (repeat (lit "up") k) (snd (navigateHistory (lit "up") t)))
      with (navigations (repeat (lit "up") k)
              (snd (navigateHistory (lit "up") t))).
    pose proof B as B0. unfold cursor_in_bounds in B0.
    destruct (Z.lt_ge_cases (historyIndex t)
                (Z.of_nat (List.length (commandHistory t)) - 1)) as [L|G].
    + pose proof (navigateHistory_in_bounds (lit "up") t B) as B1.
      rewrite (navigate_up_moves t L) in * by lia.
      set (t1 := set_commandInput _ _) in *.
      destruct (IH t1 B1) as (H & I & U & S).
      change (commandHistory t1) with (commandHistory t) in *.
      change (historyIndex t1) with (historyIndex t + 1)%Z in *.
      change (commandInput t1)
        with (history_entry (commandHistory t) (historyIndex t + 1)) in S.
      split; [exact H|]. split; [lia|]. split.
      * intros _.
        destruct (Z.eq_dec (historyIndex (navigations (repeat (lit "up") k) t1))
                    (historyIndex t + 1)) as [E|NE].
        -- rewrite (S E), E. apply history_entry_in_range. lia.
        -- apply U. lia.
      * intros E. lia.
    + rewrite (navigate_up_stays t G).
      destruct (IH t B) as (H & I & U & S).
      split; [exact H|]. split; [lia|]. split; [exact U | exact S].
Qed.


Lemma arrow_up_shows_the_entry_under_the_cursor_witness :
  let t := set_commandHistory [lit "c"; lit "b"; lit "a"] initial in
  cursor_in_bounds t
  /\ historyIndex (navigations (repeat (lit "up") 5) t) = 2%Z
  /\ nth_error (commandHistory t) 2
     = Some (commandInput (navigations (repeat (lit "up") 5) t)).
Proof.
  intros t.
  assert (B : cursor_in_bounds t) by (unfold cursor_in_bounds; simpl; lia).
  split; [exact B|].
  destruct (arrow_up_shows_the_entry_under_the_cursor 5 t B) as (_ & I & U & _).
  split; [exact I|]. apply U. vm_compute. reflexivity.
Defined.

(** X4.  Browsing loses the draft.  From the cursor at rest and a
    history that is not empty, [j] presses of ArrowUp followed by [j]
    presses of ArrowDown, for any [j] above zero, end with the cursor
    at rest and the edit buffer empty, whatever text the buffer held
    before. *)
Theorem browsing_and_back_empties_the_buffer (j : nat) (t : Terminal) :
  historyIndex t = (-1)%Z ->
  commandHistory t <> [] ->
  (0 < j)%nat ->
  let t' := navigations (repeat (lit "up") j ++ repeat (lit "down") j) t in
  historyIndex t' = (-1)%Z
  /\ commandInput t' = []
  /\ commandHistory t' = commandHistory t.
Proof.
  intros R NE J t'. subst t'. unfold navigations. rewrite fold_left_app.
  fold (navigations (repeat (lit "up") j) t).
  set (t1 := navigations (repeat (lit "up") j) t).
  fold (navigations (repeat (lit "down") j) t1).
  assert (N : (0 < List.length (commandHistory t))%nat).
  { destruct (commandHistory t); [congruence | simpl; lia]. }
  assert (B : cursor_in_bounds t) by (unfold cursor_in_bounds; lia).
  destruct (ups_index j t B) as (H1 & I1). fold t1 in H1, I1.
  assert (B1 : cursor_in_bounds t1).
  { unfold cursor_in_bounds. rewrite H1. lia. }
  destruct (downs_reach j t1 B1) as (H2 & I2 & C & _).
  assert (E : historyIndex (navigations (repeat (lit "down") j) t1) = (-1)%Z)
    by lia.
  split; [exact E|]. split; [apply C; lia | congruence].
Qed.

Lemma browsing_and_back_empties_the_buffer_witness :
  let t := set_commandInput (lit "a draft")
             (set_commandHistory [lit "help"] initial) in
  historyIndex t = (-1)%Z
  /\ commandHistory t <> []
  /\ (0 < 3)%nat
  /\ commandInput
       (navigations (repeat (lit "up") 3 ++ repeat (lit "down") 3) t) = [].
Proof.
  intros t.
  assert (R : historyIndex t = (-1)%Z) by reflexivity.
  assert (NE : commandHistory t <> []) by discriminate.
  assert (J : (0 < 3)%nat) by lia.
  repeat (split; [assumption|]).
  exact (proj1 (proj2 (browsing_and_back_empties_the_buffer 3 t R NE J))).
Defined.

(* ================================================================== *)
(** ** The indicators *)
(* ================================================================== *)

Lemma same_indicators_refl (t : Terminal) : same_indicators t t.
Proof. repeat split. Qed.

Lemma same_indicators_trans (a b c : Terminal) :
  same_indicators a b -> same_indicators b c -> same_indicators a c.
Proof.
  unfold same_indicators. intros (A1 & A2 & A3) (B1 & B2 & B3).
  repeat split; congruence.
Qed.

Ltac indicators_kept :=
  related_cases same_indicators_refl same_indicators_trans ltac:(repeat split).

Lemma same_indicators_scrapeGitHub (host : Host) (args : list jsstring) :
  related same_indicators (scrapeGitHub host args).
Proof. unfold_handlers. indicators_kept. Qed.

Lemma same_indicators_scrapePage (host : Host) (args : list jsstring) :
  related same_indicators (scrapePage host args).
Proof. unfold_handlers. indicators_kept. Qed.

Lemma same_indicators_dom_actions (host : Host) (args : list jsstring) :
  related same_indicators (domSetText host args)
  /\ related same_indicators (domSetHtml host args)
  /\ related same_indicators (domSetAttribute host args)
  /\ related same_indicators (domReplaceText host args).
Proof. split; [|split; [|split]]; unfold_handlers; indicators_kept. Qed.

(** A body that leaves the indicators alone, between the switching on
    and the switching off of one of them. *)
Lemma switched_around (i : Indicator) (body : M unit) (t : Terminal) :
  related same_indicators body ->
  let t' := snd ((setStatusIndicator i true ;;
                  try_finally body (setStatusIndicator i false)) t) in
  indicator i t' = false
  /\ forall j, j <> i -> indicator j t' = indicator j t.
Proof.
  intros K. cbv zeta. unfold bind, try_finally, setStatusIndicator, assign.
  specialize (K (switched i true t)).
  destruct (body (switched i true t)) as [r t1]. simpl in K.
  destruct K as (K1 & K2 & K3). cbn [snd].
  split.
  - destruct i; reflexivity.
  - intros j NE. destruct i, j; try congruence; cbn in *; congruence.
Qed.

(** X5.  Every handler that switches its indicator on switches it off
    before it returns or throws, and leaves the other two as they were:
    [handleDomCommand] always, [handleSnippetExecution] for a source
    that is not empty, [handleScrapeCommand] once a target is validated.
    The transport is not awaited: when it accepts the snippet, the
    callback is still waiting while the snippet indicator is already
    off. *)
Theorem indicators_are_switched_off (host : Host) (t : Terminal) :
  (forall args,
     let t' := snd (handleDomCommand host args t) in
     indicator dom t' = false
     /\ forall j, j <> dom -> indicator j t' = indicator j t)
  /\ (forall code, code <> [] ->
      let t' := snd (handleSnippetExecution host code t) in
      indicator snippet t' = false
      /\ (forall j, j <> snippet -> indicator j t' = indicator j t)
      /\ (eval_throws host
            (events t ++ [Indicated snippet true; Sent EXECUTION_START])
            (wrappedCode code) = None ->
          pending t' = pending t ++ [Some SnippetCb]))
  /\ (forall args, validatedUrl t <> None ->
      let t' := snd (handleScrapeCommand host args t) in
      indicator scraping t' = false
      /\ forall j, j <> scraping -> indicator j t' = indicator j t).
Proof.
  split; [|split].
  - intros args. unfold handleDomCommand. apply switched_around.
    destruct (same_indicators_dom_actions host (slice1 args))
      as (D1 & D2 & D3 & D4).
    indicators_kept.
  - intros code NE. apply is_empty_false in NE.
    unfold handleSnippetExecution. rewrite NE. cbv zeta.
    split; [|split].
    + apply switched_around. indicators_kept.
    + apply switched_around. indicators_kept.
    + intros ACC.
      unfold bind, try_finally, setStatusIndicator, assign.
      rewrite executeInPage_runs.
      cbn [events switched record set_status]. rewrite <- app_assoc.
      cbn [app]. rewrite ACC. reflexivity.
  - intros args V. unfold handleScrapeCommand. rewrite bind_read.
    destruct (validatedUrl t) as [target|]; [|congruence].
    apply switched_around.
    pose proof (same_indicators_scrapeGitHub host) as G.
    pose proof (same_indicators_scrapePage host) as P.
    indicators_kept.
Qed.

Lemma indicators_are_switched_off_witness :
  let t := set_status snippet true initial in
  lit "1 + 1" <> []
  /\ indicator snippet t = true
  /\ indicator snippet (snd (handleSnippetExecution demo_host (lit "1 + 1") t))
     = false
  /\ pending (snd (handleSnippetExecution demo_host (lit "1 + 1") t))
     = [Some SnippetCb].
Proof.
  intros t.
  assert (NE : lit "1 + 1" <> []) by discriminate.
  destruct (indicators_are_switched_off demo_host t) as [_ [S _]].
  destruct (S (lit "1 + 1") NE) as (O & _ & Q).
  split; [exact NE|]. split; [reflexivity|]. split; [exact O|].
  exact (Q eq_refl).
Defined.

(* ================================================================== *)
(** ** The display *)
(* ================================================================== *)

Lemma output_grows_refl (t : Terminal) : output_grows t t.
Proof. exists []. now rewrite app_nil_r. Qed.

Lemma output_grows_trans (a b c : Terminal) :
  output_grows a b -> output_grows b c -> output_grows a c.
Proof.
  intros [l1 E1] [l2 E2]. exists (l1 ++ l2). now rewrite E2, E1, app_assoc.
Qed.

Ltac output_base :=
  first [ exists []; cbn; now rewrite app_nil_r
        | eexists [_]; reflexivity ].

Ltac display_grows :=
  related_cases output_grows_refl output_grows_trans ltac:(output_base).

Lemma output_grows_handlers (host : Host) (args : list jsstring) :
  related output_grows showHelp
  /\ related output_grows (handleScrapeCommand host args)
  /\ related output_grows (handleDomCommand host args)
  /\ (forall code, related output_grows (handleSnippetExecution host code)).
Proof.
  split; [|split; [|split]]; intros; unfold_handlers; display_grows.
Qed.

Lemma output_grows_validateTargetUrl (host : Host) :
  related output_grows (validateTargetUrl host).
Proof. unfold validateTargetUrl. display_grows. Qed.

Lemma output_grows_navigateHistory (d : jsstring) :
  related output_grows (navigateHistory d).
Proof.
  intros t. unfold navigateHistory.
  repeat match goal with
         | |- context [if ?b then _ else _] => destruct b
         end; exists []; cbn; now rewrite app_nil_r.
Qed.

Lemma output_grows_transportCompletes (host : Host) (n : nat)
    (result : JsValue) (isException : bool) :
  related output_grows (transportCompletes host n result isException).
Proof.
  intros t. unfold transportCompletes.
  destruct (nth_error (pending t) n) as [callback|];
    [|apply output_grows_refl].
  assert (G : related output_grows
                (evalCompleted host callback result isException)).
  { unfold_callbacks. display_grows. }
  destruct (G (set_pending (remove_nth n (pending t)) t)) as [lines E].
  exists lines. exact E.
Qed.

Lemma dispatch_not_clear (host : Host) (command : jsstring) :
  keyword command <> lit "clear" ->
  related output_grows (dispatch host command).
Proof.
  intros NC.
  destruct (output_grows_handlers host (slice1 (split_ws command)))
    as (H & S & D & X).
  unfold dispatch. rewrite first_field. fold (keyword command).
  apply eqb_neq in NC. rewrite NC.
  display_grows.
Qed.

Lemma dispatch_clear (host : Host) (command : jsstring) (t : Terminal) :
  keyword command = lit "clear" ->
  dispatch host command t
  = (Returned tt, shows cleared_line (record Cleared (set_output [] t))).
Proof.
  intros C. unfold dispatch. rewrite first_field. fold (keyword command).
  rewrite C. reflexivity.
Qed.

Lemma eqb_spec_clear (c : jsstring) :
  {keyword c = lit "clear"} + {keyword c <> lit "clear"}.
Proof.
  destruct (Js.eqb (keyword c) (lit "clear")) eqn:E.
  - left. now apply eqb_eq.
  - right. now apply eqb_neq.
Qed.

(** X6.  Lines leave the display through the command [clear] and
    through nothing else.  Whatever reaches the panel (a key, an edit,
    a click on the validation button, a completion of the transport),
    either the display after it is the display before it with lines
    added at its end, or the input is the Enter key on a line whose
    keyword is [clear], and then the display holds the one line
    "Terminal cleared.": the echo of the command is erased with the
    rest. *)
Theorem only_clear_removes_lines (host : Host) (i : Input) (t : Terminal) :
  output_grows t (react host t i)
  \/ (i = CommandKey (lit "Enter")
      /\ keyword (trim (commandInput t)) = lit "clear"
      /\ output (react host t i) = [cleared_line]).
Proof.
  unfold react. destruct i as [key|value|key|value| |n result isException];
    cbn [handle].
  - unfold handleKeyDown.
    destruct (Js.eqb key (lit "Enter")) eqn:K.
    + apply eqb_eq in K. subst key.
      destruct (trim (commandInput t)) as [|c0 cs] eqn:C.
      * left. rewrite (executeCommand_blank host t C). apply output_grows_refl.
      * assert (NE : trim (commandInput t) <> []) by congruence.
        rewrite (executeCommand_submits host t NE). cbv zeta. rewrite C.
        set (c := c0 :: cs). set (t0 := set_commandInput [] _).
        assert (G0 : output_grows t t0) by (eexists [_]; reflexivity).
        destruct (eqb_spec_clear c) as [CL|NC].
        -- right. split; [reflexivity|]. split; [exact CL|].
           unfold parseCommand, try_catch.
           rewrite (dispatch_clear host c t0 CL). reflexivity.
        -- left. apply (output_grows_trans _ _ _ G0).
           pose proof (dispatch_not_clear host c NC) as D.
           assert (P : related output_grows (parseCommand host c)).
           { unfold parseCommand. display_grows. }
           apply P.
    + left.
      destruct (Js.eqb key (lit "ArrowUp"));
        [apply output_grows_navigateHistory|].
      destruct (Js.eqb key (lit "ArrowDown"));
        [apply output_grows_navigateHistory | apply output_grows_refl].
  - left. exists []. cbn. now rewrite app_nil_r.
  - left. destruct (Js.eqb key (lit "Enter"));
      [apply output_grows_validateTargetUrl | apply output_grows_refl].
  - left. exists []. cbn. now rewrite app_nil_r.
  - left. apply output_grows_validateTargetUrl.
  - left. apply output_grows_transportCompletes.
Qed.

(* ================================================================== *)
(** ** What a command requests, and of whom *)
(* ================================================================== *)

Lemma emits_weaken (Q Q' : Event -> Prop) (a b : Terminal) :
  (forall e, Q e -> Q' e) -> emits Q a b -> emits Q' a b.
Proof.
  intros W [new [E F]]. exists new. split; [exact E|].
  eapply Forall_impl; eassumption.
Qed.

Lemma is_case_true (v : option jsstring) (label : string) :
  is_case v label = true -> v = Some (lit label).
Proof.
  destruct v as [s|]; [|discriminate]. cbn. intros E.
  apply eqb_eq in E. now subst.
Qed.

Ltac file_base :=
  emits_base
    ltac:(cbn;
          first [ exact I
                | eexists; split; [left; reflexivity | reflexivity]
                | eexists; split; [right; reflexivity | reflexivity] ]).

Lemma fetchGitHubFile_emits (host : Host) (owner repo path : jsstring) :
  related (emits (file_event owner repo path))
    (fetchGitHubFile host owner repo path).
Proof.
  unfold fetchGitHubFile, displayFileContent.
  related_cases (emits_refl (file_event owner repo path))
    (emits_trans (file_event owner repo path))
    ltac:(file_base).
Qed.

Lemma tree_event_more (owner repo file : jsstring) (files : list jsstring)
    (e : Event) :
  tree_event owner repo files e -> tree_event owner repo (file :: files) e.
Proof.
  destruct e; cbn; auto. intros (f & I & E). exists f. split; [now right|exact E].
Qed.

Lemma fetchGitHubTree_emits (host : Host) (owner repo : jsstring) :
  related (emits (tree_event owner repo commonFiles))
    (fetchGitHubTree host owner repo).
Proof.
  assert (L : forall files,
            related (emits (tree_event owner repo files))
              (for_each files
                 (fun file =>
                    let rawUrl := raw_url owner repo (lit "main") file in
                    try_catch
                      (response <- fetch_url host rawUrl ;;
                       if ok response
                       then appendOutput
                              (lit "  " ++ check_mark ++ lit " " ++ file)
                              Success
                       else ret tt)
                      (fun _ => ret tt)))).
  { induction files as [|file files IH].
    - intros t. apply emits_refl.
    - cbn [for_each]. apply (related_bind _ (emits_trans _)).
      + cbv zeta.
        related_cases (emits_refl (tree_event owner repo (file :: files)))
          (emits_trans (tree_event owner repo (file :: files)))
          ltac:(emits_base
                  ltac:(cbn;
                        first [ exact I
                              | exists file; split;
                                [now left | reflexivity] ])).
      + intros _ t.
        exact (emits_weaken _ _ _ _ (tree_event_more owner repo file files)
                 (IH t)). }
  unfold fetchGitHubTree.
  pose proof (L commonFiles) as C. cbv zeta in C.
  related_cases (emits_refl (tree_event owner repo commonFiles))
    (emits_trans (tree_event owner repo commonFiles))
    ltac:(emits_base ltac:(exact I)).
Qed.

(** [scrapeGitHub] in a state whose target is [target]. *)
Lemma scrapeGitHub_within (host : Host) (args : list jsstring)
    (target : URL) (t : Terminal) :
  validatedUrl t = Some target ->
  emits (scrape_event target args) t (snd (scrapeGitHub host args t)).
Proof.
  intros V. unfold scrapeGitHub. rewrite bind_read, V.
  fold (path_segments target).
  destruct (negb (includes (lit "github.com") (hostname target))
            || Nat.ltb (List.length (path_segments target)) 2) eqn:G.
  - exists [Rendered (Line (lit "ERROR: Invalid GitHub repository URL") Error)].
    split; [reflexivity | repeat constructor].
  - apply orb_false_iff in G as [G1 G2].
    apply negb_false_iff in G1. apply Nat.ltb_ge in G2.
    assert (N : names_repository target) by now split.
    fold (owner_of target) (repo_of target).
    assert (S : forall (m : M unit),
              related (emits (scrape_event target args)) m ->
              emits (scrape_event target args) t
                (snd ((appendOutput
                         (lit "Scraping GitHub: " ++ owner_of target
                          ++ lit "/" ++ repo_of target) Success ;; m) t))).
    { intros m R.
      assert (B : related (emits (scrape_event target args))
                    (appendOutput
                       (lit "Scraping GitHub: " ++ owner_of target
                        ++ lit "/" ++ repo_of target) Success ;; m)).
      { related_cases (emits_refl (scrape_event target args))
          (emits_trans (scrape_event target args))
          ltac:(emits_base ltac:(exact I)). }
      apply B. }
    apply S.
    destruct (is_case (first_lower args) "readme") eqn:A1;
      [|destruct (is_case (first_lower args) "tree") eqn:A2;
        [|destruct (is_case (first_lower args) "file") eqn:A3;
          [destruct (is_empty (join (lit " ") (slice1 args))) eqn:P|]]].
    + apply is_case_true in A1. intros u.
      apply (emits_weaken (file_event (owner_of target) (repo_of target)
                             (lit "README.md")));
        [|apply fetchGitHubFile_emits].
      intros [m|code|x|l| |i b]; cbn; auto.
      intros (branch & B & E). split; [exact N|].
      exists branch, (lit "README.md"). split; [|exact E].
      left. now split.
    + apply is_case_true in A2. intros u.
      apply (emits_weaken (tree_event (owner_of target) (repo_of target)
                             commonFiles));
        [|apply fetchGitHubTree_emits].
      intros [m|code|x|l| |i b]; cbn; auto.
      intros (file & F & E). split; [exact N|].
      exists (lit "main"), file. split; [|exact E].
      right. left. now split.
    + intros u. exists [Rendered (Line (lit "ERROR: Please specify a file path")
                                    Error)].
      split; [reflexivity | repeat constructor].
    + apply is_case_true in A3. apply is_empty_false in P. intros u.
      apply (emits_weaken (file_event (owner_of target) (repo_of target)
                             (join (lit " ") (slice1 args))));
        [|apply fetchGitHubFile_emits].
      intros [m|code|x|l| |i b]; cbn; auto.
      intros (branch & B & E). split; [exact N|].
      exists branch, (join (lit " ") (slice1 args)). split; [|exact E].
      right. right. now repeat split.
    + intros u.
      exists [Rendered (Line (lit "ERROR: Unknown GitHub action. Use: readme, tree, or file <path>") Error)].
      split; [reflexivity | repeat constructor].
Qed.

Lemma within_target_refl (V : option URL) (args : list jsstring)
    (t : Terminal) : within_target V args t t.
Proof. intros H. split; [exact H | apply emits_refl]. Qed.

Lemma within_target_trans (V : option URL) (args : list jsstring)
    (a b c : Terminal) :
  within_target V args a b -> within_target V args b c ->
  within_target V args a c.
Proof.
  intros A B H. destruct (A H) as [H1 E1]. destruct (B H1) as [H2 E2].
  split; [exact H2 | eapply emits_trans; eassumption].
Qed.

Lemma same_session_scrapeGitHub (host : Host) (args : list jsstring) :
  related same_session (scrapeGitHub host args).
Proof.
  unfold_handlers.
  related_cases same_session_refl same_session_trans ltac:(repeat split).
Qed.

Lemma within_target_scrapeGitHub (host : Host) (V : option URL)
    (args : list jsstring) :
  related (within_target V args) (scrapeGitHub host args).
Proof.
  intros t H. split.
  - destruct (same_session_scrapeGitHub host args t) as (_ & _ & _ & _ & _ & S).
    congruence.
  - destruct V as [target|].
    + eapply emits_weaken; [|apply (scrapeGitHub_within host args target t H)].
      intros [m|code|u|l| |i b]; unfold target_event, scrape_event; auto.
      intros R. now exists target.
    + unfold scrapeGitHub. rewrite bind_read, H. apply emits_refl.
Qed.

Ltac within_base :=
  let H := fresh in
  intros H; split; [exact H | emits_base ltac:(exact I)].

Lemma within_target_parseCommand (host : Host) (V : option URL)
    (command : jsstring) :
  related (within_target V (slice1 (remaining_tokens command)))
    (parseCommand host command).
Proof.
  pose proof (within_target_scrapeGitHub host V
                (slice1 (remaining_tokens command))) as G.
  unfold remaining_tokens in *.
  unfold parseCommand, dispatch, showHelp, clearTerminal, handleScrapeCommand,
    handleDomCommand, handleSnippetExecution, scrapePage, scrapePageText,
    scrapePageLinks, scrapePageMeta, domSetText, domSetHtml, domSetAttribute,
    domReplaceText.
  related_cases (within_target_refl V (slice1 (tl (split_ws command))))
    (within_target_trans V (slice1 (tl (split_ws command))))
    ltac:(within_base).
Qed.

(** X7.  What a command hands to [fetch] is built from the validated
    target and from the command, and from nothing else.  Whatever the
    command line, the text of every request that [parseCommand] makes
    is
    [https://raw.githubusercontent.com/<owner>/<repo>/<branch>/<path>]
    where a target is stored, its host name contains the text
    github.com, its path has two segments or more, and owner and
    repository are the first two of them; the path is README.md for
    [readme] and one of the five common files for [tree], with the
    branch main or (for README.md) master; for [file] the path is the
    rest of the command line, its tokens joined by single spaces, and
    the branch is main or master.  The path of [file] is put into the
    text as it was typed: it is neither checked nor encoded, so that a
    path with dot segments is requested with them.  Without a stored
    target no request is made at all. *)
Theorem requests_are_built_from_the_validated_target
    (host : Host) (command : jsstring) (t : Terminal) :
  exists new,
    events (snd (parseCommand host command t)) = events t ++ new
    /\ forall u, In (Fetch u) new ->
         exists target,
           validatedUrl t = Some target
           /\ built_from target (slice1 (remaining_tokens command)) u.
Proof.
  destruct (within_target_parseCommand host (validatedUrl t) command t eq_refl)
    as [_ [new [E F]]].
  exists new. split; [exact E|].
  intros u I. rewrite Forall_forall in F. exact (F _ I).
Qed.

(** The path of [file] is requested as it was typed, dot segments
    included. *)
Lemma requests_are_built_from_the_validated_target_witness :
  let t := set_validatedUrl (Some acme_widget) initial in
  let command := lit "scrape github file ../../../evil/repo/dev/x" in
  let u :=
    lit "https://raw.githubusercontent.com/acme/widget/main/../../../evil/repo/dev/x" in
  In (Fetch u) (events (snd (parseCommand demo_host command t)))
  /\ built_from acme_widget (slice1 (remaining_tokens command)) u.
Proof.
  intros t command u.
  assert (I : In (Fetch u) (events (snd (parseCommand demo_host command t)))).
  { vm_compute. right. right. left. reflexivity. }
  split; [exact I|].
  destruct (requests_are_built_from_the_validated_target demo_host command t)
    as [new [E F]].
  rewrite E in I. destruct (F u I) as [target [V B]].
  injection V as <-. exact B.
Defined.

Lemma no_network_refl (t : Terminal) : no_network t t.
Proof. reflexivity. Qed.

Lemma no_network_trans (a b c : Terminal) :
  no_network a b -> no_network b c -> no_network a c.
Proof. unfold no_network. congruence. Qed.

Ltac no_network_base :=
  unfold no_network; cbn [events shows switched record set_output set_status
                          set_pending set_commandInput set_targetUrl
                          set_targetBorder set_commandHistory set_historyIndex
                          set_validatedUrl];
  rewrite ?network_calls_app; cbn [network_calls filter];
  rewrite ?app_nil_r; reflexivity.

Ltac network_untouched :=
  related_cases no_network_refl no_network_trans ltac:(no_network_base).

Lemma page_calls_app (a b : list Event) :
  page_calls (a ++ b) = page_calls a ++ page_calls b.
Proof. apply filter_app. Qed.

Lemma no_transport_refl (t : Terminal) : no_transport t t.
Proof. split; reflexivity. Qed.

Lemma no_transport_trans (a b c : Terminal) :
  no_transport a b -> no_transport b c -> no_transport a c.
Proof. unfold no_transport. intros [A1 A2] [B1 B2]. split; congruence. Qed.

Ltac no_transport_base :=
  unfold no_transport; cbn [events pending shows switched record set_output
                            set_status set_pending set_commandInput
                            set_targetUrl set_targetBorder set_commandHistory
                            set_historyIndex set_validatedUrl];
  rewrite ?page_calls_app; cbn [page_calls filter];
  rewrite ?app_nil_r; split; reflexivity.

Ltac transport_untouched :=
  related_cases no_transport_refl no_transport_trans ltac:(no_transport_base).

Lemma no_network_handlers (host : Host) :
  related no_network showHelp
  /\ related no_network clearTerminal
  /\ (forall args, related no_network (handleDomCommand host args))
  /\ (forall code, related no_network (handleSnippetExecution host code))
  /\ (forall args, related no_network (scrapePage host args)).
Proof.
  split; [|split; [|split; [|split]]]; intros; unfold_handlers;
    network_untouched.
Qed.

Lemma no_transport_scrapeGitHub (host : Host) (args : list jsstring) :
  related no_transport (scrapeGitHub host args).
Proof. unfold_handlers. transport_untouched. Qed.

(** X8.  The two kinds of command keep to their side.  A command whose
    keyword is not [scrape], or whose second token is not [github],
    makes no network call: DOM commands, snippets and page scrapes never
    use the network.  A command [scrape github ...] sends no message,
    calls no transport and queues no callback: it never touches the
    inspected page. *)
Theorem commands_keep_to_their_side
    (host : Host) (command : jsstring) (t : Terminal) :
  let t' := snd (parseCommand host command t) in
  ((keyword command <> lit "scrape"
    \/ first_lower (remaining_tokens command) <> Some (lit "github")) ->
   network_calls (events t') = network_calls (events t))
  /\ (keyword command = lit "scrape" ->
      first_lower (remaining_tokens command) = Some (lit "github") ->
      page_calls (events t') = page_calls (events t)
      /\ pending t' = pending t).
Proof.
  cbv zeta. split.
  - intros H.
    destruct (no_network_handlers host) as (N1 & N2 & N3 & N4 & N5).
    assert (R : related no_network (parseCommand host command)).
    { unfold parseCommand, dispatch. rewrite first_field.
      fold (keyword command).
      change (slice1 (split_ws command)) with (remaining_tokens command).
      destruct (Js.eqb (keyword command) (lit "scrape")) eqn:K.
      - apply eqb_eq in K. destruct H as [H|H]; [congruence|].
        assert (G : is_case (first_lower (remaining_tokens command)) "github"
                    = false).
        { unfold is_case.
          destruct (first_lower (remaining_tokens command)) as [s|];
            [|reflexivity].
          apply eqb_neq. congruence. }
        unfold handleScrapeCommand. rewrite G.
        destruct (Js.eqb (keyword command) (lit "help"));
          [network_untouched|].
        destruct (Js.eqb (keyword command) (lit "clear"));
          network_untouched.
      - network_untouched. }
    apply R.
  - intros K G.
    assert (R : related no_transport (parseCommand host command)).
    { pose proof (no_transport_scrapeGitHub host) as S.
      unfold parseCommand, dispatch. rewrite first_field.
      fold (keyword command).
      change (slice1 (split_ws command)) with (remaining_tokens command).
      rewrite K.
      change (Js.eqb (lit "scrape") (lit "help")) with false.
      change (Js.eqb (lit "scrape") (lit "clear")) with false.
      change (Js.eqb (lit "scrape") (lit "scrape")) with true.
      cbv iota. unfold handleScrapeCommand, is_case. rewrite G.
      change (Js.eqb (lit "github") (lit "github")) with true.
      transport_untouched. }
    apply R.
Qed.

Lemma commands_keep_to_their_side_witness :
  let t := set_validatedUrl (Some acme_widget) initial in
  (keyword (lit "dom set h1 x") <> lit "scrape"
   \/ first_lower (remaining_tokens (lit "dom set h1 x")) <> Some (lit "github"))
  /\ network_calls (events (snd (parseCommand demo_host (lit "dom set h1 x") t)))
     = network_calls (events t)
  /\ keyword (lit "scrape github tree") = lit "scrape"
  /\ first_lower (remaining_tokens (lit "scrape github tree"))
     = Some (lit "github")
  /\ pending (snd (parseCommand demo_host (lit "scrape github tree") t))
     = pending t.
Proof.
  intros t.
  assert (A : keyword (lit "dom set h1 x") <> lit "scrape"
              \/ first_lower (remaining_tokens (lit "dom set h1 x"))
                 <> Some (lit "github"))
    by (left; vm_compute; discriminate).
  assert (K : keyword (lit "scrape github tree") = lit "scrape") by reflexivity.
  assert (G : first_lower (remaining_tokens (lit "scrape github tree"))
              = Some (lit "github")) by reflexivity.
  split; [exact A|].
  split;
    [exact (proj1 (commands_keep_to_their_side demo_host _ t) A)|].
  split; [exact K|]. split; [exact G|].
  exact (proj2 (proj2 (commands_keep_to_their_side demo_host _ t) K G)).
Defined.

(* ================================================================== *)
(** ** One command, at most one script *)
(* ================================================================== *)

Lemma once_of_quiet {A} (m : M A) : related no_transport m -> once m.
Proof. intros Q t. left. apply Q. Qed.

Lemma at_most_one_then_quiet (a b c : Terminal) :
  at_most_one_call a b -> no_transport b c -> at_most_one_call a c.
Proof.
  intros [Q|[(code & cb & S & E & P)|[E P]]] [Q1 Q2].
  - left. eapply no_transport_trans; [exact Q | now split].
  - right. left. exists code, cb. rewrite Q1, Q2. now repeat split.
  - right. right. rewrite Q1, Q2. now split.
Qed.

Lemma quiet_then_at_most_one (a b c : Terminal) :
  no_transport a b -> at_most_one_call b c -> at_most_one_call a c.
Proof.
  intros [Q1 Q2] [Q|[(code & cb & S & E & P)|[E P]]].
  - left. apply (no_transport_trans a b c); [now split | exact Q].
  - right. left. exists code, cb. rewrite E, P, Q1, Q2. now repeat split.
  - right. right. rewrite E, P, Q1, Q2. now split.
Qed.

Lemma once_bind {A B} (m : M A) (k : A -> M B) :
  related no_transport m -> (forall a, once (k a)) -> once (bind m k).
Proof.
  intros Hm Hk t. unfold bind. specialize (Hm t).
  destruct (m t) as [[a|e] t1]; simpl in *; [|now left].
  eapply quiet_then_at_most_one; [exact Hm | apply Hk].
Qed.

Lemma once_try_finally {A} (body : M A) (cleanup : M unit) :
  once body -> related no_transport cleanup -> once (try_finally body cleanup).
Proof.
  intros Hb Hc t. unfold try_finally. specialize (Hb t).
  destruct (body t) as [r t1]. simpl in Hb. specialize (Hc t1).
  destruct (cleanup t1) as [[u|e] t2]; simpl in *;
    eapply at_most_one_then_quiet; eassumption.
Qed.

Lemma once_try_catch {A} (body : M A) (handler : jsstring -> M A) :
  once body -> (forall e, related no_transport (handler e)) ->
  once (try_catch body handler).
Proof.
  intros Hb Hh t. unfold try_catch. specialize (Hb t).
  destruct (body t) as [[a|e] t1]; simpl in *; [exact Hb|].
  eapply at_most_one_then_quiet; [exact Hb | apply Hh].
Qed.

Lemma once_executeInPage (host : Host) (code : jsstring) (callback : Callback) :
  script_of callback code -> once (executeInPage host code (Some callback)).
Proof.
  intros S t. rewrite executeInPage_runs.
  destruct (eval_throws host _ code); cbn [snd].
  - right. right. cbn. rewrite page_calls_app. now split.
  - right. left. exists code, callback. split; [exact S|].
    cbn. rewrite <- app_assoc, page_calls_app. now split.
Qed.

Ltac once_cases :=
  repeat match goal with
    | |- once (executeInPage _ _ (Some _)) =>
        apply once_executeInPage; constructor
    | |- once (bind _ _) =>
        apply once_bind; [transport_untouched; fail | intros ?]
    | |- once (try_finally _ _) =>
        apply once_try_finally; [| transport_untouched; fail]
    | |- once (try_catch _ _) =>
        apply once_try_catch; [| intros ?; transport_untouched; fail]
    | |- once (if ?b then _ else _) => destruct b
    | |- once (match ?x with _ => _ end) => destruct x
    | |- once _ => apply once_of_quiet; transport_untouched; fail
    end.

(** X9.  One command sends at most one script.  For every command
    line and every state, [parseCommand] either sends no message, calls
    no transport and queues nothing; or it sends one start message,
    calls the transport with one script and queues the one callback
    that is written for that script; or, when the transport throws at
    the call, it leaves the start message alone, with no end message to
    follow. *)
Theorem one_command_sends_at_most_one_script
    (host : Host) (command : jsstring) (t : Terminal) :
  at_most_one_call t (snd (parseCommand host command t)).
Proof.
  revert t. change (once (parseCommand host command)).
  unfold parseCommand. unfold_handlers. once_cases.
Qed.

(* ================================================================== *)
(** ** How the line is read *)
(* ================================================================== *)

Lemma is_space_spec (c : N) :
  is_space c = true <->
  ((9 <= c <= 13) \/ c = 32 \/ c = 160 \/ c = 5760 \/ (8192 <= c <= 8202)
   \/ c = 8232 \/ c = 8233 \/ c = 8239 \/ c = 8287 \/ c = 12288
   \/ c = 65279)%N.
Proof.
  unfold is_space.
  rewrite !orb_true_iff, !andb_true_iff, !N.leb_le, !N.eqb_eq. tauto.
Qed.

(** Lower case keeps white space, and makes none. *)
Lemma lower_space (c : N) : is_space (lower c) = is_space c.
Proof.
  unfold lower.
  destruct (((65 <=? c) && (c <=? 90)
             || (192 <=? c) && (c <=? 222) && negb (c =? 215))%N) eqn:U.
  - rewrite !orb_true_iff, !andb_true_iff, !N.leb_le in U.
    assert (A : is_space c = false).
    { destruct (is_space c) eqn:S; [|reflexivity].
      apply is_space_spec in S. lia. }
    assert (B : is_space (c + 32) = false).
    { destruct (is_space (c + 32)) eqn:S; [|reflexivity].
      apply is_space_spec in S. lia. }
    now rewrite A, B.
  - destruct (N.eqb_spec c 8490) as [->|]; reflexivity.
Qed.

Lemma toLowerCase_solid (s : jsstring) : solid (toLowerCase s) -> solid s.
Proof.
  unfold solid, toLowerCase. rewrite Forall_map.
  apply Forall_impl. intros c. now rewrite lower_space.
Qed.

Lemma first_token_prefix (k w r : jsstring) :
  solid k -> w <> [] -> blank w -> first_token (k ++ w ++ r) = k.
Proof.
  intros S NE B. induction S as [|c k C S IH]; simpl.
  - destruct w as [|c w]; [congruence|].
    simpl. inversion B as [|? ? Hc ?]. now rewrite Hc.
  - rewrite C. now rewrite IH.
Qed.

Lemma trimStart_blank (w r : jsstring) :
  blank w -> trimStart (w ++ r) = trimStart r.
Proof.
  intros B. induction B as [|c w C B IH]; [reflexivity|].
  simpl. now rewrite C.
Qed.

Lemma trim_blank (w r : jsstring) : blank w -> trim (w ++ r) = trim r.
Proof. intros B. unfold trim. now rewrite trimStart_blank. Qed.

(** Inside a run of white space, more white space is skipped. *)
Lemma split_fields_skips (w r : jsstring) :
  blank w -> split_fields true (w ++ r) = split_fields true r.
Proof.
  intros B. induction B as [|c w C B IH]; [reflexivity|].
  simpl. now rewrite C.
Qed.

Lemma split_fields_separates (w r : jsstring) :
  w <> [] -> blank w ->
  split_fields false (w ++ r) = [] :: split_fields true r.
Proof.
  intros NE B. destruct B as [|c w C B]; [congruence|].
  simpl. rewrite C. now rewrite split_fields_skips.
Qed.

(** Any run of white space between two parts of a line separates them
    as one space does. *)
Lemma split_run_as_one_space (a w b : jsstring) :
  w <> [] -> blank w ->
  split_ws (a ++ w ++ b) = split_ws (a ++ [32%N] ++ b).
Proof.
  intros NE B. unfold split_ws. generalize false.
  induction a as [|c a IH]; intros st.
  - cbn [app]. destruct st.
    + rewrite split_fields_skips by exact B. reflexivity.
    + rewrite split_fields_separates by assumption. reflexivity.
  - cbn [app split_fields]. destruct (is_space c).
    + destruct st; now rewrite IH.
    + now rewrite IH.
Qed.

Lemma dispatch_raw (host : Host) (code : jsstring) :
  ~ In (keyword code) keywords ->
  dispatch host code = handleSnippetExecution host code.
Proof.
  intros NK. unfold dispatch. rewrite first_field. fold (keyword code).
  assert (F : forall k, In k keywords -> Js.eqb (keyword code) k = false).
  { intros k I. apply eqb_neq. intros E. apply NK. now rewrite E. }
  rewrite !F by (unfold keywords; simpl; tauto).
  reflexivity.
Qed.

(** X10.  A snippet may be given with or without a keyword.  For a
    code that is trimmed and whose own first token is no keyword of the
    panel, the line made of [eval], [exec] or [run] in any letter case,
    any run of white space, and the code is dispatched exactly as the
    code alone: both lines execute the code as snippet. *)
Theorem eval_prefix_is_optional
    (host : Host) (kw sep code : jsstring) :
  In (toLowerCase kw) [lit "eval"; lit "exec"; lit "run"] ->
  sep <> [] -> blank sep ->
  trim code = code ->
  ~ In (keyword code) keywords ->
  dispatch host (kw ++ sep ++ code) = dispatch host code
  /\ dispatch host code = handleSnippetExecution host code.
Proof.
  intros K NE B T NK.
  pose proof (dispatch_raw host code NK) as R.
  split; [|exact R]. rewrite R.
  assert (S : solid kw).
  { apply toLowerCase_solid.
    destruct K as [<-|[<-|[<-|[]]]]; repeat constructor. }
  unfold dispatch. rewrite first_field, (first_token_prefix kw sep code S NE B).
  unfold substring_from.
  rewrite toLowerCase_length, skipn_app, skipn_all, Nat.sub_diag.
  cbn [app skipn]. rewrite (trim_blank sep code B), T.
  destruct K as [<-|[<-|[<-|[]]]]; reflexivity.
Qed.

Lemma eval_prefix_is_optional_witness :
  In (toLowerCase (lit "Eval")) [lit "eval"; lit "exec"; lit "run"]
  /\ lit "  " <> []
  /\ blank (lit "  ")
  /\ trim (lit "document.title") = lit "document.title"
  /\ ~ In (keyword (lit "document.title")) keywords
  /\ dispatch demo_host (lit "Eval  document.title")
     = dispatch demo_host (lit "document.title").
Proof.
  assert (K : In (toLowerCase (lit "Eval")) [lit "eval"; lit "exec"; lit "run"])
    by (left; reflexivity).
  assert (NE : lit "  " <> []) by discriminate.
  assert (B : blank (lit "  ")) by (repeat constructor).
  assert (T : trim (lit "document.title") = lit "document.title")
    by reflexivity.
  assert (NK : ~ In (keyword (lit "document.title")) keywords).
  { vm_compute. intuition discriminate. }
  repeat (split; [assumption|]).
  exact (proj1 (eval_prefix_is_optional demo_host (lit "Eval") (lit "  ")
                  (lit "document.title") K NE B T NK)).
Defined.

(** X11.  White space between the tokens of a command does not count.
    In a line whose keyword is [help], [clear], [scrape] or [dom], any
    run of white space can be replaced by one space without changing
    what the line does: the handlers see only the tokens, so the text of
    [dom set h1 a   b] is [a b]. *)
Theorem token_commands_ignore_spacing (host : Host) (a w b : jsstring) :
  w <> [] -> blank w ->
  In (keyword (a ++ w ++ b)) [lit "help"; lit "clear"; lit "scrape"; lit "dom"] ->
  dispatch host (a ++ w ++ b) = dispatch host (a ++ [32%N] ++ b).
Proof.
  intros NE B K.
  pose proof (split_run_as_one_space a w b NE B) as S.
  unfold keyword in K. rewrite <- first_field in K.
  unfold dispatch. rewrite <- S.
  destruct K as [K|[K|[K|[K|[]]]]]; rewrite <- K; reflexivity.
Qed.

Lemma token_commands_ignore_spacing_witness :
  lit "   " <> []
  /\ blank (lit "   ")
  /\ In (keyword (lit "dom set h1 a" ++ lit "   " ++ lit "b"))
       [lit "help"; lit "clear"; lit "scrape"; lit "dom"]
  /\ dispatch demo_host (lit "dom set h1 a   b")
     = dispatch demo_host (lit "dom set h1 a b").
Proof.
  assert (NE : lit "   " <> []) by discriminate.
  assert (B : blank (lit "   ")) by (repeat constructor).
  assert (K : In (keyword (lit "dom set h1 a" ++ lit "   " ++ lit "b"))
                [lit "help"; lit "clear"; lit "scrape"; lit "dom"])
    by (right; right; right; left; reflexivity).
  repeat (split; [assumption|]).
  exact (token_commands_ignore_spacing demo_host (lit "dom set h1 a")
           (lit "   ") (lit "b") NE B K).
Defined.

(* ================================================================== *)
(** ** Arguments that are quoted well *)
(* ================================================================== *)

Lemma split_fields_solid (st : bool) (s : jsstring) :
  Forall solid (split_fields st s).
Proof.
  revert st. induction s as [|c r IH]; intros st; simpl.
  - repeat constructor.
  - destruct (is_space c) eqn:C.
    + destruct st; [apply IH | constructor; [constructor | apply IH]].
    + specialize (IH false).
      destruct (split_fields false r) as [|f fs]; [repeat constructor; exact C|].
      inversion IH as [|? ? Hf Hfs]. constructor; [|exact Hfs].
      constructor; assumption.
Qed.

Lemma split_fields_members (st : bool) (s f : jsstring) (c : N) :
  In f (split_fields st s) -> In c f -> In c s.
Proof.
  revert st f. induction s as [|x r IH]; intros st f; simpl.
  - intros [<-|[]] [].
  - destruct (is_space x).
    + destruct st.
      * intros I J. right. eapply IH; eassumption.
      * intros [<-|I] J; [destruct J|]. right. eapply IH; eassumption.
    + specialize (IH false).
      destruct (split_fields false r) as [|g gs].
      * intros [<-|[]] [->|[]]. now left.
      * intros [<-|I] J.
        -- destruct J as [->|J]; [now left|].
           right. apply (IH g); [now left | exact J].
        -- right. apply (IH f); [now right | exact J].
Qed.

Lemma join_members (sep : jsstring) (parts : list jsstring) (c : N) :
  In c (join sep parts) -> In c sep \/ exists p, In p parts /\ In c p.
Proof.
  induction parts as [|p rest IH]; simpl; [intros []|].
  destruct rest as [|q rest'].
  - intros I. right. exists p. split; [now left | exact I].
  - rewrite !in_app_iff. intros [I|[I|I]].
    + right. exists p. split; [now left | exact I].
    + now left.
    + destruct (IH I) as [J|[p' [J1 J2]]]; [now left|].
      right. exists p'. split; [now right | exact J2].
Qed.

Lemma item_is_joined (i : nat) (xs : list jsstring) :
  exists toks, incl toks xs /\ item i xs = join (lit " ") toks.
Proof.
  unfold item. destruct (nth_error xs i) as [p|] eqn:E.
  - exists [p]. split.
    + intros q [<-|[]]. eapply nth_error_In; eassumption.
    + now rewrite (nth_error_nth _ _ _ E).
  - exists []. split; [intros q []|].
    apply nth_error_None in E. now rewrite nth_overflow.
Qed.

(** X12.  A command line without a backslash is quoted well.  Every
    text that is made of tokens of such a line joined by single spaces,
    once its apostrophes are escaped, is the body of a literal that
    closes at the apostrophe of the template, however many apostrophes
    it holds.  The arguments that the four DOM generators embed are such
    texts: the selector and the attribute name are tokens, the value and
    the texts are tokens joined by spaces. *)
Theorem lines_without_backslash_are_quoted_well (command : jsstring) :
  free_of backslash command ->
  (forall toks rest,
     incl toks (split_ws command) ->
     StringLiteral.closes_as_intended
       (escape_quotes (join (lit " ") toks)) rest)
  /\ (forall rest,
      let args := slice1 (remaining_tokens command) in
      StringLiteral.closes_as_intended (escape_quotes (item 0 args)) rest
      /\ StringLiteral.closes_as_intended (escape_quotes (item 1 args)) rest
      /\ StringLiteral.closes_as_intended
           (escape_quotes (join (lit " ") (slice1 args))) rest
      /\ StringLiteral.closes_as_intended
           (escape_quotes (join (lit " ") (skipn 2 args))) rest).
Proof.
  intros NB.
  assert (J : forall toks rest,
            incl toks (split_ws command) ->
            StringLiteral.closes_as_intended
              (escape_quotes (join (lit " ") toks)) rest).
  { intros toks rest I.
    assert (S : forall c p, In p toks -> In c p ->
                In c command /\ is_space c = false).
    { intros c p Ip Ic. apply I in Ip. split.
      - eapply split_fields_members; eassumption.
      - pose proof (split_fields_solid false command) as F.
        rewrite Forall_forall in F. specialize (F p Ip).
        unfold solid in F. rewrite Forall_forall in F. now apply F. }
    apply escape_quotes_closes; unfold free_of; intros H;
      apply join_members in H as [H|[p [Ip Ic]]];
      try (destruct H as [H|[]]; discriminate H);
      destruct (S _ _ Ip Ic) as [M W];
      [now apply NB | discriminate W | discriminate W]. }
  split; [exact J|].
  intros rest args.
  assert (A : incl args (split_ws command)).
  { intros p Ip. unfold args, slice1, remaining_tokens in Ip.
    destruct (split_ws command) as [|x [|y ys]]; simpl in Ip;
      try contradiction. right. now right. }
  assert (T : incl (slice1 args) (split_ws command)).
  { intros p Ip. apply A. unfold slice1 in Ip.
    destruct args; [contradiction | now right]. }
  assert (K : incl (skipn 2 args) (split_ws command)).
  { intros p Ip. apply A. rewrite <- (firstn_skipn 2 args).
    apply in_or_app. now right. }
  destruct (item_is_joined 0 args) as (t0 & I0 & ->).
  destruct (item_is_joined 1 args) as (t1 & I1 & ->).
  repeat split; apply J; try assumption;
    intros p Ip; apply A; auto.
Qed.

Lemma lines_without_backslash_are_quoted_well_witness :
  free_of backslash (lit "dom set h1 it's 'quoted'")
  /\ StringLiteral.closes_as_intended
       (escape_quotes (lit "it's 'quoted'")) (lit ");").
Proof.
  assert (NB : free_of backslash (lit "dom set h1 it's 'quoted'")).
  { unfold free_of. vm_compute. intuition discriminate. }
  split; [exact NB|].
  destruct (lines_without_backslash_are_quoted_well _ NB) as [_ A].
  destruct (A (lit ");")) as (_ & _ & T & _).
  exact T.
Defined.

(* ================================================================== *)
(** ** Validation and scraping together *)
(* ================================================================== *)

Lemma events_switched (type : Indicator) (active : bool) (t : Terminal) :
  events (switched type active t) = events t ++ [Indicated type active].
Proof. reflexivity. Qed.

Lemma validateTargetUrl_accepts (host : Host) (t : Terminal) (parsed : URL) :
  trim (targetUrl t) <> [] ->
  URL_new host (trim (targetUrl t)) = Returned parsed ->
  protocol parsed = lit "http:" \/ protocol parsed = lit "https:" ->
  validateTargetUrl host t
  = (Returned tt,
     shows (validated_line (trim (targetUrl t)))
       (set_targetBorder (lit "var(--text-primary)")
          (set_validatedUrl (Some parsed) t))).
Proof.
  intros NE P H. apply is_empty_false in NE.
  unfold validateTargetUrl. step_method. rewrite NE, P.
  assert (B : Js.eqb (protocol parsed) (lit "http:")
              || Js.eqb (protocol parsed) (lit "https:") = true).
  { apply orb_true_iff. destruct H as [H|H]; [left|right]; now apply eqb_eq. }
  rewrite B. reflexivity.
Qed.

Lemma validateTargetUrl_rejects (host : Host) (t : Terminal) :
  trim (targetUrl t) <> [] ->
  (forall parsed,
     URL_new host (trim (targetUrl t)) = Returned parsed ->
     protocol parsed <> lit "http:" /\ protocol parsed <> lit "https:") ->
  validatedUrl (snd (validateTargetUrl host t)) = None.
Proof.
  intros NE H. apply is_empty_false in NE.
  unfold validateTargetUrl. step_method. rewrite NE.
  destruct (URL_new host (trim (targetUrl t))) as [parsed|e]; [|reflexivity].
  destruct (H parsed eq_refl) as [H1 H2]. apply eqb_neq in H1, H2.
  now rewrite H1, H2.
Qed.

Lemma fetchGitHubFile_first_request
    (host : Host) (owner repo filePath : jsstring) (t : Terminal) :
  fst (fetchGitHubFile host owner repo filePath t) = Returned tt
  /\ exists later,
       events (snd (fetchGitHubFile host owner repo filePath t))
       = events t
         ++ Fetch (raw_url owner repo (lit "main") filePath) :: later.
Proof.
  split.
  - destruct (never_throws_fetchGitHubFile host owner repo filePath t)
      as [[] E]. exact E.
  - pose proof (fetchGitHubFile_runs host owner repo filePath t) as R.
    cbv zeta in R. rewrite R.
    assert (X : forall (u : Terminal) (l : list Event) e,
              events u = events t ++ [e] ++ l ->
              exists later, events u = events t ++ e :: later)
      by (intros u l e E; exists l; exact E).
    destruct (fetch host (events t) _) as [r|e].
    + destruct (ok r).
      * destruct (body r) as [c|e]; cbn [snd];
          [eapply X; rewrite events_displayed, events_record, <- app_assoc;
           reflexivity
          |eapply X; rewrite events_shows, events_record, <- app_assoc;
           reflexivity].
      * destruct (fetch host _ _) as [r2|e2];
          [destruct (ok r2); [destruct (body r2)|]|]; cbn [snd];
          eapply X;
          rewrite ?events_displayed, ?events_shows, !events_record,
            <- !app_assoc; reflexivity.
    + cbn [snd]. eapply X.
      rewrite events_shows, events_record, <- app_assoc. reflexivity.
Qed.

(** [scrape github readme] in a state whose target names a repository. *)
Lemma scrape_readme_runs (host : Host) (args : list jsstring)
    (target : URL) (t : Terminal) :
  validatedUrl t = Some target ->
  names_repository target ->
  first_lower args = Some (lit "github") ->
  first_lower (slice1 args) = Some (lit "readme") ->
  handleScrapeCommand host args t
  = (Returned tt,
     switched scraping false
       (snd (fetchGitHubFile host (owner_of target) (repo_of target)
               (lit "README.md")
               (shows (scraping_line (owner_of target) (repo_of target))
                  (switched scraping true t))))).
Proof.
  intros V [G1 G2] A1 A2.
  unfold handleScrapeCommand. rewrite bind_read, V.
  unfold bind at 1, setStatusIndicator at 1, assign at 1, try_finally.
  unfold is_case at 1. rewrite A1.
  change (Js.eqb (lit "github") (lit "github")) with true. cbv iota.
  unfold scrapeGitHub. rewrite bind_read.
  change (validatedUrl (switched scraping true t)) with (validatedUrl t).
  rewrite V. fold (path_segments target).
  apply Nat.ltb_ge in G2. rewrite G1, G2. cbn [negb orb].
  unfold bind at 1, appendOutput at 1, assign at 1.
  unfold is_case at 1. rewrite A2.
  change (Js.eqb (lit "readme") (lit "readme")) with true. cbv iota.
  fold (owner_of target) (repo_of target).
  fold (scraping_line (owner_of target) (repo_of target)).
  destruct (fetchGitHubFile_first_request host (owner_of target)
              (repo_of target) (lit "README.md")
              (shows (scraping_line (owner_of target) (repo_of target))
                 (switched scraping true t))) as [R _].
  destruct (fetchGitHubFile host _ _ _ _) as [r u]. simpl in R. subst r.
  reflexivity.
Qed.

(** X13.  Validation decides what scraping does.  After a validation
    that succeeds (the field is not blank, the URL constructor accepts
    it, the protocol is http: or https:) the parsed URL is the stored
    target, and when it names a repository the command
    [scrape github readme] shows "Scraping GitHub: <owner>/<repo>" and
    requests README.md of that owner and repository on main, owner and
    repository being the first two segments of the validated path.
    After a validation that fails on a field that is not blank, every
    scrape command is refused with the one line that asks for a
    validation, whatever target was stored before. *)
Theorem validation_decides_the_scrape (host : Host) (t : Terminal) :
  let url := trim (targetUrl t) in
  let t1 := snd (validateTargetUrl host t) in
  (forall parsed command,
     url <> [] ->
     URL_new host url = Returned parsed ->
     protocol parsed = lit "http:" \/ protocol parsed = lit "https:" ->
     validatedUrl t1 = Some parsed
     /\ (names_repository parsed ->
         keyword command = lit "scrape" ->
         first_lower (remaining_tokens command) = Some (lit "github") ->
         first_lower (slice1 (remaining_tokens command)) = Some (lit "readme") ->
         exists later,
           events (snd (parseCommand host command t1))
           = events t1
             ++ [Indicated scraping true;
                 Rendered (scraping_line (owner_of parsed) (repo_of parsed));
                 Fetch (raw_url (owner_of parsed) (repo_of parsed)
                          (lit "main") (lit "README.md"))]
             ++ later))
  /\ (forall command,
      url <> [] ->
      (forall parsed,
         URL_new host url = Returned parsed ->
         protocol parsed <> lit "http:" /\ protocol parsed <> lit "https:") ->
      keyword command = lit "scrape" ->
      validatedUrl t1 = None
      /\ parseCommand host command t1 = (Returned tt, shows refusal_line t1)).
Proof.
  intros url t1. split.
  - intros parsed command NE P H.
    assert (V : validatedUrl t1 = Some parsed).
    { subst t1. now rewrite (validateTargetUrl_accepts host t parsed NE P H). }
    split; [exact V|].
    intros N K A1 A2.
    unfold parseCommand, try_catch.
    rewrite (dispatch_scrape host command K).
    change (slice1 (split_ws command)) with (remaining_tokens command).
    rewrite (scrape_readme_runs host _ parsed t1 V N A1 A2). cbn [snd].
    destruct (fetchGitHubFile_first_request host (owner_of parsed)
                (repo_of parsed) (lit "README.md")
                (shows (scraping_line (owner_of parsed) (repo_of parsed))
                   (switched scraping true t1))) as [_ [later E]].
    exists (later ++ [Indicated scraping false]).
    rewrite events_switched, E, events_shows, events_switched.
    rewrite <- !app_assoc. reflexivity.
  - intros command NE H K.
    assert (V : validatedUrl t1 = None)
      by (subst t1; now apply validateTargetUrl_rejects).
    split; [exact V|].
    unfold parseCommand, try_catch.
    rewrite (dispatch_scrape host command K).
    now rewrite (scrape_without_target host _ t1 V).
Qed.

Lemma validation_decides_the_scrape_witness :
  let t := set_targetUrl (lit "  https://github.com/acme/widget ") initial in
  let t1 := snd (validateTargetUrl demo_host t) in
  let s := set_targetUrl (lit "ftp://example.org/")
             (set_validatedUrl (Some acme_widget) initial) in
  let s1 := snd (validateTargetUrl demo_host s) in
  (validatedUrl t1 = Some acme_widget
   /\ exists later,
        events (snd (parseCommand demo_host (lit "Scrape GitHub README") t1))
        = events t1
          ++ [Indicated scraping true;
              Rendered (scraping_line (lit "acme") (lit "widget"));
              Fetch (raw_url (lit "acme") (lit "widget")
                       (lit "main") (lit "README.md"))]
          ++ later)
  /\ validatedUrl s1 = None
  /\ parseCommand demo_host (lit "scrape page text") s1
     = (Returned tt, shows refusal_line s1).
Proof.
  intros t t1 s s1.
  assert (NE : trim (targetUrl t) <> []) by (vm_compute; discriminate).
  assert (P : URL_new demo_host (trim (targetUrl t)) = Returned acme_widget)
    by (vm_compute; reflexivity).
  assert (H : protocol acme_widget = lit "http:"
              \/ protocol acme_widget = lit "https:")
    by (right; reflexivity).
  assert (N : names_repository acme_widget)
    by (split; [vm_compute; reflexivity | vm_compute; lia]).
  assert (K : keyword (lit "Scrape GitHub README") = lit "scrape")
    by (vm_compute; reflexivity).
  assert (A1 : first_lower (remaining_tokens (lit "Scrape GitHub README"))
               = Some (lit "github")) by (vm_compute; reflexivity).
  assert (A2 : first_lower (slice1 (remaining_tokens (lit "Scrape GitHub README")))
               = Some (lit "readme")) by (vm_compute; reflexivity).
  assert (NE' : trim (targetUrl s) <> []) by (vm_compute; discriminate).
  assert (R : forall parsed,
            URL_new demo_host (trim (targetUrl s)) = Returned parsed ->
            protocol parsed <> lit "http:" /\ protocol parsed <> lit "https:").
  { intros parsed E. vm_compute in E. injection E as <-.
    split; vm_compute; discriminate. }
  assert (K' : keyword (lit "scrape page text") = lit "scrape")
    by (vm_compute; reflexivity).
  destruct (validation_decides_the_scrape demo_host t) as [Y _].
  destruct (Y acme_widget (lit "Scrape GitHub README") NE P H) as [V F].
  destruct (validation_decides_the_scrape demo_host s) as [_ Z].
  destruct (Z (lit "scrape page text") NE' R K') as [V' F'].
  split; [split; [exact V | exact (F N K A1 A2)] | split; [exact V' | exact F']].
Defined.

(* ================================================================== *)
(** ** What [scrape github] refuses *)
(* ================================================================== *)

Lemma not_a_repository (target : URL) :
  ~ names_repository target ->
  negb (includes (lit "github.com") (hostname target))
  || Nat.ltb (List.length (path_segments target)) 2 = true.
Proof.
  intros N. unfold names_repository in N.
  destruct (includes _ _); [|reflexivity].
  destruct (Nat.ltb_spec (List.length (path_segments target)) 2) as [L|L];
    [reflexivity|]. exfalso. apply N. split; [reflexivity|lia].
Qed.

Lemma is_case_other (v : option jsstring) (label : string) :
  v <> Some (lit label) -> is_case v label = false.
Proof.
  intros N. destruct v as [s|]; [|reflexivity]. cbn.
  apply eqb_neq. intros E. apply N. now rewrite E.
Qed.

(** X14.  What [scrape github] refuses, the target being validated.
    The test on the target is the one of [names_repository]: the text
    of the host name contains github.com and the path has two segments
    or more.  When the target fails this test, every [scrape github]
    command shows the one line "ERROR: Invalid GitHub repository URL",
    whatever its action.  When the target passes it, the "Scraping
    GitHub" line is shown first; then [file] without a path shows
    "ERROR: Please specify a file path" and an action other than
    readme, tree and file (or none) shows the unknown-action line.  In
    the three cases the command returns, the scraping indicator goes on
    and off around the lines, and nothing is requested.  The test does
    not tell GitHub from a host that only carries github.com in its
    name: such a target passes (see [lookalike_host_passes]). *)
Theorem github_scrape_refusals
    (host : Host) (command : jsstring) (target : URL) (t : Terminal) :
  validatedUrl t = Some target ->
  keyword command = lit "scrape" ->
  first_lower (remaining_tokens command) = Some (lit "github") ->
  let args := slice1 (remaining_tokens command) in
  let action := first_lower args in
  let heading := scraping_line (owner_of target) (repo_of target) in
  (~ names_repository target ->
   parseCommand host command t
   = (Returned tt, scraping_shows [invalid_repository_line] t))
  /\ (names_repository target ->
      action = Some (lit "file") -> slice1 args = [] ->
      parseCommand host command t
      = (Returned tt, scraping_shows [heading; missing_path_line] t))
  /\ (names_repository target ->
      action <> Some (lit "readme") -> action <> Some (lit "tree") ->
      action <> Some (lit "file") ->
      parseCommand host command t
      = (Returned tt, scraping_shows [heading; unknown_action_line] t)).
Proof.
  intros V K G args action heading.
  assert (S : parseCommand host command t
              = try_catch
                  (setStatusIndicator scraping true ;;
                   try_finally (scrapeGitHub host args)
                     (setStatusIndicator scraping false))
                  (fun message =>
                     appendOutput (lit "ERROR: " ++ message) Error) t).
  { unfold parseCommand, try_catch.
    rewrite (dispatch_scrape host command K).
    change (slice1 (split_ws command)) with (remaining_tokens command).
    unfold handleScrapeCommand. rewrite bind_read, V.
    unfold is_case at 1. rewrite G.
    change (Js.eqb (lit "github") (lit "github")) with true. reflexivity. }
  assert (U : forall u, validatedUrl u = Some target ->
              scrapeGitHub host args u
              = (if negb (includes (lit "github.com") (hostname target))
                    || Nat.ltb (List.length (path_segments target)) 2
                 then appendOutput (lit "ERROR: Invalid GitHub repository URL")
                        Error
                 else
                   appendOutput
                     (lit "Scraping GitHub: " ++ owner_of target ++ lit "/"
                      ++ repo_of target) Success ;;
                   if is_case action "readme" then
                     fetchGitHubFile host (owner_of target) (repo_of target)
                       (lit "README.md")
                   else if is_case action "tree" then
                     fetchGitHubTree host (owner_of target) (repo_of target)
                   else if is_case action "file" then
                     if is_empty (join (lit " ") (slice1 args)) then
                       appendOutput (lit "ERROR: Please specify a file path")
                         Error
                     else fetchGitHubFile host (owner_of target)
                            (repo_of target) (join (lit " ") (slice1 args))
                   else
                     appendOutput
                       (lit "ERROR: Unknown GitHub action. Use: readme, tree, or file <path>")
                       Error) u).
  { intros u W. unfold scrapeGitHub. rewrite bind_read, W. reflexivity. }
  unfold try_catch, bind at 1, setStatusIndicator at 1, assign at 1,
    try_finally in S.
  rewrite (U (switched scraping true t) V) in S.
  split; [|split].
  - intros N. rewrite S, (not_a_repository target N). reflexivity.
  - intros [N1 N2] A P. apply Nat.ltb_ge in N2. rewrite S, N1, N2.
    cbn [negb orb]. rewrite A, P. reflexivity.
  - intros [N1 N2] A1 A2 A3. apply Nat.ltb_ge in N2. rewrite S, N1, N2.
    cbn [negb orb].
    unfold bind at 1, appendOutput at 1, assign at 1.
    rewrite (is_case_other action "readme" A1),
      (is_case_other action "tree" A2), (is_case_other action "file" A3).
    reflexivity.
Qed.

Lemma github_scrape_refusals_witness :
  let off_site := set_validatedUrl (Some ftp_example) initial in
  let on_site := set_validatedUrl (Some acme_widget) initial in
  let heading := scraping_line (lit "acme") (lit "widget") in
  parseCommand demo_host (lit "scrape github readme") off_site
  = (Returned tt, scraping_shows [invalid_repository_line] off_site)
  /\ parseCommand demo_host (lit "scrape github FILE") on_site
     = (Returned tt, scraping_shows [heading; missing_path_line] on_site)
  /\ parseCommand demo_host (lit "scrape github branches") on_site
     = (Returned tt, scraping_shows [heading; unknown_action_line] on_site).
Proof.
  intros off_site on_site heading.
  assert (N : ~ names_repository ftp_example).
  { intros [H _]. vm_compute in H. discriminate. }
  assert (Y : names_repository acme_widget)
    by (split; [vm_compute; reflexivity | vm_compute; lia]).
  destruct (github_scrape_refusals demo_host (lit "scrape github readme")
              ftp_example off_site eq_refl eq_refl eq_refl) as [A _].
  destruct (github_scrape_refusals demo_host (lit "scrape github FILE")
              acme_widget on_site eq_refl eq_refl eq_refl) as [_ [B _]].
  destruct (github_scrape_refusals demo_host (lit "scrape github branches")
              acme_widget on_site eq_refl eq_refl eq_refl) as [_ [_ C]].
  split; [exact (A N)|split].
  - exact (B Y eq_refl eq_refl).
  - apply (C Y); vm_compute; discriminate.
Defined.

(** The test on the target reads the text of the host name: a host
    whose name only contains github.com passes it, and the command goes
    on to request the README of the path's owner and repository from
    raw.githubusercontent.com. *)
Example lookalike_host_passes :
  let target := {| protocol := lit "https:";
                   hostname := lit "github.com.evil.example";
                   pathname := lit "/acme/widget" |} in
  let t := set_validatedUrl (Some target) initial in
  names_repository target
  /\ In (Fetch (raw_url (lit "acme") (lit "widget") (lit "main")
                  (lit "README.md")))
       (events (snd (parseCommand demo_host (lit "scrape github readme") t))).
Proof.
  intros target t. split.
  - split; [vm_compute; reflexivity | vm_compute; lia].
  - vm_compute. right. right. left. reflexivity.
Qed.

(* ================================================================== *)
(** ** The tree view *)
(* ================================================================== *)

Lemma output_record (e : Event) (t : Terminal) : output (record e t) = output t.
Proof. reflexivity. Qed.

Lemma output_shows (l : OutputLine) (t : Terminal) :
  output (shows l t) = output t ++ [l].
Proof. reflexivity. Qed.

Lemma subsequence_app {A} (a b c d : list A) :
  subsequence a b -> subsequence c d -> subsequence (a ++ c) (b ++ d).
Proof.
  intros S T. induction S; cbn; [exact T | | ]; now constructor.
Qed.

(** The loop of [fetchGitHubTree] over any list of files: one request
    for each file, in order, and lines for some of them. *)
Lemma probes_each_file (host : Host) (owner repo : jsstring)
    (files : list jsstring) (t : Terminal) :
  let loop := for_each files (probe_file host owner repo) in
  fst (loop t) = Returned tt
  /\ network_calls (events (snd (loop t)))
     = network_calls (events t) ++ map (probe owner repo) files
  /\ pending (snd (loop t)) = pending t
  /\ exists listed,
       subsequence listed files
       /\ output (snd (loop t)) = output t ++ map listed_line listed.
Proof.
  cbv zeta. revert t. induction files as [|file files IH]; intros t.
  - cbn. rewrite app_nil_r. repeat split; trivial.
    exists []. split; [constructor | now rewrite app_nil_r].
  - cbn [for_each].
    set (u := record (Fetch (raw_url owner repo (lit "main") file)) t).
    assert (E : exists v,
              (v = u \/ v = shows (listed_line file) u)
              /\ (probe_file host owner repo file ;;
                  for_each files (probe_file host owner repo)) t
                 = for_each files (probe_file host owner repo) v).
    { unfold bind at 1, probe_file at 1, try_catch at 1, bind at 1,
        fetch_url at 1. fold u.
      destruct (fetch host (events t) _) as [response|e];
        [destruct (ok response)|].
      - exists (shows (listed_line file) u). split; [now right|reflexivity].
      - exists u. split; [now left|reflexivity].
      - exists u. split; [now left|reflexivity]. }
    assert (C : forall v : Terminal,
              (v = u \/ v = shows (listed_line file) u) ->
              network_calls (events v)
              = network_calls (events t) ++ [probe owner repo file]
              /\ pending v = pending t
              /\ exists here, subsequence here [file]
                   /\ output v = output t ++ map listed_line here).
    { intros v [-> | ->].
      - subst u. rewrite events_record, network_calls_app. repeat split.
        exists []. split; [repeat constructor | now rewrite app_nil_r].
      - subst u. rewrite events_shows, events_record, !network_calls_app.
        cbn [network_calls filter]. rewrite app_nil_r. repeat split.
        exists [file]. split; [apply subsequence_take, subsequence_nil
                              | reflexivity]. }
    assert (D : forall v : Terminal,
              (v = u \/ v = shows (listed_line file) u) ->
              let loop := for_each files (probe_file host owner repo) in
              fst (loop v) = Returned tt
              /\ network_calls (events (snd (loop v)))
                 = network_calls (events t)
                   ++ map (probe owner repo) (file :: files)
              /\ pending (snd (loop v)) = pending t
              /\ exists listed,
                   subsequence listed (file :: files)
                   /\ output (snd (loop v))
                      = output t ++ map listed_line listed).
    { intros v Hv. cbv zeta. destruct (C v Hv) as [N [P [here [S O]]]].
      destruct (IH v) as [R [N' [P' [rest [S' O']]]]].
      split; [exact R|]. split; [|split].
      - rewrite N', N, <- app_assoc. reflexivity.
      - congruence.
      - exists (here ++ rest). split.
        + exact (subsequence_app here [file] rest files S S').
        + rewrite O', O, map_app, <- app_assoc. reflexivity. }
    destruct E as [v [Hv ->]]. exact (D v Hv).
Qed.

(** X15.  [scrape github tree] is no tree view: it shows the two
    heading lines and then requests exactly the five common files
    README.md, package.json, manifest.json, SECURITY.md and LICENSE of
    the repository, each once, in this order and on the branch main
    only (there is no fallback to master here).  It returns whatever
    the network answers, a rejected request included; the only further
    lines are a check-marked line for some of the five files, in the
    order of the requests; it starts no transport call. *)
Theorem tree_view_probes_five_files
    (host : Host) (owner repo : jsstring) (t : Terminal) :
  let t' := snd (fetchGitHubTree host owner repo t) in
  fst (fetchGitHubTree host owner repo t) = Returned tt
  /\ network_calls (events t')
     = network_calls (events t) ++ map (probe owner repo) commonFiles
  /\ List.length (network_calls (events t'))
     = (List.length (network_calls (events t)) + 5)%nat
  /\ pending t' = pending t
  /\ exists listed,
       subsequence listed commonFiles
       /\ output t' = output t ++ tree_heading ++ map listed_line listed.
Proof.
  cbv zeta.
  set (u := fold_left (fun t l => shows l t) tree_heading t).
  assert (H : fetchGitHubTree host owner repo t
              = for_each commonFiles (probe_file host owner repo) u)
    by reflexivity.
  rewrite H.
  destruct (probes_each_file host owner repo commonFiles u)
    as [R [N [P [listed [S O]]]]].
  assert (E : network_calls (events u) = network_calls (events t)).
  { subst u. cbn [fold_left tree_heading].
    rewrite !events_shows, !network_calls_app.
    cbn [network_calls filter]. now rewrite !app_nil_r. }
  split; [exact R|]. split; [|split; [|split]].
  - rewrite N, E. reflexivity.
  - rewrite N, E, length_app. reflexivity.
  - rewrite P. reflexivity.
  - exists listed. split; [exact S|]. rewrite O. subst u.
    cbn [fold_left tree_heading].
    rewrite !output_shows, <- !app_assoc. reflexivity.
Qed.

(* ================================================================== *)
(** ** What the completions show *)
(* ================================================================== *)

Lemma output_renders (lines : list OutputLine) (t : Terminal) :
  output (renders lines t) = output t ++ lines.
Proof.
  revert t. induction lines as [|l lines IH]; intros t; cbn.
  - now rewrite app_nil_r.
  - unfold renders in IH. rewrite IH, output_shows, <- app_assoc.
    reflexivity.
Qed.

Lemma renders_app (a b : list OutputLine) (t : Terminal) :
  renders (a ++ b) t = renders b (renders a t).
Proof. apply fold_left_app. Qed.

Lemma get_runs (host : Host) (v : JsValue) (k : jsstring) (t : Terminal) :
  get host v k t
  = match v with
    | VUndefined => (Thrown (type_error host (PropertyOfUndefined k)), t)
    | VNull => (Thrown (type_error host (PropertyOfNull k)), t)
    | _ => (Returned (Value.prop v k), t)
    end.
Proof. now destruct v. Qed.

(** The body of the two listings on one item: the line of the item is
    shown, or the item stops the listing with its error. *)
Lemma item_runs (host : Host) (a b : jsstring)
    (line : jsstring -> jsstring -> jsstring) (x : JsValue) (t : Terminal) :
  (x1 <- get host x a ;;
   s1 <- toString host x1 ;;
   x2 <- get host x b ;;
   s2 <- toString host x2 ;;
   appendOutput (line s1 s2) Success) t
  = match item_error a b x with
    | None =>
        (Returned tt,
         shows (Line (line (text_of (Value.prop x a))
                        (text_of (Value.prop x b))) Success) t)
    | Some e => (Thrown (type_error host e), t)
    end.
Proof.
  unfold bind at 1. rewrite get_runs.
  destruct x; try reflexivity;
    unfold bind at 1; rewrite toString_runs;
    unfold item_error, converts, text_of;
    (destruct (Value.to_string (Value.prop _ a)); [|reflexivity]);
    unfold bind at 1; rewrite get_runs;
    unfold bind at 1; rewrite toString_runs;
    (destruct (Value.to_string (Value.prop _ b)); reflexivity).
Qed.

(** The loop of the two listings: a line for each item before the
    first that cannot be shown, and the error of that one. *)
Lemma listing_runs (host : Host) (a b : jsstring)
    (line : jsstring -> jsstring -> jsstring) (items : list JsValue)
    (t : Terminal) :
  for_each items
    (fun x =>
       x1 <- get host x a ;;
       s1 <- toString host x1 ;;
       x2 <- get host x b ;;
       s2 <- toString host x2 ;;
       appendOutput (line s1 s2) Success) t
  = (ends_with host (first_error a b items),
     renders
       (map (fun x => Line (line (text_of (Value.prop x a))
                              (text_of (Value.prop x b))) Success)
          (readable a b items)) t).
Proof.
  revert t. induction items as [|x items IH]; intros t; [reflexivity|].
  cbn [for_each first_error readable]. unfold bind at 1.
  rewrite item_runs. destruct (item_error a b x); [reflexivity|].
  rewrite IH. reflexivity.
Qed.

(** X16.  The link and meta listings are shown item by item.  The
    heading comes first (one line for links, two for meta), unless the
    count or the title has no primitive: then the callback throws at
    once.  Then comes one line for each item of the array, up to the
    first item that cannot be shown: an item that is [undefined] or
    [null], whose field cannot be read, or an item one of whose two
    fields has no primitive.  Without such an item the callback
    returns; with one it throws the TypeError of that item, and the
    lines of the items before it stay on the display.  A meta result
    whose [metas] is no array shows the two heading lines and throws
    the TypeError of the call of [forEach]. *)
Theorem listings_are_shown_item_by_item
    (host : Host) (result : JsValue) (items : list JsValue) (t : Terminal) :
  Value.truthy result = true ->
  let stopped := (Thrown (type_error host NotPrimitive), t) in
  (Value.prop result (lit "links") = VArr items ->
   pageLinksCallback host result t
   = if converts (Value.prop result (lit "count")) then
       (ends_with host (first_error (lit "text") (lit "href") items),
        renders (links_heading result
                 :: map link_line (readable (lit "text") (lit "href") items)) t)
     else stopped)
  /\ (Value.prop result (lit "metas") = VArr items ->
      pageMetaCallback host result t
      = if converts (Value.prop result (lit "title")) then
          (ends_with host (first_error (lit "name") (lit "content") items),
           renders (meta_heading result
                    ++ map meta_line
                         (readable (lit "name") (lit "content") items)) t)
        else stopped)
  /\ ((forall l, Value.prop result (lit "metas") <> VArr l) ->
      converts (Value.prop result (lit "title")) = true ->
      pageMetaCallback host result t
      = (Thrown (type_error host
                   (forEach_error (Value.prop result (lit "metas")))),
         renders (meta_heading result) t))
  /\ (forall a b, first_error a b items = None <-> readable a b items = items).
Proof.
  intros T stopped. split; [|split; [|split]].
  - intros L. unfold pageLinksCallback. rewrite T, L. cbn [Value.truthy andb].
    unfold bind at 1. rewrite toString_runs.
    unfold converts, links_heading, text_of.
    destruct (Value.to_string (Value.prop result (lit "count"))) as [count|];
      [|reflexivity].
    unfold bind at 1, appendOutput at 1, assign at 1. unfold forEach.
    rewrite (listing_runs host (lit "text") (lit "href")
               (fun text href =>
                  lit "  " ++ text ++ lit " " ++ arrow ++ lit " " ++ href)).
    reflexivity.
  - intros L. unfold pageMetaCallback. rewrite T, L.
    unfold bind at 1. rewrite toString_runs.
    unfold converts, meta_heading, text_of.
    destruct (Value.to_string (Value.prop result (lit "title"))) as [title|];
      [|reflexivity].
    unfold bind at 1, appendOutput at 1, assign at 1.
    unfold bind at 1, appendOutput at 1, assign at 1. unfold forEach.
    rewrite (listing_runs host (lit "name") (lit "content")
               (fun name content => lit "  " ++ name ++ lit ": " ++ content)).
    unfold renders. rewrite fold_left_app. reflexivity.
  - intros N C. unfold pageMetaCallback. rewrite T.
    unfold bind at 1. rewrite toString_runs.
    unfold converts, meta_heading, text_of in *.
    destruct (Value.to_string (Value.prop result (lit "title"))) as [title|];
      [|discriminate].
    unfold bind at 1, appendOutput at 1, assign at 1.
    unfold bind at 1, appendOutput at 1, assign at 1.
    unfold forEach.
    destruct (Value.prop result (lit "metas")) as [| | | | | |l|];
      try reflexivity.
    now destruct (N l).
  - intros a b. induction items as [|x items IH]; [now split|].
    cbn [first_error readable].
    destruct (item_error a b x); [split; discriminate|].
    rewrite IH. split; [now intros -> | now intros [= ->]].
Qed.

Lemma listings_are_shown_item_by_item_witness :
  let home := VObj [(lit "text", VStr (lit "Home"));
                    (lit "href", VStr (lit "https://example.org/"))] in
  let about := VObj [(lit "text", VStr (lit "About"));
                     (lit "href", VStr (lit "https://example.org/about"))] in
  let result :=
    VObj [(lit "count", VNum 3); (lit "links", VArr [home; VNull; about])] in
  pageLinksCallback demo_host result initial
  = (Thrown (lit "Cannot read properties of null (reading 'text')"),
     renders [Line (nl ++ lit "Found 3 links (showing first 100):") Success;
              Line (lit "  Home " ++ arrow ++ lit " https://example.org/")
                Success] initial).
Proof.
  intros home about result.
  destruct (listings_are_shown_item_by_item demo_host result
              [home; VNull; about] initial eq_refl) as [L _].
  rewrite (L eq_refl). vm_compute. reflexivity.
Defined.

(** X17.  An exception of the page reaches the user only for snippets.
    The callbacks of the scrape and dom commands never look at the
    exception flag: the completion of such a call does the same
    whether the flag is set or not.  When the transport reports an
    exception (no result, flag set) for the waiting call [n], the call
    is taken from the waiting ones, the end message is sent, and the
    display gains: nothing for the three page scrapes, the warning that
    nothing matched for the four dom commands, and an EXCEPTION line
    for a snippet only. *)
Theorem page_exceptions_show_as_no_match
    (host : Host) (n : nat) (callback : Callback) (result : JsValue)
    (t : Terminal) :
  nth_error (pending t) n = Some (Some callback) ->
  let t' := snd (transportCompletes host n VUndefined true t) in
  (callback <> SnippetCb ->
   transportCompletes host n result true t
   = transportCompletes host n result false t)
  /\ fst (transportCompletes host n VUndefined true t) = Returned tt
  /\ pending t' = remove_nth n (pending t)
  /\ events t'
     = events t ++ Sent EXECUTION_END :: map Rendered (exception_report callback)
  /\ output t' = output t ++ exception_report callback.
Proof.
  intros P t'. subst t'. unfold transportCompletes. rewrite P.
  split; [|].
  - intros N. destruct callback; try reflexivity. now destruct N.
  - destruct callback; repeat split; cbn;
      rewrite ?app_nil_r, <- ?app_assoc; reflexivity.
Qed.

Lemma page_exceptions_show_as_no_match_witness :
  let t := snd (parseCommand demo_host (lit "dom set h1 it's") initial) in
  let t' := snd (transportCompletes demo_host 0 VUndefined true t) in
  pending t = [Some SetTextCb]
  /\ pending t' = []
  /\ output t'
     = output t ++ [Line (lit "WARNING: No elements matched selector") Warning].
Proof.
  intros t t'.
  assert (P : nth_error (pending t) 0 = Some (Some SetTextCb))
    by (vm_compute; reflexivity).
  destruct (page_exceptions_show_as_no_match demo_host 0 SetTextCb VUndefined
              t P) as [_ [_ [Q [_ O]]]].
  split; [vm_compute; reflexivity|]. split; [exact Q | exact O].
Defined.

(* ================================================================== *)
(** ** The validated target in a run *)
(* ================================================================== *)

Lemma same_target_refl (t : Terminal) : same_target t t.
Proof. split; reflexivity. Qed.

Lemma same_target_trans (a b c : Terminal) :
  same_target a b -> same_target b c -> same_target a c.
Proof. unfold same_target. intros [A1 A2] [B1 B2]. split; congruence. Qed.

Lemma same_session_target (a b : Terminal) : same_session a b -> same_target a b.
Proof. intros (_ & _ & _ & _ & B & V). now split. Qed.

Ltac target_kept :=
  related_cases same_target_refl same_target_trans ltac:(split; reflexivity).

Lemma same_target_executeCommand (host : Host) :
  related same_target (executeCommand host).
Proof.
  assert (P : forall command, related same_target (parseCommand host command))
    by (intros command t; apply same_session_target, same_session_parseCommand).
  unfold executeCommand. target_kept.
Qed.

Lemma same_target_navigateHistory (d : jsstring) :
  related same_target (navigateHistory d).
Proof.
  intros t. unfold navigateHistory.
  repeat match goal with
         | |- context [if ?b then _ else _] => destruct b
         end; split; reflexivity.
Qed.

Lemma same_target_transportCompletes (host : Host) (n : nat)
    (result : JsValue) (isException : bool) :
  related same_target (transportCompletes host n result isException).
Proof.
  intros t. unfold transportCompletes.
  destruct (nth_error (pending t) n) as [callback|];
    [|apply same_target_refl].
  assert (G : related same_target
                (evalCompleted host callback result isException)).
  { unfold_callbacks. target_kept. }
  exact (G (set_pending (remove_nth n (pending t)) t)).
Qed.

Lemma same_target_handle (host : Host) (i : Input) :
  validates i = false -> related same_target (handle host i).
Proof.
  intros V. destruct i as [key|value|key|value| |n result isException];
    cbn [handle validates] in *.
  - pose proof (same_target_executeCommand host).
    pose proof same_target_navigateHistory.
    unfold handleKeyDown. target_kept.
  - target_kept.
  - rewrite V. target_kept.
  - target_kept.
  - discriminate.
  - apply same_target_transportCompletes.
Qed.

(** X18.  Only a validation changes the validated target.  In a run of
    the panel that contains neither a click on the validate button nor
    Enter in the URL field, the validated target and the border of the
    URL field at the end are those of the start: no command, no
    completion of a transport call, no key in the command line and no
    edit of either field touches them.  In particular an edit of the
    URL field leaves the target of the previous validation in force,
    and the scrape commands go on using it. *)
Theorem only_validation_changes_the_target
    (host : Host) (inputs : list Input) (t : Terminal) :
  forallb (fun i => negb (validates i)) inputs = true ->
  validatedUrl (run host inputs t) = validatedUrl t
  /\ targetBorder (run host inputs t) = targetBorder t.
Proof.
  revert t. induction inputs as [|i inputs IH]; intros t F.
  - split; reflexivity.
  - cbn [forallb] in F. apply andb_true_iff in F as [V F].
    apply negb_true_iff in V.
    change (run host (i :: inputs) t) with (run host inputs (react host t i)).
    destruct (IH (react host t i) F) as [A B].
    destruct (same_target_handle host i V t) as [C D].
    unfold react in *. split; congruence.
Qed.

Lemma only_validation_changes_the_target_witness :
  let t := set_validatedUrl (Some acme_widget) initial in
  let inputs :=
    [UrlEdit (lit "https://example.org/other"); UrlKey (lit "Tab");
     CommandEdit (lit "scrape github readme"); CommandKey (lit "Enter");
     CommandEdit (lit "document.title"); CommandKey (lit "Enter");
     TransportDone 0 (VStr (lit "Example")) false;
     CommandKey (lit "ArrowUp")] in
  targetUrl (run demo_host inputs t) = lit "https://example.org/other"
  /\ validatedUrl (run demo_host inputs t) = Some acme_widget.
Proof.
  intros t inputs.
  assert (F : forallb (fun i => negb (validates i)) inputs = true)
    by (vm_compute; reflexivity).
  destruct (only_validation_changes_the_target demo_host inputs t F) as [V _].
  split; [vm_compute; reflexivity | exact V].
Defined.

(* ================================================================== *)
(** ** The history in a run *)
(* ================================================================== *)

Lemma trimStart_head (s : jsstring) (x : N) (r : jsstring) :
  trimStart s = x :: r -> is_space x = false.
Proof.
  induction s as [|c s IH]; [discriminate|]. cbn.
  destruct (is_space c) eqn:C; [exact IH|].
  intros E. injection E as <- _. exact C.
Qed.

Lemma trimStart_suffix (s : jsstring) :
  exists w, blank w /\ s = w ++ trimStart s.
Proof.
  induction s as [|c s [w [B E]]]; [exists []; split; [constructor|reflexivity]|].
  cbn. destruct (is_space c) eqn:C.
  - exists (c :: w). split; [now constructor | cbn; now rewrite <- E].
  - exists []. split; [constructor | reflexivity].
Qed.

(** What [trim] leaves, when it leaves anything, starts and ends with
    a code unit that is no white space. *)
Lemma trim_trimmed (s : jsstring) : trim s <> [] -> trimmed (trim s).
Proof.
  unfold trim. intros NE.
  destruct (trimStart (List.rev (trimStart s))) as [|x b] eqn:B;
    [now destruct NE|].
  pose proof (trimStart_head _ _ _ B) as X.
  destruct (trimStart_suffix (List.rev (trimStart s))) as [w [_ E]].
  rewrite B in E. apply (f_equal (@List.rev N)) in E.
  rewrite rev_involutive, rev_app_distr in E.
  split.
  - destruct (List.rev (x :: b)) as [|y q] eqn:R; [now destruct NE|].
    cbn in E. exact (trimStart_head _ _ _ E).
  - rewrite rev_involutive. exact X.
Qed.

Lemma same_history_refl (t : Terminal) : same_history t t.
Proof. reflexivity. Qed.

Lemma same_history_trans (a b c : Terminal) :
  same_history a b -> same_history b c -> same_history a c.
Proof. unfold same_history. congruence. Qed.

Ltac history_kept :=
  related_cases same_history_refl same_history_trans ltac:(reflexivity).

Lemma same_history_transportCompletes (host : Host) (n : nat)
    (result : JsValue) (isException : bool) :
  related same_history (transportCompletes host n result isException).
Proof.
  intros t. unfold transportCompletes.
  destruct (nth_error (pending t) n) as [callback|];
    [|apply same_history_refl].
  assert (G : related same_history
                (evalCompleted host callback result isException)).
  { unfold_callbacks. history_kept. }
  exact (G (set_pending (remove_nth n (pending t)) t)).
Qed.

Lemma same_history_handle (host : Host) (i : Input) :
  submits i = false -> related same_history (handle host i).
Proof.
  intros V. destruct i as [key|value|key|value| |n result isException];
    cbn [handle submits] in *.
  - unfold handleKeyDown. rewrite V.
    assert (H : forall d, related same_history (navigateHistory d))
      by (intros d t; apply navigateHistory_keeps_history).
    history_kept.
  - history_kept.
  - unfold validateTargetUrl. history_kept.
  - history_kept.
  - unfold validateTargetUrl. history_kept.
  - apply same_history_transportCompletes.
Qed.

(** One input adds at most one entry to the history, at its head, and
    only Enter in the command line adds one. *)
Lemma history_step (host : Host) (i : Input) (t : Terminal) :
  exists new,
    commandHistory (react host t i) = new ++ commandHistory t
    /\ Forall trimmed new
    /\ (List.length new <= if submits i then 1 else 0)%nat.
Proof.
  destruct (submits i) eqn:S.
  - destruct i as [key| | | | |]; try discriminate.
    cbn [submits] in S. unfold react. cbn [handle]. unfold handleKeyDown.
    rewrite S.
    destruct (list_eq_dec N.eq_dec (trim (commandInput t)) []) as [E|NE].
    + rewrite (executeCommand_blank host t E). exists [].
      split; [reflexivity|]. split; [constructor | cbn; lia].
    + rewrite (executeCommand_submits host t NE). cbv zeta.
      destruct (same_session_parseCommand host (trim (commandInput t))
                  (set_commandInput []
                     (shows (echo_of (trim (commandInput t)))
                        (set_historyIndex (-1)
                           (set_commandHistory
                              (trim (commandInput t) :: commandHistory t) t)))))
        as (_ & H & _).
      exists [trim (commandInput t)]. split; [exact H|].
      split; [|cbn; lia]. constructor; [|constructor].
      now apply trim_trimmed.
  - exists []. split; [exact (same_history_handle host i S t)|].
    split; [constructor | cbn; lia].
Qed.

(** X19.  The history holds trimmed commands, newest first.  Whatever
    reaches the panel, the history at the end of a run is the history
    of its start with new entries before it; every new entry is a
    command as it was submitted: it is not empty and neither starts nor
    ends with white space; and there are at most as many new entries as
    Enter was pressed in the command line.  No entry is ever removed or
    changed, also not by [clear], and a command is recorded again when
    it is repeated. *)
Theorem history_holds_trimmed_commands
    (host : Host) (inputs : list Input) (t : Terminal) :
  exists new,
    commandHistory (run host inputs t) = new ++ commandHistory t
    /\ Forall trimmed new
    /\ (List.length new <= List.length (filter submits inputs))%nat.
Proof.
  revert t. induction inputs as [|i inputs IH]; intros t.
  - exists []. split; [reflexivity|]. split; [constructor | cbn; lia].
  - change (run host (i :: inputs) t) with (run host inputs (react host t i)).
    destruct (history_step host i t) as [one [E1 [T1 L1]]].
    destruct (IH (react host t i)) as [more [E2 [T2 L2]]].
    exists (more ++ one). split; [|split].
    + rewrite E2, E1, app_assoc. reflexivity.
    + apply Forall_app. now split.
    + rewrite length_app. cbn [filter].
      destruct (submits i); cbn [List.length]; lia.
Qed.
